(** * Contact intake and visitor statistics of the portfolio site

    A shallow embedding of the parts of [main/models.py], [main/views.py]
    and [dashboard/views.py] that validate and store a contact submission,
    record page views and aggregate them, followed by the properties the
    specification states about them.

    Conventions of the embedding.
    - A Python [str] is a [string]; its characters are classified the way
      Python classifies the ASCII range (white space, decimal digits, the
      letters changed by [lower]).  Python classifies the characters beyond
      that range too; a property that depends on the classification is
      stated for text that is ASCII ([Py.isascii]).
    - A [date] is its proleptic Gregorian ordinal ([date.toordinal]), a
      [datetime] the number of seconds since ordinal 0 at midnight, in the
      time zone of the site, in which [timezone.now] is read too; a request
      is handled at one instant.
    - The tables of the database are fields of one record [DB] that every
      operation receives and returns.  A row that the code inserts is
      stored: the limits an engine may put on the length of a column are
      not part of the embedding, a [NOT NULL] column that receives [None]
      is.
    - A Python exception is the [Raise] case of [result].
    - What lies outside the source (the clock, the geolocation service,
      the user-agent parser, the mail transport, the file storage, the
      URLconf of the project, the order the database gives to rows of equal
      count) is a parameter of the embedding.  The middleware of sessions
      and of messages is installed: [request.session] is there and
      [messages.success] and [messages.error] return. *)

From Stdlib Require Import ZArith Lia Ascii List Permutation Sorted.
From stdpp Require Import base option list strings gmap pretty.
From Equations Require Import Equations.

Local Open Scope Z_scope.

(** ** Python values used by the views *)

Module Py.

(** [str.isspace] on one character of the ASCII range. *)
Definition isspace (c : ascii) : bool :=
  let n := nat_of_ascii c in
  ((9 <=? n)%nat && (n <=? 13)%nat) || ((28 <=? n)%nat && (n <=? 32)%nat).

(** [str.isdigit] on one character of the ASCII range. *)
Definition isdigit (c : ascii) : bool :=
  let n := nat_of_ascii c in (48 <=? n)%nat && (n <=? 57)%nat.

Definition lower_char (c : ascii) : ascii :=
  let n := nat_of_ascii c in
  if ((65 <=? n)%nat && (n <=? 90)%nat)%bool then ascii_of_nat (n + 32) else c.

(** The characters of [s]. *)
Fixpoint to_list (s : string) : list ascii :=
  match s with
  | EmptyString => []
  | String c s' => c :: to_list s'
  end.

(** [s.lower()] *)
Fixpoint lower (s : string) : string :=
  match s with
  | EmptyString => EmptyString
  | String c s' => String (lower_char c) (lower s')
  end.

(** [s.lstrip()] *)
Fixpoint lstrip (s : string) : string :=
  match s with
  | EmptyString => EmptyString
  | String c s' => if isspace c then lstrip s' else s
  end.

(** [s.rstrip()]: a character is dropped when it is white space and
    everything after it has been dropped. *)
Fixpoint rstrip (s : string) : string :=
  match s with
  | EmptyString => EmptyString
  | String c s' =>
      match rstrip s' with
      | EmptyString => if isspace c then EmptyString else String c EmptyString
      | r => String c r
      end
  end.

(** [s.strip()] *)
Definition strip (s : string) : string := rstrip (lstrip s).

(** [s.split(sep)] for a separator of one character: the pieces between
    the separators, always at least one piece. *)
Fixpoint split (sep : ascii) (s : string) : list string :=
  match s with
  | EmptyString => [EmptyString]
  | String c s' =>
      if Ascii.eqb c sep then EmptyString :: split sep s'
      else match split sep s' with
           | [] => [String c EmptyString]
           | piece :: rest => String c piece :: rest
           end
  end.

(** [sep.join(l)] *)
Fixpoint join (sep : string) (l : list string) : string :=
  match l with
  | [] => EmptyString
  | [x] => x
  | x :: rest => x +:+ sep +:+ join sep rest
  end.

(** [re.sub(r'\D', '', s)]: every character that is not a digit is removed. *)
Fixpoint remove_non_digits (s : string) : string :=
  match s with
  | EmptyString => EmptyString
  | String c s' =>
      if isdigit c then String c (remove_non_digits s') else remove_non_digits s'
  end.

(** [os.path.basename(s)] *)
Definition basename (s : string) : string := List.last (split "/" s) EmptyString.

(** [bool(s)] *)
Definition truthy (s : string) : bool :=
  match s with EmptyString => false | _ => true end.

(** [s.isascii()] *)
Definition isascii (s : string) : bool :=
  forallb (fun c => (nat_of_ascii c <? 128)%nat) (to_list s).

(** [c in s] for one character [c]. *)
Definition contains_char (c : ascii) (s : string) : bool :=
  existsb (Ascii.eqb c) (to_list s).

(** [len(s)] *)
Definition len (s : string) : Z := Z.of_nat (String.length s).

(** [str(n)] for an [int]. *)
Definition str_of_int (n : Z) : string := pretty n.

End Py.

(** ** Regular expressions ([re])

    The patterns of the views use character classes, concatenation and
    [+]; a string is matched by taking derivatives of the pattern. *)

Module Re.

Inductive regex : Type :=
| Fail
| Eps
| Class (p : ascii -> bool)
| Seq (r1 r2 : regex)
| Alt (r1 r2 : regex)
| Star (r : regex).

(** [r+] *)
Definition Plus (r : regex) : regex := Seq r (Star r).

(** A literal character. *)
Definition Chr (c : ascii) : regex := Class (Ascii.eqb c).

Fixpoint nullable (r : regex) : bool :=
  match r with
  | Fail => false
  | Eps => true
  | Class _ => false
  | Seq r1 r2 => nullable r1 && nullable r2
  | Alt r1 r2 => nullable r1 || nullable r2
  | Star _ => true
  end.

Fixpoint deriv (c : ascii) (r : regex) : regex :=
  match r with
  | Fail => Fail
  | Eps => Fail
  | Class p => if p c then Eps else Fail
  | Seq r1 r2 =>
      if nullable r1 then Alt (Seq (deriv c r1) r2) (deriv c r2)
      else Seq (deriv c r1) r2
  | Alt r1 r2 => Alt (deriv c r1) (deriv c r2)
  | Star r1 => Seq (deriv c r1) (Star r1)
  end.

(** The whole of [s] is a word of [r]. *)
Fixpoint fullmatch (r : regex) (s : string) : bool :=
  match s with
  | EmptyString => nullable r
  | String c s' => fullmatch (deriv c r) s'
  end.

(** [s] without its last character when that character is a line feed. *)
Fixpoint chomp (s : string) : option string :=
  match s with
  | EmptyString => None
  | String c EmptyString => if Ascii.eqb c "010"%char then Some EmptyString else None
  | String c s' => option_map (String c) (chomp s')
  end.

(** [re.match('^' r '$', s)] as a truth value: [$] matches at the end of
    the string and also just before a line feed that ends the string. *)
Definition match_anchored (r : regex) (s : string) : bool :=
  fullmatch r s ||
  match chomp s with
  | Some s' => fullmatch r s'
  | None => false
  end.

End Re.

(** ** Exceptions *)

Inductive exn : Type :=
| ValueError (msg : string)
| KeyError (key : string)
| TypeError
| OverflowError
| IntegrityError
| OtherException (name : string).

Inductive result (A : Type) : Type :=
| Ok (a : A)
| Raise (e : exn).
Arguments Ok {A} a.
Arguments Raise {A} e.

Module Dates.

(** [date.min.toordinal()] and [date.max.toordinal()] *)
Definition MINORDINAL : Z := 1.
Definition MAXORDINAL : Z := 3652059.

(** [d + timedelta(days=n)] *)
Definition add_days (d n : Z) : result Z :=
  if (MINORDINAL <=? d + n) && (d + n <=? MAXORDINAL) then Ok (d + n)
  else Raise OverflowError.

(** Year, month and day of an ordinal (proleptic Gregorian calendar). *)
Definition civil (ordinal : Z) : Z * Z * Z :=
  let z := ordinal + 305 in
  let era := z / 146097 in
  let doe := z - era * 146097 in
  let yoe := (doe - doe / 1460 + doe / 36524 - doe / 146096) / 365 in
  let doy := doe - (365 * yoe + yoe / 4 - yoe / 100) in
  let mp := (5 * doy + 2) / 153 in
  let d := doy - (153 * mp + 2) / 5 + 1 in
  let m := if mp <? 10 then mp + 3 else mp - 9 in
  let y := yoe + era * 400 + (if m <=? 2 then 1 else 0) in
  (y, m, d).

(** A number on two digits, as [%d], [%m], [%H] and [%M] print it. *)
Definition two_digits (n : Z) : string :=
  if n <? 10 then "0" +:+ pretty n else pretty n.

(** [d.strftime('%d/%m')] *)
Definition strftime_dm (d : Z) : string :=
  let '(_, m, dd) := civil d in two_digits dd +:+ "/" +:+ two_digits m.

Definition SECONDS_PER_DAY : Z := 86400.

(** [t.strftime('%d/%m/%Y às %H:%M')] *)
Definition strftime_dmY_HM (t : Z) : string :=
  let '(y, m, dd) := civil (t / SECONDS_PER_DAY) in
  let secs := t mod SECONDS_PER_DAY in
  two_digits dd +:+ "/" +:+ two_digits m +:+ "/" +:+ pretty y +:+ " às " +:+
  two_digits (secs / 3600) +:+ ":" +:+ two_digits (secs mod 3600 / 60).

(** [timestamp__date]: the day a [datetime] falls on. *)
Definition date_of (t : Z) : Z := t / SECONDS_PER_DAY.

End Dates.

(** ** Queries of the ORM *)

Module Orm.

(** [qs.count()] *)
Definition count {A : Type} (qs : list A) : Z := Z.of_nat (length qs).

(** [qs.values(f).distinct()] *)
Definition distinct (values : list string) : list string := remove_dups values.

(** The number of rows of [values] that carry [key]. *)
Definition occurrences (key : string) (values : list string) : Z :=
  count (filter (fun v => v = key) values).

(** [qs.values(f).annotate(count=Count(f))]: one row per value of [f],
    with the number of rows that carry it (SQL [GROUP BY]). *)
Definition annotate_count (values : list string) : list (string * Z) :=
  map (fun key => (key, occurrences key values)) (distinct values).

(** How the database answers [order_by('-count')].  SQL promises rows in
    descending order of the count and nothing about rows of equal count. *)
Definition Ordering : Type := list (string * Z) -> list (string * Z).

(** The count of [a] is at least the count of [b]. *)
Definition count_ge (a b : string * Z) : Prop := a.2 >= b.2.

(** An answer returns the rows it was given, in descending order of count. *)
Definition is_order_by_count_desc (order_by : Ordering) : Prop :=
  forall rows, Permutation (order_by rows) rows /\ Sorted count_ge (order_by rows).

(** [qs.exclude(f='').values(f).annotate(count=Count(f)).order_by('-count')[:n]] *)
Definition top_values (order_by : Ordering) (n : nat) (values : list string)
  : list (string * Z) :=
  take n (order_by (annotate_count (filter (fun v => v <> EmptyString) values))).

(** Insertion into a list in descending order of count, in front of the
    rows of the same count. *)
Fixpoint insert_desc (row : string * Z) (sorted : list (string * Z))
  : list (string * Z) :=
  match sorted with
  | [] => [row]
  | r :: rest =>
      if row.2 <? r.2 then r :: insert_desc row rest else row :: r :: rest
  end.

(** An answer that keeps rows of equal count in the order they had. *)
Definition stable_order : Ordering :=
  fun rows => foldr insert_desc [] rows.

(** An answer that gives rows of equal count in the reverse of that order. *)
Definition reversing_order : Ordering :=
  fun rows => foldr insert_desc [] (reverse rows).

End Orm.

(** ** The models ([main/models.py]) *)

Module UploadedFile.
Record t : Type := { name : string; size : Z }.

(** [bool(f)]: a file is true when it has a name. *)
Definition truthy (f : t) : bool := Py.truthy (name f).
End UploadedFile.

Module Contact.

Record t : Type := {
  name : string;
  whatsapp : string;
  email : string;
  project_description : string;
  attachment : option UploadedFile.t;
  created_at : Z;
  is_read : bool;
  notes : string
}.

(** [contact_file_upload_path(instance, filename)] at time [now] *)
Definition contact_file_upload_path (now : Z) (filename : string) : string :=
  let '(year, month, _) := Dates.civil (Dates.date_of now) in
  "contact_attachments/" +:+ pretty year +:+ "/" +:+ pretty month +:+ "/" +:+ filename.

(** What the [FileField] does with the upload when the row is saved: an
    upload that has a name is handed to the storage under the path of
    [upload_to], and the row holds the name the storage saved it under;
    [storage_save] is that name, or the exception of the storage. *)
Definition save_attachment (now : Z) (storage_save : string -> result string)
    (attachment : option UploadedFile.t) : result (option UploadedFile.t) :=
  match attachment with
  | Some f =>
      if UploadedFile.truthy f then
        match storage_save (contact_file_upload_path now (UploadedFile.name f)) with
        | Ok stored =>
            Ok (Some {| UploadedFile.name := stored;
                        UploadedFile.size := UploadedFile.size f |})
        | Raise e => Raise e
        end
      else Ok (Some f)
  | None => Ok None
  end.

(** [Contact.objects.create(...)] at time [now]: the attachment is saved,
    [created_at] is set by [auto_now_add], [is_read] and [notes] take
    their defaults. *)
Definition create (now : Z) (storage_save : string -> result string)
    (name whatsapp email project_description : string)
    (attachment : option UploadedFile.t) (objects : list t)
  : result (t * list t) :=
  match save_attachment now storage_save attachment with
  | Ok attachment =>
      let c := {| name := name; whatsapp := whatsapp; email := email;
                  project_description := project_description;
                  attachment := attachment; created_at := now;
                  is_read := false; notes := EmptyString |} in
      Ok (c, objects ++ [c])
  | Raise e => Raise e
  end.

End Contact.

Inductive DeviceType : Type := desktop | mobile | tablet | unknown.

Global Instance DeviceType_eq_dec : EqDecision DeviceType.
Proof. solve_decision. Defined.

Module PageView.

Record t : Type := {
  ip_address : string;
  user_agent : string;
  referer : string;
  page_url : string;
  country : string;
  city : string;
  region : string;
  device_type : DeviceType;
  browser : string;
  operating_system : string;
  timestamp : Z;
  session_id : string;
  time_on_page : Z
}.

(** [PageView.objects.filter(timestamp__date=date)] *)
Definition on_date (date : Z) (objects : list t) : list t :=
  filter (fun pv => Dates.date_of (timestamp pv) = date) objects.

(** The property [is_unique_visitor]: no recorded view of the same
    address is strictly earlier. *)
Definition is_unique_visitor (objects : list t) (self : t) : bool :=
  negb (bool_decide
    (Exists (fun pv => ip_address pv = ip_address self /\
                       timestamp pv < timestamp self) objects)).

End PageView.

Module ContactFormSettings.

(** The row of the settings; [pk] is [None] until the row is saved.  The
    columns [created_at] and [updated_at], which no view reads, are left
    out. *)
Record t : Type := {
  pk : option Z;
  email_notifications : bool;
  notification_email : string;
  auto_reply_enabled : bool;
  auto_reply_subject : string;
  auto_reply_message : string;
  max_file_size_mb : Z;
  allowed_file_types : string
}.

Definition default_auto_reply_message : string :=
  "Olá {name},

Obrigado por entrar em contato conosco!

Recebemos sua mensagem e retornaremos em breve. Nosso tempo de resposta é de até 2 horas durante o horário comercial.

Detalhes da sua mensagem:
- Nome: {name}
- Email: {email}
- WhatsApp: {whatsapp}
- Data: {date}

Atenciosamente,
Equipe DevPro".

(** [ContactFormSettings(pk=pk)]: every field at its default. *)
Definition new (pk : option Z) : t :=
  {| pk := pk;
     email_notifications := true;
     notification_email := "admin@example.com";
     auto_reply_enabled := true;
     auto_reply_subject := "Obrigado pelo seu contato!";
     auto_reply_message := default_auto_reply_message;
     max_file_size_mb := 10;
     allowed_file_types := "pdf,doc,docx,txt" |}.

Definition with_pk (k : Z) (self : t) : t :=
  {| pk := Some k;
     email_notifications := email_notifications self;
     notification_email := notification_email self;
     auto_reply_enabled := auto_reply_enabled self;
     auto_reply_subject := auto_reply_subject self;
     auto_reply_message := auto_reply_message self;
     max_file_size_mb := max_file_size_mb self;
     allowed_file_types := allowed_file_types self |}.

(** [not self.pk] *)
Definition not_pk (self : t) : bool :=
  match pk self with
  | None => true
  | Some k => k =? 0
  end.

(** [ContactFormSettings.objects.exists()] *)
Definition exists_ (objects : gmap Z t) : bool :=
  negb (bool_decide (objects = ∅)).

(** The key the database gives to a row inserted without one, in a
    table from which no row has been deleted. *)
Definition next_pk (objects : gmap Z t) : Z :=
  1 + map_fold (fun k _ acc => Z.max k acc) 0 objects.

(** [models.Model.save]: a row without key is inserted under a new key;
    a row with a key is inserted when the table has no row of that key,
    and an instance that was loaded from the table replaces its row. *)
Definition super_save (self : t) (objects : gmap Z t) : t * gmap Z t :=
  match pk self with
  | None =>
      let k := next_pk objects in
      (with_pk k self, <[k := with_pk k self]> objects)
  | Some k => (self, <[k := self]> objects)
  end.

Definition save (self : t) (objects : gmap Z t) : result (t * gmap Z t) :=
  (* Ensure only one instance exists *)
  if not_pk self && exists_ objects
  then Raise (ValueError "Apenas uma configuração pode existir")
  else Ok (super_save self objects).

(** [cls.objects.get_or_create(pk=1)] followed by [return settings];
    [create] builds the instance with the key and saves it. *)
Definition get_settings (objects : gmap Z t) : result (t * gmap Z t) :=
  match objects !! 1 with
  | Some settings => Ok (settings, objects)
  | None => save (new (Some 1)) objects
  end.

End ContactFormSettings.

Module SiteStatistics.

Record t : Type := {
  date : Z;
  total_views : Z;
  unique_visitors : Z;
  contact_submissions : Z;
  top_country_1 : string;
  top_country_1_count : Z;
  top_country_2 : string;
  top_country_2_count : Z;
  top_country_3 : string;
  top_country_3_count : Z;
  desktop_views : Z;
  mobile_views : Z;
  tablet_views : Z;
  created_at : Z;
  updated_at : Z
}.

(** [cls.objects.create(date=date)] at time [now] *)
Definition new (now date : Z) : t :=
  {| date := date; total_views := 0; unique_visitors := 0;
     contact_submissions := 0;
     top_country_1 := EmptyString; top_country_1_count := 0;
     top_country_2 := EmptyString; top_country_2_count := 0;
     top_country_3 := EmptyString; top_country_3_count := 0;
     desktop_views := 0; mobile_views := 0; tablet_views := 0;
     created_at := now; updated_at := now |}.

(** The assignments [stats.total_views = ...] to [stats.tablet_views = ...] *)
Definition set_counts (views visitors contacts d m tb : Z) (stats : t) : t :=
  {| date := date stats; total_views := views; unique_visitors := visitors;
     contact_submissions := contacts;
     top_country_1 := top_country_1 stats;
     top_country_1_count := top_country_1_count stats;
     top_country_2 := top_country_2 stats;
     top_country_2_count := top_country_2_count stats;
     top_country_3 := top_country_3 stats;
     top_country_3_count := top_country_3_count stats;
     desktop_views := d; mobile_views := m; tablet_views := tb;
     created_at := created_at stats; updated_at := updated_at stats |}.

(** [setattr(stats, f'top_country_{i}', country)] and
    [setattr(stats, f'top_country_{i}_count', count)]; for an [i] that
    names no column the row is unchanged. *)
Definition set_top_country (i : nat) (row : string * Z) (stats : t) : t :=
  let pick (j : nat) (new old : string) := if decide (i = j) then new else old in
  let pickn (j : nat) (new old : Z) := if decide (i = j) then new else old in
  {| date := date stats; total_views := total_views stats;
     unique_visitors := unique_visitors stats;
     contact_submissions := contact_submissions stats;
     top_country_1 := pick 1%nat row.1 (top_country_1 stats);
     top_country_1_count := pickn 1%nat row.2 (top_country_1_count stats);
     top_country_2 := pick 2%nat row.1 (top_country_2 stats);
     top_country_2_count := pickn 2%nat row.2 (top_country_2_count stats);
     top_country_3 := pick 3%nat row.1 (top_country_3 stats);
     top_country_3_count := pickn 3%nat row.2 (top_country_3_count stats);
     desktop_views := desktop_views stats; mobile_views := mobile_views stats;
     tablet_views := tablet_views stats;
     created_at := created_at stats; updated_at := updated_at stats |}.

(** [for i, country_stat in enumerate(country_stats, i): ...] *)
Fixpoint set_top_countries (i : nat) (country_stats : list (string * Z))
    (stats : t) : t :=
  match country_stats with
  | [] => stats
  | row :: rest => set_top_countries (S i) rest (set_top_country i row stats)
  end.

(** [stats.save()] at time [now]: [updated_at] is set by [auto_now]. *)
Definition touch (now : Z) (stats : t) : t :=
  {| date := date stats; total_views := total_views stats;
     unique_visitors := unique_visitors stats;
     contact_submissions := contact_submissions stats;
     top_country_1 := top_country_1 stats;
     top_country_1_count := top_country_1_count stats;
     top_country_2 := top_country_2 stats;
     top_country_2_count := top_country_2_count stats;
     top_country_3 := top_country_3 stats;
     top_country_3_count := top_country_3_count stats;
     desktop_views := desktop_views stats; mobile_views := mobile_views stats;
     tablet_views := tablet_views stats;
     created_at := created_at stats; updated_at := now |}.

(** The fields a recomputation derives from the recorded events. *)
Definition derived_fields (stats : t)
  : Z * (Z * Z * Z) * (string * Z) * (string * Z) * (string * Z) * (Z * Z * Z) :=
  (date stats,
   (total_views stats, unique_visitors stats, contact_submissions stats),
   (top_country_1 stats, top_country_1_count stats),
   (top_country_2 stats, top_country_2_count stats),
   (top_country_3 stats, top_country_3_count stats),
   (desktop_views stats, mobile_views stats, tablet_views stats)).

Section update.

Variable order_by : Orm.Ordering.

(** [update_daily_stats(cls, date=None)] run at time [now].  The table of
    the statistics is keyed by [date], which is declared unique. *)
Definition update_daily_stats (now : Z) (date : option Z)
    (page_views : list PageView.t) (contacts : list Contact.t)
    (objects : gmap Z t) : t * gmap Z t :=
  let date := match date with
              | None => Dates.date_of now
              | Some d => d
              end in
  (* Get or create stats for the date *)
  let '(stats, objects) :=
    match objects !! date with
    | Some stats => (stats, objects)
    | None => (new now date, <[date := new now date]> objects)
    end in
  (* Calculate statistics *)
  let daily_views := PageView.on_date date page_views in
  let with_device (d : DeviceType) :=
    filter (fun pv => PageView.device_type pv = d) daily_views in
  let stats :=
    set_counts
      (Orm.count daily_views)
      (Orm.count (Orm.distinct (map PageView.ip_address daily_views)))
      (Orm.count
         (filter (fun c => Dates.date_of (Contact.created_at c) = date) contacts))
      (Orm.count (with_device desktop))
      (Orm.count (with_device mobile))
      (Orm.count (with_device tablet))
      stats in
  (* Top countries *)
  let country_stats :=
    Orm.top_values order_by 3 (map PageView.country daily_views) in
  let stats := set_top_countries 1 country_stats stats in
  let stats := touch now stats in
  (stats, <[date := stats]> objects).

End update.

End SiteStatistics.

(** ** The outside of the program *)

(** A value read from the parsed reply of the geolocation service: [None],
    a [str], or any other value, given by what [str()] makes of it. *)
Inductive pyvalue : Type :=
| PyNone
| PyStr (s : string)
| PyOther (str : string).

Global Instance pyvalue_eq_dec : EqDecision pyvalue.
Proof. solve_decision. Defined.

(** What [response.json()] returns: a [dict], or a value that cannot be
    indexed by a string. *)
Inductive payload : Type :=
| Dict (d : gmap string pyvalue)
| NotADict.

(** How [requests.get(url, timeout=5)] ends: with an exception (a timeout,
    a refused connection), or with a reply whose [json()] yields a payload
    or raises. *)
Inductive lookup : Type :=
| RequestRaises (e : exn)
| Reply (status_code : Z) (json : result payload).

(** The result of [user_agents.parse]. *)
Record UserAgent : Type := {
  is_mobile : bool;
  is_tablet : bool;
  is_pc : bool;
  browser_family : string;
  browser_version_string : string;
  os_family : string;
  os_version_string : string
}.

Record Email : Type := {
  subject : string;
  body : string;
  from_email : string;
  to : list string;
  attachments : list UploadedFile.t
}.

(** Everything a request meets outside the source: the clock, the
    geolocation service, the user-agent parser, the mail transport, the
    file system, [str.format], the file storage and the URLconf. *)
Record World : Type := {
  now : Z;
  requests_get : string -> lookup;
  parse : string -> UserAgent;
  DEFAULT_FROM_EMAIL : string;
  attach_file : UploadedFile.t -> result unit;
  send : Email -> result unit;
  format : string -> string -> string -> string -> string -> result string;
  send_mail : Email -> result unit;
  (** [clean_ipv6_address(value)]: the canonical text of an IPv6 address,
      [None] for a [ValidationError] *)
  clean_ipv6_address : string -> option string;
  (** What the storage does with a file offered under the path of
      [upload_to] ([storage.generate_filename], then [storage.save]): the
      name the file is saved under, or the exception of the storage *)
  storage_save : string -> result string;
  (** [resolve_url(to)] for the name of a view, which [redirect(to)]
      calls: the URL of the view under the URLconf of the project, whose
      root lies outside the source, or [NoReverseMatch] *)
  resolve_url : string -> result string
}.

Record Request : Type := {
  method : string;
  META : gmap string string;
  POST : gmap string string;
  FILES : gmap string UploadedFile.t;
  headers : gmap string string;
  session_key : option string;
  build_absolute_uri : string -> string
}.

Inductive Response : Type :=
| JsonError (error : string)
| JsonSuccess (message : string)
| RedirectSuccess (to_view : string) (message : string)
| RedirectError (to_view : string) (message : string).

(** ** The database and what a request does to it *)

Record DB : Type := {
  contacts : list Contact.t;
  page_views : list PageView.t;
  form_settings : gmap Z ContactFormSettings.t;
  site_statistics : gmap Z SiteStatistics.t
}.

(** What a request did, in the order it did it: the rows it stored, the
    calls of the mail transport ([email_msg.send()] and [send_mail(...)],
    with the message), and for each notification block it ran how the
    block ended ([Raise e] is the exception the block caught and printed). *)
Inductive Event : Type :=
| ContactCreated (c : Contact.t)
| PageViewCreated (pv : PageView.t)
| AdminNotified (outcome : result unit)
| ApplicantNotified (outcome : result unit)
| SendCalled (message : Email)
| SendMailCalled (message : Email).

Definition State : Type := DB * list Event.

(** A computation that reads and changes the database, adds to the log,
    and returns or raises. *)
Definition M (A : Type) : Type := State -> result A * State.

Definition ret {A : Type} (a : A) : M A := fun st => (Ok a, st).

Definition raise {A : Type} (e : exn) : M A := fun st => (Raise e, st).

Definition bind {A B : Type} (m : M A) (k : A -> M B) : M B :=
  fun st =>
    match m st with
    | (Ok a, st') => k a st'
    | (Raise e, st') => (Raise e, st')
    end.

(** [try: m  except Exception as e: handler(e)]; what [m] did before it
    raised stays done. *)
Definition try_except {A : Type} (m : M A) (handler : exn -> M A) : M A :=
  fun st =>
    match m st with
    | (Ok a, st') => (Ok a, st')
    | (Raise e, st') => handler e st'
    end.

Definition lift {A : Type} (r : result A) : M A := fun st => (r, st).

Definition get_db : M DB := fun st => (Ok st.1, st).

Definition put_db (db : DB) : M unit := fun st => (Ok tt, (db, st.2)).

Definition emit (ev : Event) : M unit := fun st => (Ok tt, (st.1, st.2 ++ [ev])).

Notation "'do' x <- m ; k" := (bind m (fun x => k))
  (at level 10, x name, m at level 100, k at level 200).
Notation "'run' m ; k" := (bind m (fun _ => k))
  (at level 10, m at level 100, k at level 200).

Definition set_contacts (l : list Contact.t) (db : DB) : DB :=
  {| contacts := l; page_views := page_views db;
     form_settings := form_settings db; site_statistics := site_statistics db |}.

Definition set_page_views (l : list PageView.t) (db : DB) : DB :=
  {| contacts := contacts db; page_views := l;
     form_settings := form_settings db; site_statistics := site_statistics db |}.

Definition set_form_settings (m : gmap Z ContactFormSettings.t) (db : DB) : DB :=
  {| contacts := contacts db; page_views := page_views db;
     form_settings := m; site_statistics := site_statistics db |}.

Definition set_site_statistics (m : gmap Z SiteStatistics.t) (db : DB) : DB :=
  {| contacts := contacts db; page_views := page_views db;
     form_settings := form_settings db; site_statistics := m |}.

(** ** The views of the site ([main/views.py]) *)

Module Views.

(** [d.get(key, default)] *)
Definition get_default {A : Type} (d : gmap string A) (key : string) (default : A) : A :=
  match d !! key with
  | Some v => v
  | None => default
  end.

Definition get_client_ip (request : Request) : option string :=
  let x_forwarded_for := META request !! "HTTP_X_FORWARDED_FOR" in
  match x_forwarded_for with
  | Some x =>
      if Py.truthy x then head (Py.split "," x)
      else META request !! "REMOTE_ADDR"
  | None => META request !! "REMOTE_ADDR"
  end.

Record DeviceInfo : Type := {
  info_device_type : DeviceType;
  info_browser : string;
  info_operating_system : string
}.

Definition get_device_info (w : World) (user_agent_string : string) : DeviceInfo :=
  let user_agent := parse w user_agent_string in
  (* Determine device type *)
  let device_type :=
    if is_mobile user_agent then mobile
    else if is_tablet user_agent then tablet
    else if is_pc user_agent then desktop
    else unknown in
  {| info_device_type := device_type;
     info_browser :=
       browser_family user_agent +:+ " " +:+ browser_version_string user_agent;
     info_operating_system :=
       os_family user_agent +:+ " " +:+ os_version_string user_agent |}.

Record LocationInfo : Type := {
  loc_country : pyvalue;
  loc_city : pyvalue;
  loc_region : pyvalue
}.

(** [data[key]] *)
Definition subscript (data : payload) (key : string) : result pyvalue :=
  match data with
  | Dict d =>
      match d !! key with
      | Some v => Ok v
      | None => Raise (KeyError key)
      end
  | NotADict => Raise TypeError
  end.

(** [data.get(key, '')], reached only after [data[...]] succeeded. *)
Definition dict_get (data : payload) (key : string) : pyvalue :=
  match data with
  | Dict d => get_default d key (PyStr EmptyString)
  | NotADict => PyStr EmptyString
  end.

(** The body of the [try] of [get_location_info]: [Ok (Some info)] when
    it reaches its [return], [Ok None] when it falls through. *)
Definition location_lookup (w : World) (ip_address : string)
  : result (option LocationInfo) :=
  match requests_get w ("http://ip-api.com/json/" +:+ ip_address) with
  | RequestRaises e => Raise e
  | Reply status_code json =>
      if status_code =? 200 then
        match json with
        | Raise e => Raise e
        | Ok data =>
            match subscript data "status" with
            | Raise e => Raise e
            | Ok status =>
                if bool_decide (status = PyStr "success") then
                  Ok (Some {| loc_country := dict_get data "country";
                              loc_city := dict_get data "city";
                              loc_region := dict_get data "regionName" |})
                else Ok None
            end
        end
      else Ok None
  end.

Definition get_location_info (w : World) (ip_address : string)
  : result LocationInfo :=
  match location_lookup w ip_address with
  | Ok (Some info) => Ok info
  | Ok None | Raise _ (* except: pass *) =>
      Ok {| loc_country := PyStr EmptyString; loc_city := PyStr EmptyString;
            loc_region := PyStr EmptyString |}
  end.

(** The value a [CharField] declared without [null=True] stores: a [str]
    as it is, another value through [str()]; [None] is refused. *)
Definition char_field (v : pyvalue) : result string :=
  match v with
  | PyStr s => Ok s
  | PyOther s => Ok s
  | PyNone => Raise IntegrityError
  end.

(** What the column of a [GenericIPAddressField] receives for a value: a
    text that holds a colon and is an IPv6 address is written in canonical
    form, an empty text is written as [NULL], which the column refuses as
    it refuses [None]. *)
Definition ip_address_field (w : World) (value : option string) : result string :=
  match value with
  | None => Raise IntegrityError
  | Some value =>
      let prepared :=
        if Py.truthy value && Py.contains_char ":" value then
          match clean_ipv6_address w value with
          | Some cleaned => cleaned
          | None => value
          end
        else value in
      if Py.truthy prepared then Ok prepared else Raise IntegrityError
  end.

(** [track_page_view] returns the view it created, an object that keeps
    the address it was given; the row of the table holds what the column
    received. *)
Definition track_page_view (w : World) (request : Request) (page_url : string)
  : M PageView.t :=
  let ip_address := get_client_ip request in
  let user_agent := get_default (META request) "HTTP_USER_AGENT" EmptyString in
  let referer := get_default (META request) "HTTP_REFERER" EmptyString in
  (* Get device information *)
  let device_info := get_device_info w user_agent in
  (* Get location information *)
  do location_info <- lift (get_location_info w
                              (match ip_address with
                               | Some ip => ip
                               | None => "None"
                               end));
  (* Create page view record *)
  do stored_ip <- lift (ip_address_field w ip_address);
  do country <- lift (char_field (loc_country location_info));
  do city <- lift (char_field (loc_city location_info));
  do region <- lift (char_field (loc_region location_info));
  let page_view (ip : string) :=
    {| PageView.ip_address := ip;
       PageView.user_agent := user_agent;
       PageView.referer := referer;
       PageView.page_url := page_url;
       PageView.country := country;
       PageView.city := city;
       PageView.region := region;
       PageView.device_type := info_device_type device_info;
       PageView.browser := info_browser device_info;
       PageView.operating_system := info_operating_system device_info;
       PageView.timestamp := now w;
       PageView.session_id :=
         match session_key request with
         | Some k => k
         | None => EmptyString
         end;
       PageView.time_on_page := 0 |} in
  do db <- get_db;
  run put_db (set_page_views (page_views db ++ [page_view stored_ip]) db);
  run emit (PageViewCreated (page_view stored_ip));
  ret (page_view (match ip_address with
                  | Some ip => ip
                  | None => stored_ip
                  end)).

(** [r'^[^\s@]+@[^\s@]+\.[^\s@]+$'], without its anchors. *)
Definition email_regex : Re.regex :=
  let word := Re.Plus (Re.Class (fun c => negb (Py.isspace c || Ascii.eqb c "@"))) in
  Re.Seq word (Re.Seq (Re.Chr "@") (Re.Seq word (Re.Seq (Re.Chr ".") word))).

(** [[ext.strip().lower() for ext in form_settings.allowed_file_types.split(',')]] *)
Definition allowed_types (form_settings : ContactFormSettings.t) : list string :=
  map (fun ext => Py.lower (Py.strip ext))
      (Py.split "," (ContactFormSettings.allowed_file_types form_settings)).

(** [attachment.name.split('.')[-1].lower()]; [split] never returns an
    empty list, so that the default of [List.last] is not used. *)
Definition file_extension (attachment : UploadedFile.t) : string :=
  Py.lower (List.last (Py.split "." (UploadedFile.name attachment)) EmptyString).

(** The block [if attachment: ...]: the error of the [return] it takes,
    [None] when it takes none. *)
Definition validate_file_upload (form_settings : ContactFormSettings.t)
    (attachment : option UploadedFile.t) : option string :=
  match attachment with
  | Some f =>
      if UploadedFile.truthy f then
        (* Check file size *)
        let max_size := ContactFormSettings.max_file_size_mb form_settings * 1024 * 1024 in
        if UploadedFile.size f >? max_size then
          Some ("Arquivo muito grande. Máximo permitido: " +:+
                Py.str_of_int (ContactFormSettings.max_file_size_mb form_settings) +:+
                "MB")
        else
          (* Check file type *)
          if bool_decide (file_extension f ∈ allowed_types form_settings) then None
          else
            Some ("Tipo de arquivo não permitido. Tipos aceitos: " +:+
                  Py.join ", " (allowed_types form_settings))
      else None
  | None => None
  end.

Definition rbind {A B : Type} (r : result A) (k : A -> result B) : result B :=
  match r with
  | Ok a => k a
  | Raise e => Raise e
  end.

(** The message of the notification to the admin, with the files
    attached to it. *)
Definition admin_email (w : World) (request : Request)
    (form_settings : ContactFormSettings.t) (contact : Contact.t)
    (name email whatsapp project_description : string)
    (files : list UploadedFile.t) : Email :=
  let subject := "Novo contato do site - " +:+ name in
  let message := "
Novo contato recebido através do site:

Nome: " +:+ name +:+ "
Email: " +:+ email +:+ "
WhatsApp: " +:+ whatsapp +:+ "
Data: " +:+ Dates.strftime_dmY_HM (Contact.created_at contact) +:+ "

Descrição do Projeto:
" +:+ project_description +:+ "

" +:+ match Contact.attachment contact with
      | Some f =>
          if UploadedFile.truthy f
          then "Arquivo anexado: " +:+ Py.basename (UploadedFile.name f)
          else "Nenhum arquivo anexado"
      | None => "Nenhum arquivo anexado"
      end +:+ "

Acesse o dashboard para mais detalhes: " +:+
    build_absolute_uri request "/dashboard/" +:+ "
                " in
  {| subject := subject; body := message;
     from_email := DEFAULT_FROM_EMAIL w;
     to := [ContactFormSettings.notification_email form_settings];
     attachments := files |}.

(** [email_msg.send()]: the call is written to the log. *)
Definition email_send (w : World) (email_msg : Email) : M unit :=
  run emit (SendCalled email_msg);
  lift (send w email_msg).

(** The body of the [try] that sends the notification to the admin. *)
Definition notify_admin (w : World) (request : Request)
    (form_settings : ContactFormSettings.t) (contact : Contact.t)
    (name email whatsapp project_description : string) : M unit :=
  let email_msg :=
    admin_email w request form_settings contact
                name email whatsapp project_description in
  (* Attach file if present *)
  match Contact.attachment contact with
  | Some f =>
      if UploadedFile.truthy f
      then run lift (attach_file w f); email_send w (email_msg [f])
      else email_send w (email_msg [])
  | None => email_send w (email_msg [])
  end.

(** The message of the auto-reply, once its text is formatted. *)
Definition applicant_email (w : World) (form_settings : ContactFormSettings.t)
    (email message : string) : Email :=
  {| subject := ContactFormSettings.auto_reply_subject form_settings;
     body := message;
     from_email := DEFAULT_FROM_EMAIL w;
     to := [email]; attachments := [] |}.

(** The body of the [try] that sends the auto-reply to the user;
    [send_mail(...)] is written to the log when it is called. *)
Definition notify_applicant (w : World)
    (form_settings : ContactFormSettings.t) (contact : Contact.t)
    (name email whatsapp : string) : M unit :=
  do message <- lift (format w (ContactFormSettings.auto_reply_message form_settings)
                        name email whatsapp
                        (Dates.strftime_dmY_HM (Contact.created_at contact)));
  run emit (SendMailCalled (applicant_email w form_settings email message));
  lift (send_mail w (applicant_email w form_settings email message)).

(** [try: block  except Exception as e: print(...)], with the end of the
    block written to the log. *)
Definition attempt (log_as : result unit -> Event) (block : M unit) : M unit :=
  try_except (run block; emit (log_as (Ok tt)))
             (fun e => emit (log_as (Raise e))).

(** [request.headers.get('X-Requested-With') == 'XMLHttpRequest'] *)
Definition is_ajax (request : Request) : bool :=
  bool_decide (headers request !! "X-Requested-With" = Some "XMLHttpRequest").

(** [redirect(to)] for the name of a view: the name is resolved, which
    raises [NoReverseMatch] when the URLconf has no such name. *)
Definition redirect (w : World) (to : string) : M string :=
  lift (resolve_url w to).

Definition handle_contact_form (w : World) (request : Request) : M Response :=
  if negb (String.eqb (method request) "POST") then
    ret (JsonError "Método não permitido")
  else
  try_except (
    (* Get form data *)
    let name := Py.strip (get_default (POST request) "name" EmptyString) in
    let whatsapp := Py.strip (get_default (POST request) "whatsapp" EmptyString) in
    let email := Py.strip (get_default (POST request) "email" EmptyString) in
    let project_description :=
      Py.strip (get_default (POST request) "project_description" EmptyString) in
    let attachment := FILES request !! "attachment" in
    (* Validate required fields *)
    if negb (forallb Py.truthy [name; whatsapp; email; project_description]) then
      ret (JsonError "Todos os campos obrigatórios devem ser preenchidos")
    else
    (* Validate email format *)
    if negb (Re.match_anchored email_regex email) then
      ret (JsonError "Email inválido")
    else
    (* Validate WhatsApp format *)
    let whatsapp_clean := Py.remove_non_digits whatsapp in
    if (Py.len whatsapp_clean <? 10) || (Py.len whatsapp_clean >? 11) then
      ret (JsonError "Número de WhatsApp inválido")
    else
    (* Get form settings *)
    do db <- get_db;
    do got <- lift (ContactFormSettings.get_settings (form_settings db));
    let form_settings := got.1 in
    run put_db (set_form_settings got.2 db);
    (* Validate file upload if present *)
    match validate_file_upload form_settings attachment with
    | Some error => ret (JsonError error)
    | None =>
        (* Create contact record *)
        do db <- get_db;
        do created <- lift (Contact.create (now w) (storage_save w)
                              name whatsapp email project_description
                              attachment (contacts db));
        let contact := created.1 in
        run put_db (set_contacts created.2 db);
        run emit (ContactCreated contact);
        (* Send notification email to admin *)
        run (if ContactFormSettings.email_notifications form_settings &&
                Py.truthy (ContactFormSettings.notification_email form_settings)
             then attempt AdminNotified
                    (notify_admin w request form_settings contact
                                  name email whatsapp project_description)
             else ret tt);
        (* Send auto-reply to user *)
        run (if ContactFormSettings.auto_reply_enabled form_settings
             then attempt ApplicantNotified
                    (notify_applicant w form_settings contact name email whatsapp)
             else ret tt);
        (* Return success response *)
        if is_ajax request then
          ret (JsonSuccess "Mensagem enviada com sucesso! Entraremos em contato em breve.")
        else
          (* messages.success(request, ...) *)
          run redirect w "landing_page";
          ret (RedirectSuccess "landing_page"
                 "Mensagem enviada com sucesso! Entraremos em contato em breve.")
    end)
  (fun e =>
     if is_ajax request then
       ret (JsonError "Erro interno do servidor. Tente novamente.")
     else
       (* messages.error(request, ...) *)
       run redirect w "landing_page";
       ret (RedirectError "landing_page" "Erro ao enviar mensagem. Tente novamente.")).

Section stats.

Variable order_by : Orm.Ordering.

(** The rows [device_type] takes in the table. *)
Definition device_label (d : DeviceType) : string :=
  match d with
  | desktop => "desktop"
  | mobile => "mobile"
  | tablet => "tablet"
  | unknown => "unknown"
  end.

(** The [data] of the reply of [api_stats], without [recent_activity]. *)
Record ApiStats : Type := {
  total : Z * Z * Z;
  today : Z * Z * Z;
  top_countries : list (string * Z);
  device_stats : list (string * Z)
}.

Definition api_stats (w : World) (db : DB) : ApiStats :=
  (* Get basic statistics *)
  let total_views := Orm.count (page_views db) in
  let unique_visitors :=
    Orm.count (Orm.distinct (map PageView.ip_address (page_views db))) in
  let total_contacts := Orm.count (contacts db) in
  (* Get today's statistics *)
  let today := Dates.date_of (now w) in
  let today_views := Orm.count (PageView.on_date today (page_views db)) in
  let today_visitors :=
    Orm.count (Orm.distinct
      (map PageView.ip_address (PageView.on_date today (page_views db)))) in
  let today_contacts :=
    Orm.count (filter (fun c => Dates.date_of (Contact.created_at c) = today)
                      (contacts db)) in
  (* Get top countries *)
  let top_countries :=
    Orm.top_values order_by 5 (map PageView.country (page_views db)) in
  (* Get device breakdown *)
  let device_stats :=
    order_by (Orm.annotate_count
      (map (fun pv => device_label (PageView.device_type pv)) (page_views db))) in
  {| total := (total_views, unique_visitors, total_contacts);
     today := (today_views, today_visitors, today_contacts);
     top_countries := top_countries;
     device_stats := device_stats |}.

End stats.

End Views.

(** ** The analytics page ([dashboard/views.py]) *)

Module Dashboard.

(** One entry of [daily_stats]. *)
Record DailyEntry : Type := {
  entry_date : string;
  entry_views : Z;
  entry_visitors : Z;
  entry_contacts : Z
}.

(** The body of the loop over the dates, up to [daily_stats.append]. *)
Definition daily_entry (page_views : list PageView.t) (contacts : list Contact.t)
    (current_date : Z) : DailyEntry :=
  let daily_views := Orm.count (PageView.on_date current_date page_views) in
  let daily_visitors :=
    Orm.count (Orm.distinct
      (map PageView.ip_address (PageView.on_date current_date page_views))) in
  let daily_contacts :=
    Orm.count (filter (fun c => Dates.date_of (Contact.created_at c) = current_date)
                      contacts) in
  {| entry_date := Dates.strftime_dm current_date;
     entry_views := daily_views;
     entry_visitors := daily_visitors;
     entry_contacts := daily_contacts |}.

(** A value together with the equation that says where it comes from. *)
Definition inspect {A : Type} (x : A) : {y : A | x = y} := exist _ x eq_refl.

(** [while current_date <= end_date: ...; current_date += timedelta(days=1)] *)
Equations? daily_stats_loop (page_views : list PageView.t)
    (contacts : list Contact.t) (end_date current_date : Z)
    (daily_stats : list DailyEntry) : result (list DailyEntry)
    by wf (Z.to_nat (end_date - current_date + 1)) lt :=
  daily_stats_loop page_views contacts end_date current_date daily_stats
    with decide (current_date <= end_date) := {
    | right _ := Ok daily_stats
    | left _ with inspect (Dates.add_days current_date 1) := {
        | exist _ (Ok next) Hnext :=
            daily_stats_loop page_views contacts end_date next
              (daily_stats ++ [daily_entry page_views contacts current_date])
        | exist _ (Raise e) _ := Raise e } }.
Proof.
  unfold Dates.add_days in Hnext.
  destruct (_ && _); inversion Hnext. lia.
Qed.

Section analytics.

Variable order_by : Orm.Ordering.

(** The context of the analytics page, without [device_stats]. *)
Record AnalyticsContext : Type := {
  total_views : Z;
  unique_visitors : Z;
  total_contacts : Z;
  top_countries : list (string * Z);
  browser_stats : list (string * Z);
  daily_stats : list DailyEntry
}.

(** [analytics] once [start_date] and [end_date] are read from the request. *)
Definition analytics (db : DB) (start_date end_date : Z) : result AnalyticsContext :=
  (* Get page views in date range *)
  let page_views :=
    filter (fun pv => start_date <= Dates.date_of (PageView.timestamp pv) /\
                      Dates.date_of (PageView.timestamp pv) <= end_date)
           (page_views db) in
  (* Get contacts in date range *)
  let contacts :=
    filter (fun c => start_date <= Dates.date_of (Contact.created_at c) /\
                     Dates.date_of (Contact.created_at c) <= end_date)
           (contacts db) in
  (* Basic statistics *)
  let total_views := Orm.count page_views in
  let unique_visitors :=
    Orm.count (Orm.distinct (map PageView.ip_address page_views)) in
  let total_contacts := Orm.count contacts in
  (* Top countries *)
  let top_countries :=
    Orm.top_values order_by 10 (map PageView.country page_views) in
  (* Browser breakdown *)
  let browser_stats :=
    Orm.top_values order_by 10 (map PageView.browser page_views) in
  (* Daily statistics *)
  Views.rbind (daily_stats_loop page_views contacts end_date start_date [])
    (fun daily_stats =>
       Ok {| total_views := total_views;
             unique_visitors := unique_visitors;
             total_contacts := total_contacts;
             top_countries := top_countries;
             browser_stats := browser_stats;
             daily_stats := daily_stats |}).

End analytics.

End Dashboard.

(** ** The specification's notions

    The definitions of this module follow the specification's words; the
    theorems compare them with the code above. *)

Module Spec.

(** The unique visitors of a day by the first-ever-seen rule: the
    addresses whose earliest recorded view falls on that day. *)
Definition first_seen_visitors (date : Z) (page_views : list PageView.t) : Z :=
  Orm.count (Orm.distinct (map PageView.ip_address
    (filter (fun pv => PageView.is_unique_visitor page_views pv = true)
            (PageView.on_date date page_views)))).

(** The ways a submission can be refused, in the order of the checks. *)
Inductive violation : Type :=
| MissingField
| BadEmail
| BadWhatsapp
| FileTooLarge
| FileTypeNotAllowed.

Global Instance violation_eq_dec : EqDecision violation.
Proof. solve_decision. Defined.

(** The text fields of a submission, trimmed. *)
Definition field (request : Request) (key : string) : string :=
  Py.strip (Views.get_default (POST request) key EmptyString).

(** The attachment of a submission, if it carries one. *)
Definition attachment_of (request : Request) : option UploadedFile.t :=
  match FILES request !! "attachment" with
  | Some f => if UploadedFile.truthy f then Some f else None
  | None => None
  end.

(** The text after the last [sep] of [s]; the whole of [s] when it holds
    no [sep]. *)
Fixpoint after_last (sep : ascii) (s : string) : string :=
  match s with
  | EmptyString => EmptyString
  | String c s' =>
      if Py.contains_char sep s' then after_last sep s'
      else if Ascii.eqb c sep then s' else s
  end.

(** The extension of a file: the text after the last dot of its name, in
    lower case. *)
Definition extension (f : UploadedFile.t) : string :=
  Py.lower (after_last "." (UploadedFile.name f)).

(** The configured allow-list: the entries of the comma-separated
    setting, each trimmed and in lower case. *)
Definition allow_list (form_settings : ContactFormSettings.t) : list string :=
  map (fun entry => Py.lower (Py.strip entry))
      (Py.split "," (ContactFormSettings.allowed_file_types form_settings)).

(** The text of the submission and of the allow-list is ASCII: the four
    text fields as they are posted, the name of the upload and the
    setting of the allowed types. *)
Definition ascii_submission (form_settings : ContactFormSettings.t)
    (request : Request) : bool :=
  forallb (fun key => Py.isascii (Views.get_default (POST request) key EmptyString))
          ["name"; "whatsapp"; "email"; "project_description"]
  && match FILES request !! "attachment" with
     | Some f => Py.isascii (UploadedFile.name f)
     | None => true
     end
  && Py.isascii (ContactFormSettings.allowed_file_types form_settings).

(** Whether the submission passes the check that guards against [v]. *)
Definition passes (form_settings : ContactFormSettings.t) (request : Request)
    (v : violation) : bool :=
  match v with
  | MissingField =>
      forallb (fun key => Py.truthy (field request key))
              ["name"; "whatsapp"; "email"; "project_description"]
  | BadEmail => Re.match_anchored Views.email_regex (field request "email")
  | BadWhatsapp =>
      let digits := Py.len (Py.remove_non_digits (field request "whatsapp")) in
      (10 <=? digits) && (digits <=? 11)
  | FileTooLarge =>
      match attachment_of request with
      | Some f =>
          UploadedFile.size f <=?
          ContactFormSettings.max_file_size_mb form_settings * 1024 * 1024
      | None => true
      end
  | FileTypeNotAllowed =>
      match attachment_of request with
      | Some f => bool_decide (extension f ∈ allow_list form_settings)
      | None => true
      end
  end.

(** The checks in the order the specification fixes. *)
Definition check_order : list violation :=
  [MissingField; BadEmail; BadWhatsapp; FileTooLarge; FileTypeNotAllowed].

(** The first check of the order that the submission does not pass. *)
Definition first_violation (form_settings : ContactFormSettings.t)
    (request : Request) : option violation :=
  snd <$> list_find (fun v => passes form_settings request v = false) check_order.

(** The settings a submission is checked against: the row of key 1, or
    the defaults when there is no such row yet. *)
Definition settings_in_force (db : DB) : ContactFormSettings.t :=
  match form_settings db !! 1 with
  | Some settings => settings
  | None => ContactFormSettings.new (Some 1)
  end.

(** The message the caller receives for each violation. *)
Definition error_message (form_settings : ContactFormSettings.t) (v : violation)
  : string :=
  match v with
  | MissingField => "Todos os campos obrigatórios devem ser preenchidos"
  | BadEmail => "Email inválido"
  | BadWhatsapp => "Número de WhatsApp inválido"
  | FileTooLarge =>
      "Arquivo muito grande. Máximo permitido: " +:+
      Py.str_of_int (ContactFormSettings.max_file_size_mb form_settings) +:+ "MB"
  | FileTypeNotAllowed =>
      "Tipo de arquivo não permitido. Tipos aceitos: " +:+
      Py.join ", " (allow_list form_settings)
  end.

(** The database once the settings have been read: the row of key 1 is
    there, with the defaults if it was missing. *)
Definition db_with_settings (db : DB) : DB :=
  match form_settings db !! 1 with
  | Some _ => set_form_settings (form_settings db) db
  | None =>
      set_form_settings
        (<[1 := ContactFormSettings.new (Some 1)]> (form_settings db)) db
  end.

(** The path the upload of a submission is offered to the storage under:
    [contact_attachments/<year>/<month>/<name>], year and month of the
    time of the request. *)
Definition upload_path (w : World) (f : UploadedFile.t) : string :=
  Contact.contact_file_upload_path (now w) (UploadedFile.name f).

(** The exception of the storage, when it refuses the upload of the
    submission. *)
Definition storage_failure (w : World) (request : Request) : option exn :=
  match attachment_of request with
  | Some f =>
      match storage_save w (upload_path w f) with
      | Ok _ => None
      | Raise e => Some e
      end
  | None => None
  end.

(** The attachment of the stored submission: the upload under the name
    the storage saved it under. *)
Definition stored_attachment (w : World) (request : Request)
  : option UploadedFile.t :=
  match attachment_of request with
  | Some f =>
      match storage_save w (upload_path w f) with
      | Ok stored =>
          Some {| UploadedFile.name := stored;
                  UploadedFile.size := UploadedFile.size f |}
      | Raise _ => None
      end
  | None => FILES request !! "attachment"
  end.

(** The submission as it is stored. *)
Definition new_contact (w : World) (request : Request) : Contact.t :=
  {| Contact.name := field request "name";
     Contact.whatsapp := field request "whatsapp";
     Contact.email := field request "email";
     Contact.project_description := field request "project_description";
     Contact.attachment := stored_attachment w request;
     Contact.created_at := now w;
     Contact.is_read := false;
     Contact.notes := EmptyString |}.

(** The admin channel is enabled. *)
Definition admin_channel (form_settings : ContactFormSettings.t) : bool :=
  ContactFormSettings.email_notifications form_settings &&
  Py.truthy (ContactFormSettings.notification_email form_settings).

(** The auto-reply channel is enabled. *)
Definition applicant_channel (form_settings : ContactFormSettings.t) : bool :=
  ContactFormSettings.auto_reply_enabled form_settings.

(** The file the admin notification attaches: the stored attachment. *)
Definition attached_file (w : World) (request : Request) : option UploadedFile.t :=
  match stored_attachment w request with
  | Some f => if UploadedFile.truthy f then Some f else None
  | None => None
  end.

(** What the admin channel does for a stored submission: it attaches the
    file, if there is one, calls the transport once with the message, and
    ends as the transport does; when the file cannot be attached the
    transport is not called. *)
Definition admin_events (w : World) (request : Request)
    (form_settings : ContactFormSettings.t) : list Event :=
  let message :=
    Views.admin_email w request form_settings (new_contact w request)
      (field request "name") (field request "email") (field request "whatsapp")
      (field request "project_description") in
  match attached_file w request with
  | Some f =>
      match attach_file w f with
      | Ok _ => [SendCalled (message [f]); AdminNotified (send w (message [f]))]
      | Raise e => [AdminNotified (Raise e)]
      end
  | None => [SendCalled (message []); AdminNotified (send w (message []))]
  end.

(** What the auto-reply channel does for a stored submission: it formats
    the template, calls [send_mail] once with the text, and ends as
    [send_mail] does; when the template cannot be formatted [send_mail] is
    not called. *)
Definition applicant_events (w : World) (request : Request)
    (form_settings : ContactFormSettings.t) : list Event :=
  match format w (ContactFormSettings.auto_reply_message form_settings)
          (field request "name") (field request "email") (field request "whatsapp")
          (Dates.strftime_dmY_HM (now w)) with
  | Ok text =>
      let message :=
        Views.applicant_email w form_settings (field request "email") text in
      [SendMailCalled message; ApplicantNotified (send_mail w message)]
  | Raise e => [ApplicantNotified (Raise e)]
  end.

(** The events of the two channels, admin first, each only when enabled. *)
Definition notification_events (w : World) (request : Request)
    (form_settings : ContactFormSettings.t) : list Event :=
  (if admin_channel form_settings then admin_events w request form_settings else [])
  ++ (if applicant_channel form_settings
      then applicant_events w request form_settings else []).

(** The reply to an accepted submission. *)
Definition success_response (request : Request) : Response :=
  if Views.is_ajax request
  then JsonSuccess "Mensagem enviada com sucesso! Entraremos em contato em breve."
  else RedirectSuccess "landing_page"
         "Mensagem enviada com sucesso! Entraremos em contato em breve.".

(** The reply to a submission that met an exception. *)
Definition failure_response (request : Request) : Response :=
  if Views.is_ajax request
  then JsonError "Erro interno do servidor. Tente novamente."
  else RedirectError "landing_page" "Erro ao enviar mensagem. Tente novamente.".

(** How a reply reaches the caller: the script of the page receives it;
    a browser is redirected to the view named [landing_page], which the
    URLconf has to resolve. *)
Definition delivered (w : World) (request : Request) (response : Response)
  : result Response :=
  if Views.is_ajax request then Ok response
  else match resolve_url w "landing_page" with
       | Ok _ => Ok response
       | Raise e => Raise e
       end.








(** The distinct values of a list in the order of their first occurrence. *)
Fixpoint first_occurrences (values : list string) : list string :=
  match values with
  | [] => []
  | v :: rest => v :: filter (fun v' => v' <> v) (first_occurrences rest)
  end.

(** [topCountries] with ties broken stably: the groups in the order in
    which their country first occurs, sorted by a stable sort. *)
Definition top_countries_stable (n : nat) (countries : list string)
  : list (string * Z) :=
  let kept := filter (fun c => c <> EmptyString) countries in
  take n (Orm.stable_order
    (map (fun c => (c, Orm.occurrences c kept)) (first_occurrences kept))).

End Spec.

(** ** Sample rows and requests *)

Module Sample.

(** A view from a desktop browser. *)
Definition view (ip_address country : string) (timestamp : Z) : PageView.t :=
  {| PageView.ip_address := ip_address;
     PageView.user_agent := "Mozilla/5.0";
     PageView.referer := EmptyString;
     PageView.page_url := "/";
     PageView.country := country;
     PageView.city := EmptyString;
     PageView.region := EmptyString;
     PageView.device_type := desktop;
     PageView.browser := "Firefox 120.0";
     PageView.operating_system := "Linux ";
     PageView.timestamp := timestamp;
     PageView.session_id := EmptyString;
     PageView.time_on_page := 0 |}.

(** Noon of the day of ordinal [d]. *)
Definition noon (d : Z) : Z := d * Dates.SECONDS_PER_DAY + 43200.

(** The third of November 2026. *)
Definition a_day : Z := 739923.

(** The same address on two consecutive days. *)
Definition returning_visitor : list PageView.t :=
  [view "203.0.113.7" "BR" (noon (a_day - 1)); view "203.0.113.7" "BR" (noon a_day)].


(** A world in which nothing outside the program works: the geolocation
    service times out, files cannot be attached, the template cannot be
    formatted, no mail can be sent and the URLconf does not know the name
    [landing_page]; the storage saves a file under the name it is
    offered. *)
Definition offline : World :=
  {| now := noon a_day;
     requests_get := fun _ => RequestRaises (OtherException "ReadTimeout");
     parse := fun _ =>
       {| is_mobile := false; is_tablet := false; is_pc := true;
          browser_family := "Firefox"; browser_version_string := "120.0";
          os_family := "Linux"; os_version_string := EmptyString |};
     DEFAULT_FROM_EMAIL := "noreply@example.com";
     attach_file := fun _ => Raise (OtherException "FileNotFoundError");
     send := fun _ => Raise (OtherException "SMTPException");
     format := fun _ _ _ _ _ => Raise (KeyError "nome");
     send_mail := fun _ => Raise (OtherException "ConnectionRefusedError");
     clean_ipv6_address := fun value =>
       if String.eqb value "2001:DB8::1" then Some "2001:db8::1" else None;
     storage_save := fun name => Ok name;
     resolve_url := fun _ => Raise (OtherException "NoReverseMatch") |}.

(** A submission of the form, sent by the script of the page. *)
Definition submission (email : string) (attachment : option UploadedFile.t)
  : Request :=
  {| method := "POST";
     META := {[ "REMOTE_ADDR" := "203.0.113.7" ]};
     POST := list_to_map [("name", " Ana Souza "); ("whatsapp", "(11) 91234-5678");
                          ("email", email); ("project_description", "Site novo")];
     FILES := match attachment with
              | Some f => {[ "attachment" := f ]}
              | None => ∅
              end;
     headers := {[ "X-Requested-With" := "XMLHttpRequest" ]};
     session_key := None;
     build_absolute_uri := fun path => "https://example.com" +:+ path |}.

Definition file (name : string) (size : Z) : UploadedFile.t :=
  {| UploadedFile.name := name; UploadedFile.size := size |}.

(** A world in which the mail of the admin is delivered and the auto-reply
    is not ([send_mail] refuses its header, which [fail_silently] does not
    cover): the template is filled with the name, files can be attached,
    the storage adds a suffix to the name of a file, and the URLconf knows
    the view [landing_page]. *)
Definition online : World :=
  {| now := noon a_day;
     requests_get := requests_get offline;
     parse := parse offline;
     DEFAULT_FROM_EMAIL := "noreply@example.com";
     attach_file := fun _ => Ok tt;
     send := fun _ => Ok tt;
     format := fun template name _ _ _ => Ok (template +:+ name);
     send_mail := fun _ => Raise (OtherException "BadHeaderError");
     clean_ipv6_address := clean_ipv6_address offline;
     storage_save := fun name =>
       if String.eqb name "contact_attachments/2026/11/a.pdf"
       then Ok "contact_attachments/2026/11/a_1.pdf" else Ok name;
     resolve_url := fun _ => Ok "/" |}.

Definition empty_db : DB :=
  {| contacts := []; page_views := []; form_settings := ∅; site_statistics := ∅ |}.


End Sample.

(** ** The words of a pattern *)

Module Lang.

(** The words a pattern denotes. *)
Inductive matches : Re.regex -> string -> Prop :=
| m_eps : matches Re.Eps EmptyString
| m_class p c : p c = true -> matches (Re.Class p) (String c EmptyString)
| m_seq r1 r2 s1 s2 :
    matches r1 s1 -> matches r2 s2 -> matches (Re.Seq r1 r2) (s1 +:+ s2)
| m_alt_l r1 r2 s : matches r1 s -> matches (Re.Alt r1 r2) s
| m_alt_r r1 r2 s : matches r2 s -> matches (Re.Alt r1 r2) s
| m_star_nil r : matches (Re.Star r) EmptyString
| m_star_app r s1 s2 :
    matches r s1 -> matches (Re.Star r) s2 -> matches (Re.Star r) (s1 +:+ s2).

(** A character the pattern of the email allows outside of [@] and [.]:
    [[^\s@]]. *)
Definition email_char (c : ascii) : Prop := Py.isspace c = false /\ c <> "@"%char.

(** One or more such characters. *)
Definition email_word (s : string) : Prop :=
  s <> EmptyString /\ forall c, In c (Py.to_list s) -> email_char c.

(** The shape [local@domain.tld]. *)
Definition email_shape (s : string) : Prop :=
  exists local domain tld,
    s = local +:+ String "@" (domain +:+ String "." tld) /\
    email_word local /\ email_word domain /\ email_word tld.

End Lang.

(** ** Sums of counts *)

Module Tally.

(** The sum of a list of counts. *)
Definition sum (counts : list Z) : Z := foldr Z.add 0 counts.

End Tally.

Module Sample2.

(** A database with the two views of [Sample.returning_visitor]. *)
Definition two_days : DB :=
  {| contacts := []; page_views := Sample.returning_visitor;
     form_settings := ∅; site_statistics := ∅ |}.

(** A visit of the landing page. *)
Definition visit : Request :=
  {| method := "GET";
     META := {[ "REMOTE_ADDR" := "203.0.113.7" ]};
     POST := ∅; FILES := ∅; headers := ∅; session_key := None;
     build_absolute_uri := fun path => "https://example.com" +:+ path |}.

(** A submission that passes every check, from a client without address. *)
Definition no_address : Request :=
  {| method := "POST";
     META := ∅;
     POST := POST (Sample.submission "ana@example.com" None);
     FILES := ∅; headers := ∅; session_key := None;
     build_absolute_uri := fun path => "https://example.com" +:+ path |}.

End Sample2.

(** ** The other views of the site ([main/views.py]) *)

Module Site.

(** What a view of a page returns: a rendered template with the numbers
    of its context, or the reply of the contact form. *)
Inductive Page : Type :=
| Rendered (template : string) (total_views total_contacts : Z)
| FormReply (reply : Response).

Definition landing_page (w : World) (request : Request) : M Page :=
  (* Track page view *)
  run Views.track_page_view w request "/";
  (* Handle contact form submission *)
  if String.eqb (method request) "POST" then
    do reply <- Views.handle_contact_form w request;
    ret (FormReply reply)
  else
  (* Get some basic statistics for display *)
  do db <- get_db;
  let total_views := Orm.count (page_views db) in
  let total_contacts := Orm.count (contacts db) in
  ret (Rendered "landing.html" total_views total_contacts).

(** One entry of [recent_activity] and of the [daily_stats] of the
    dashboard: the date it is for, before it is formatted, and the three
    counts of that date. *)
Record DayCounts : Type := {
  day : Z;
  day_views : Z;
  day_visitors : Z;
  day_contacts : Z
}.

(** The counts of one date, as both loops compute them. *)
Definition day_counts (db : DB) (date : Z) : DayCounts :=
  {| day := date;
     day_views := Orm.count (PageView.on_date date (page_views db));
     day_visitors :=
       Orm.count (Orm.distinct
         (map PageView.ip_address (PageView.on_date date (page_views db))));
     day_contacts :=
       Orm.count (filter (fun c => Dates.date_of (Contact.created_at c) = date)
                         (contacts db)) |}.

(** [for i in range(n): ...] for a body that may raise. *)
Fixpoint for_range {A : Type} (body : Z -> result A) (i : Z) (n : nat)
  : result (list A) :=
  match n with
  | O => Ok []
  | S n' =>
      Views.rbind (body i) (fun x =>
      Views.rbind (for_range body (i + 1) n') (fun rest => Ok (x :: rest)))
  end.

(** The loop of [api_stats] that fills [recent_activity]:
    [week_ago = today - timedelta(days=7)], then for [i] in [range(7)]
    the counts of [week_ago + timedelta(days=i)]. *)
Definition recent_activity (w : World) (db : DB) : result (list DayCounts) :=
  Views.rbind (Dates.add_days (Dates.date_of (now w)) (-7)) (fun week_ago =>
  for_range (fun i => Views.rbind (Dates.add_days week_ago i)
                        (fun date => Ok (day_counts db date))) 0 7).

(** What [portfolio_detail] returns: the page of the project, or the
    reply of [require_http_methods] to a method that is not permitted. *)
Inductive ProjectPage : Type :=
| NotAllowed (permitted_methods : list string)
| Project (template : string) (project_id : Z).

(** [portfolio_detail] under [@require_http_methods(["GET"])];
    [project_id] is the number the route [portfolio/<int:project_id>/]
    has read. *)
Definition portfolio_detail (w : World) (request : Request) (project_id : Z)
  : M ProjectPage :=
  if negb (bool_decide (method request ∈ ["GET"])) then ret (NotAllowed ["GET"])
  else
  (* For now, just track the page view *)
  run Views.track_page_view w request ("/portfolio/" +:+ pretty project_id +:+ "/");
  ret (Project "portfolio_detail.html" project_id).

End Site.

(** ** Text search and pages *)

Module Text.

(** [s.startswith(prefix)] *)
Fixpoint startswith (prefix s : string) : bool :=
  match prefix, s with
  | EmptyString, _ => true
  | String _ _, EmptyString => false
  | String a prefix', String b s' => Ascii.eqb a b && startswith prefix' s'
  end.

(** [needle in s] *)
Fixpoint contains (needle s : string) : bool :=
  startswith needle s ||
  match s with
  | EmptyString => false
  | String _ s' => contains needle s'
  end.

(** The lookup [field__icontains=needle]: the column holds the needle,
    letters compared without regard to case. *)
Definition icontains (needle column : string) : bool :=
  contains (Py.lower needle) (Py.lower column).

End Text.

(** [django.core.paginator.Paginator] with no orphans and an empty first
    page allowed, over a list. *)
Module Paginator.

Record Page (A : Type) : Type := {
  object_list : list A;
  number : Z
}.
Arguments object_list {A} p.
Arguments number {A} p.

(** [paginator.num_pages]: at least one page. *)
Definition num_pages (per_page : Z) (count : Z) : Z :=
  (Z.max 1 count + per_page - 1) / per_page.

(** [paginator.page(number)] for a valid number:
    [object_list[bottom:top]] with [top] cut at the count. *)
Definition page {A : Type} (per_page : Z) (objects : list A) (number : Z) : Page A :=
  let bottom := (number - 1) * per_page in
  let top := Z.min (bottom + per_page) (Orm.count objects) in
  {| object_list := take (Z.to_nat (top - bottom)) (drop (Z.to_nat bottom) objects);
     number := number |}.

(** [paginator.get_page(number)], where [number] is what [int] makes of
    the parameter, [None] when [int] raises [TypeError] or [ValueError]: a
    parameter that is no integer gives the first page, a number below 1 or
    beyond the last page gives the last page. *)
Definition get_page {A : Type} (per_page : Z) (objects : list A)
    (number : option Z) : Page A :=
  match number with
  | None => page per_page objects 1
  | Some n =>
      if (n <? 1) || (n >? num_pages per_page (Orm.count objects))
      then page per_page objects (num_pages per_page (Orm.count objects))
      else page per_page objects n
  end.

End Paginator.

(** ** The pages of the staff ([dashboard/views.py])

    The views are embedded as they run for a member of the staff, past
    [login_required]. *)

(** The two parsers of the standard library that the pages call on the
    text of a parameter; on a text they do not accept both raise
    [ValueError] and nothing else. *)
Record Library : Type := {
  (** [int(s)]: the number, or the message of the [ValueError] *)
  int : string -> Z + string;
  (** [datetime.strptime(s, '%Y-%m-%d').date()]: the date, or [None] for
      a [ValueError] *)
  strptime : string -> option Z
}.

(** [int(s)] as a computation that may raise. *)
Definition int_or_raise (lib : Library) (s : string) : result Z :=
  match int lib s with
  | inl n => Ok n
  | inr msg => Raise (ValueError msg)
  end.

Module Staff.

(** The property [Contact.attachment_filename]. *)
Definition attachment_filename (self : Contact.t) : option string :=
  match Contact.attachment self with
  | Some f =>
      if UploadedFile.truthy f then Some (Py.basename (UploadedFile.name f))
      else None
  | None => None
  end.

(** [contact.is_read = True] *)
Definition set_is_read (c : Contact.t) : Contact.t :=
  {| Contact.name := Contact.name c; Contact.whatsapp := Contact.whatsapp c;
     Contact.email := Contact.email c;
     Contact.project_description := Contact.project_description c;
     Contact.attachment := Contact.attachment c;
     Contact.created_at := Contact.created_at c;
     Contact.is_read := true; Contact.notes := Contact.notes c |}.

(** [contact.notes = notes] *)
Definition set_notes (notes : string) (c : Contact.t) : Contact.t :=
  {| Contact.name := Contact.name c; Contact.whatsapp := Contact.whatsapp c;
     Contact.email := Contact.email c;
     Contact.project_description := Contact.project_description c;
     Contact.attachment := Contact.attachment c;
     Contact.created_at := Contact.created_at c;
     Contact.is_read := Contact.is_read c; Contact.notes := notes |}.

(** The place of the contact of key [contact_id] in the table: keys are
    given in the order of creation, from 1, and no view deletes a row. *)
Definition row_of (contact_id : Z) : option nat :=
  if 1 <=? contact_id then Some (Z.to_nat (contact_id - 1)) else None.

(** [get_object_or_404(Contact, id=contact_id)] *)
Definition get_object_or_404 (objects : list Contact.t) (contact_id : Z)
  : result (nat * Contact.t) :=
  match row_of contact_id with
  | Some i =>
      match objects !! i with
      | Some contact => Ok (i, contact)
      | None => Raise (OtherException "Http404")
      end
  | None => Raise (OtherException "Http404")
  end.

(** [contact.save()] *)
Definition save_contact (i : nat) (contact : Contact.t) : M unit :=
  do db <- get_db;
  put_db (set_contacts (<[i := contact]> (contacts db)) db).

(** What [contact_detail] returns: the page of a contact, or the redirect
    that follows an update of the notes. *)
Inductive Detail : Type :=
| ShowContact (contact : Contact.t)
| NotesSaved (reply : Response).

Definition contact_detail (request : Request) (contact_id : Z) : M Detail :=
  do db <- get_db;
  do found <- lift (get_object_or_404 (contacts db) contact_id);
  let i := found.1 in
  let contact := found.2 in
  (* Mark as read when viewed *)
  do contact <- (if negb (Contact.is_read contact)
                 then run save_contact i (set_is_read contact);
                      ret (set_is_read contact)
                 else ret contact);
  (* Handle notes update *)
  if String.eqb (method request) "POST" then
    let notes := Views.get_default (POST request) "notes" EmptyString in
    let contact := set_notes notes contact in
    run save_contact i contact;
    ret (NotesSaved (RedirectSuccess "dashboard:contact_detail"
                       "Observações atualizadas com sucesso."))
  else ret (ShowContact contact).

(** The query parameters that filter the contacts. *)
Record Filters : Type := {
  search_query : string;
  status_filter : string;
  date_from : string;
  date_to : string
}.

(** The four [request.GET.get(key, '')]. *)
Definition read_filters (GET : gmap string string) : Filters :=
  {| search_query := Views.get_default GET "search" EmptyString;
     status_filter := Views.get_default GET "status" EmptyString;
     date_from := Views.get_default GET "date_from" EmptyString;
     date_to := Views.get_default GET "date_to" EmptyString |}.

(** How the database answers [order_by('-created_at')]: the rows it was
    given, newest first; the order of rows created at the same time is
    not fixed. *)
Definition Newest : Type := list Contact.t -> list Contact.t.

Definition created_ge (a b : Contact.t) : Prop :=
  Contact.created_at a >= Contact.created_at b.

Definition is_newest_first (order_by : Newest) : Prop :=
  forall rows, Permutation (order_by rows) rows /\ Sorted created_ge (order_by rows).

(** How the database answers a number written to the column of a
    [PositiveIntegerField]: [None] when it stores the number, or the
    exception it raises. *)
Definition Column : Type := Z -> option exn.

(** Every database stores the numbers from 0 to 2147483647 and refuses
    the negative ones. *)
Definition is_positive_integer_column (column : Column) : Prop :=
  (forall n, 0 <= n <= 2147483647 -> column n = None) /\
  (forall n, n < 0 -> column n <> None).

Section pages.

Variable lib : Library.
Variable order_by : Newest.
Variable order_by_count : Orm.Ordering.
Variable column : Column.

(** The filters of [contacts_list], from [Contact.objects.all()] to
    [order_by('-created_at')]. *)
Definition contacts_list_queryset (GET : gmap string string) (db : DB)
  : list Contact.t :=
  let contacts := contacts db in
  (* Search functionality *)
  let search_query := Views.get_default GET "search" EmptyString in
  let contacts :=
    if Py.truthy search_query then
      filter (fun c =>
                Text.icontains search_query (Contact.name c)
                || Text.icontains search_query (Contact.email c)
                || Text.icontains search_query (Contact.whatsapp c)
                || Text.icontains search_query (Contact.project_description c)
                = true) contacts
    else contacts in
  (* Filter by read status *)
  let status_filter := Views.get_default GET "status" EmptyString in
  let contacts :=
    if String.eqb status_filter "unread" then
      filter (fun c => Contact.is_read c = false) contacts
    else if String.eqb status_filter "read" then
      filter (fun c => Contact.is_read c = true) contacts
    else contacts in
  (* Filter by date range *)
  let date_from := Views.get_default GET "date_from" EmptyString in
  let date_to := Views.get_default GET "date_to" EmptyString in
  let contacts :=
    if Py.truthy date_from then
      match strptime lib date_from with
      | Some date_from_obj =>
          filter (fun c => date_from_obj <= Dates.date_of (Contact.created_at c))
                 contacts
      | None (* except ValueError: pass *) => contacts
      end
    else contacts in
  let contacts :=
    if Py.truthy date_to then
      match strptime lib date_to with
      | Some date_to_obj =>
          filter (fun c => Dates.date_of (Contact.created_at c) <= date_to_obj)
                 contacts
      | None => contacts
      end
    else contacts in
  (* Order by creation date (newest first) *)
  order_by contacts.

(** The context of the page of [contacts_list]. *)
Record ListContext : Type := {
  page_obj : Paginator.Page Contact.t;
  shown_filters : Filters;
  total_contacts : Z
}.

Definition contacts_list (GET : gmap string string) (db : DB) : ListContext :=
  let contacts := contacts_list_queryset GET db in
  (* Pagination *)
  let page_number :=
    match GET !! "page" with
    | Some text =>
        match int lib text with
        | inl n => Some n
        | inr _ => None
        end
    | None => None
    end in
  let page_obj := Paginator.get_page 20 contacts page_number in
  {| page_obj := page_obj;
     shown_filters := read_filters GET;
     total_contacts := Orm.count contacts |}.

(** [t.strftime('%d/%m/%Y %H:%M')] *)
Definition strftime_dmY_HM (t : Z) : string :=
  let '(y, m, dd) := Dates.civil (t / Dates.SECONDS_PER_DAY) in
  let secs := t mod Dates.SECONDS_PER_DAY in
  Dates.two_digits dd +:+ "/" +:+ Dates.two_digits m +:+ "/" +:+ pretty y +:+ " " +:+
  Dates.two_digits (secs / 3600) +:+ ":" +:+ Dates.two_digits (secs mod 3600 / 60).

(** The rows [export_contacts_csv] hands to [writer.writerow], the
    header first; the filters are written out again in the source. *)
Definition export_contacts_csv (GET : gmap string string) (db : DB)
  : list (list string) :=
  let contacts := contacts db in
  let search_query := Views.get_default GET "search" EmptyString in
  let contacts :=
    if Py.truthy search_query then
      filter (fun c =>
                Text.icontains search_query (Contact.name c)
                || Text.icontains search_query (Contact.email c)
                || Text.icontains search_query (Contact.whatsapp c)
                || Text.icontains search_query (Contact.project_description c)
                = true) contacts
    else contacts in
  let status_filter := Views.get_default GET "status" EmptyString in
  let contacts :=
    if String.eqb status_filter "unread" then
      filter (fun c => Contact.is_read c = false) contacts
    else if String.eqb status_filter "read" then
      filter (fun c => Contact.is_read c = true) contacts
    else contacts in
  let date_from := Views.get_default GET "date_from" EmptyString in
  let date_to := Views.get_default GET "date_to" EmptyString in
  let contacts :=
    if Py.truthy date_from then
      match strptime lib date_from with
      | Some date_from_obj =>
          filter (fun c => date_from_obj <= Dates.date_of (Contact.created_at c))
                 contacts
      | None => contacts
      end
    else contacts in
  let contacts :=
    if Py.truthy date_to then
      match strptime lib date_to with
      | Some date_to_obj =>
          filter (fun c => Dates.date_of (Contact.created_at c) <= date_to_obj)
                 contacts
      | None => contacts
      end
    else contacts in
  let contacts := order_by contacts in
  ["Nome"; "Email"; "WhatsApp"; "Descrição do Projeto"; "Data de Contato";
   "Status"; "Anexo"; "Observações"]
  :: map (fun contact =>
            [Contact.name contact;
             Contact.email contact;
             Contact.whatsapp contact;
             Contact.project_description contact;
             strftime_dmY_HM (Contact.created_at contact);
             if Contact.is_read contact then "Lida" else "Não lida";
             match attachment_filename contact with
             | Some filename => filename
             | None => "Nenhum"
             end;
             Contact.notes contact])
         contacts.

(** What [settings_view] returns: the page of the settings, or the
    redirect that follows their update. *)
Inductive SettingsPage : Type :=
| ShowSettings (settings : ContactFormSettings.t)
| SettingsSaved (reply : Response).

(** [request.POST.get(key) == 'on'] *)
Definition checked (request : Request) (key : string) : bool :=
  bool_decide (POST request !! key = Some "on").

(** [settings_obj.save()]: the guard of the model, then the write, which
    the column of [max_file_size_mb] may refuse. *)
Definition save_settings (settings_obj : ContactFormSettings.t)
    (objects : gmap Z ContactFormSettings.t)
  : result (ContactFormSettings.t * gmap Z ContactFormSettings.t) :=
  Views.rbind (ContactFormSettings.save settings_obj objects) (fun saved =>
  match column (ContactFormSettings.max_file_size_mb settings_obj) with
  | Some e => Raise e
  | None => Ok saved
  end).

Definition settings_view (request : Request) : M SettingsPage :=
  do db <- get_db;
  do got <- lift (ContactFormSettings.get_settings (form_settings db));
  run put_db (set_form_settings got.2 db);
  let settings_obj := got.1 in
  if String.eqb (method request) "POST" then
    (* Update settings *)
    do max_file_size_mb <-
      lift (match POST request !! "max_file_size_mb" with
            | Some text => int_or_raise lib text
            | None => Ok 10
            end);
    let settings_obj :=
      {| ContactFormSettings.pk := ContactFormSettings.pk settings_obj;
         ContactFormSettings.email_notifications :=
           checked request "email_notifications";
         ContactFormSettings.notification_email :=
           Views.get_default (POST request) "notification_email" EmptyString;
         ContactFormSettings.auto_reply_enabled :=
           checked request "auto_reply_enabled";
         ContactFormSettings.auto_reply_subject :=
           Views.get_default (POST request) "auto_reply_subject" EmptyString;
         ContactFormSettings.auto_reply_message :=
           Views.get_default (POST request) "auto_reply_message" EmptyString;
         ContactFormSettings.max_file_size_mb := max_file_size_mb;
         ContactFormSettings.allowed_file_types :=
           Views.get_default (POST request) "allowed_file_types" EmptyString |} in
    do db <- get_db;
    do saved <- lift (save_settings settings_obj (form_settings db));
    run put_db (set_form_settings saved.2 db);
    ret (SettingsSaved (RedirectSuccess "dashboard:settings"
                          "Configurações atualizadas com sucesso."))
  else ret (ShowSettings settings_obj).

(** The loop of [dashboard_home] that fills [daily_stats]: for [i] in
    [range(7)] the counts of [today - timedelta(days=i)], then
    [daily_stats.reverse()]. *)
Definition daily_stats (w : World) (db : DB) : result (list Site.DayCounts) :=
  let today := Dates.date_of (now w) in
  Views.rbind
    (Site.for_range
       (fun i => Views.rbind (Dates.add_days today (- i))
                   (fun date => Ok (Site.day_counts db date))) 0 7)
    (fun daily_stats => Ok (reverse daily_stats)).

(** The context of the page of [dashboard_home]. *)
Record HomeContext : Type := {
  home_total_contacts : Z;
  unread_contacts : Z;
  total_views : Z;
  unique_visitors : Z;
  today_contacts : Z;
  today_views : Z;
  today_visitors : Z;
  recent_contacts : list Contact.t;
  top_countries : list (string * Z);
  device_stats : list (string * Z);
  home_daily_stats : list Site.DayCounts
}.

Definition dashboard_home (w : World) (db : DB) : result HomeContext :=
  (* Get basic statistics *)
  let total_contacts := Orm.count (contacts db) in
  let unread_contacts :=
    Orm.count (filter (fun c => Contact.is_read c = false) (contacts db)) in
  let total_views := Orm.count (page_views db) in
  let unique_visitors :=
    Orm.count (Orm.distinct (map PageView.ip_address (page_views db))) in
  (* Get today's statistics *)
  let today := Dates.date_of (now w) in
  let today_contacts :=
    Orm.count (filter (fun c => Dates.date_of (Contact.created_at c) = today)
                      (contacts db)) in
  let today_views := Orm.count (PageView.on_date today (page_views db)) in
  let today_visitors :=
    Orm.count (Orm.distinct
      (map PageView.ip_address (PageView.on_date today (page_views db)))) in
  (* Get recent contacts (last 5) *)
  let recent_contacts := take 5 (order_by (contacts db)) in
  (* Get top countries (last 30 days) *)
  Views.rbind (Dates.add_days (Dates.date_of (now w)) (-30)) (fun thirty_days_ago =>
  let last_30_days :=
    filter (fun pv => thirty_days_ago <= Dates.date_of (PageView.timestamp pv))
           (page_views db) in
  let top_countries :=
    Orm.top_values order_by_count 5 (map PageView.country last_30_days) in
  (* Get device breakdown (last 30 days) *)
  let device_stats :=
    order_by_count (Orm.annotate_count
      (map (fun pv => Views.device_label (PageView.device_type pv)) last_30_days)) in
  (* Get daily statistics for the last 7 days *)
  Views.rbind (daily_stats w db) (fun daily_stats =>
  Ok {| home_total_contacts := total_contacts;
        unread_contacts := unread_contacts;
        total_views := total_views;
        unique_visitors := unique_visitors;
        today_contacts := today_contacts;
        today_views := today_views;
        today_visitors := today_visitors;
        recent_contacts := recent_contacts;
        top_countries := top_countries;
        device_stats := device_stats;
        home_daily_stats := daily_stats |})).

End pages.

End Staff.

(** ** Sample answers of the database and of the library *)

Module StaffSample.

(** Insertion into a list of contacts, newest first, in front of the
    contacts created at the same time. *)
Fixpoint insert_newest (c : Contact.t) (sorted : list Contact.t) : list Contact.t :=
  match sorted with
  | [] => [c]
  | r :: rest =>
      if Contact.created_at c <? Contact.created_at r
      then r :: insert_newest c rest
      else c :: r :: rest
  end.

(** An answer to [order_by('-created_at')]. *)
Definition newest_first : Staff.Newest := fun rows => foldr insert_newest [] rows.

(** The number a string of decimal digits stands for. *)
Fixpoint decimal (acc : Z) (s : string) : option Z :=
  match s with
  | EmptyString => Some acc
  | String c s' =>
      if Py.isdigit c
      then decimal (10 * acc + (Z.of_nat (nat_of_ascii c) - 48)) s'
      else None
  end.

(** A library that reads the numerals made of digits only and knows one
    date. *)
Definition library : Library :=
  {| int := fun s =>
       match s, decimal 0 s with
       | String _ _, Some n => inl n
       | _, _ => inr ("invalid literal for int() with base 10: " +:+ s)
       end;
     strptime := fun s =>
       if String.eqb s "2026-11-03" then Some Sample.a_day else None |}.

(** A column that holds 64 bits and carries the check [>= 0]. *)
Definition column : Staff.Column :=
  fun n =>
    if n <? 0 then Some IntegrityError
    else if 9223372036854775807 <? n then Some OverflowError
    else None.

(** A contact of today, not yet read, and a contact of yesterday, read. *)
Definition ana : Contact.t :=
  Spec.new_contact Sample.offline (Sample.submission "ana@example.com" None).

Definition rui : Contact.t :=
  {| Contact.name := "Rui Lima"; Contact.whatsapp := "(21) 99876-5432";
     Contact.email := "rui@example.com";
     Contact.project_description := "Loja virtual";
     Contact.attachment := Some (Sample.file "contact_attachments/2026/11/briefing.pdf" 2048);
     Contact.created_at := Sample.noon (Sample.a_day - 1);
     Contact.is_read := true; Contact.notes := EmptyString |}.

Definition two_contacts : DB :=
  {| contacts := [rui; ana]; page_views := []; form_settings := ∅;
     site_statistics := ∅ |}.

(** The form of the settings as the page posts it, the two boxes left
    unchecked. *)
Definition settings_form (max_file_size_mb : string) : Request :=
  {| method := "POST";
     META := {[ "REMOTE_ADDR" := "203.0.113.7" ]};
     POST := list_to_map [("notification_email", "staff@example.com");
                          ("auto_reply_subject", "Recebido");
                          ("auto_reply_message", "Obrigado, {name}.");
                          ("max_file_size_mb", max_file_size_mb);
                          ("allowed_file_types", "pdf")];
     FILES := ∅; headers := ∅; session_key := None;
     build_absolute_uri := fun path => "https://example.com" +:+ path |}.

(** The world of [Sample.offline] on the thirtieth day of the calendar. *)
Definition first_month : World :=
  {| now := Sample.noon 30;
     requests_get := requests_get Sample.offline;
     parse := parse Sample.offline;
     DEFAULT_FROM_EMAIL := DEFAULT_FROM_EMAIL Sample.offline;
     attach_file := attach_file Sample.offline;
     send := send Sample.offline;
     format := format Sample.offline;
     send_mail := send_mail Sample.offline;
     clean_ipv6_address := clean_ipv6_address Sample.offline;
     storage_save := storage_save Sample.offline;
     resolve_url := resolve_url Sample.offline |}.

End StaffSample.

(** * Properties *)

(** ** Strings *)

Example strip_ex : Py.strip "  a b	 " = "a b".
Proof. reflexivity. Qed.

Example split_ex : Py.split "," "pdf,doc,,txt" = ["pdf"; "doc"; EmptyString; "txt"].
Proof. reflexivity. Qed.

Example split_last_ex : Views.file_extension {| UploadedFile.name := "evil.tar.EXE"; UploadedFile.size := 1 |} = "exe".
Proof. reflexivity. Qed.

Example after_last_ex :
  map (Spec.after_last ".") ["evil.tar.EXE"; "README"; "a."; ".b"; EmptyString]
  = ["EXE"; "README"; EmptyString; "b"; EmptyString].
Proof. reflexivity. Qed.

Example digits_ex : Py.remove_non_digits "(11) 91234-5678" = "11912345678".
Proof. reflexivity. Qed.

Example email_ex :
  map (Re.match_anchored Views.email_regex) ["abc"; "a@b"; "a@b.c "; "a@b.c"; "a@b.c.d"]
  = [false; false; false; true; true].
Proof. reflexivity. Qed.

Example civil_ex :
  map Dates.civil [1; 719163; 719163 + 19782; Dates.MAXORDINAL]
  = [(1, 1, 1); (1970, 1, 1); (2024, 2, 29); (9999, 12, 31)].
Proof. reflexivity. Qed.

Lemma split_cons sep s : exists piece rest, Py.split sep s = piece :: rest.
Proof.
  destruct s as [|c s]; simpl; [eauto|].
  destruct (Ascii.eqb c sep); [eauto|].
  destruct (Py.split sep s); eauto.
Qed.

(** A string without the separator is the only piece of its split. *)
Lemma split_without_sep sep s :
  (forall c, In c (Py.to_list s) -> c <> sep) -> Py.split sep s = [s].
Proof.
  induction s as [|c s IH]; simpl; intros Hno; [reflexivity|].
  destruct (Ascii.eqb_spec c sep) as [->|_].
  - exfalso. apply (Hno sep); auto.
  - rewrite IH; auto.
Qed.

(** ** Ordering by count *)

Section ordering.

Local Hint Constructors Sorted HdRel : core.

Lemma insert_desc_perm row rows :
  Permutation (Orm.insert_desc row rows) (row :: rows).
Proof.
  induction rows as [|r rows IH]; simpl; [reflexivity|].
  destruct (row.2 <? r.2); [|reflexivity].
  rewrite IH. apply perm_swap.
Qed.

Lemma insert_desc_hd row r rows :
  Orm.count_ge r row -> HdRel Orm.count_ge r rows ->
  HdRel Orm.count_ge r (Orm.insert_desc row rows).
Proof.
  intros Hr Hhd. destruct rows as [|r' rows]; simpl; [auto|].
  inversion Hhd; subst. destruct (row.2 <? r'.2); auto.
Qed.

Lemma insert_desc_sorted row rows :
  Sorted Orm.count_ge rows -> Sorted Orm.count_ge (Orm.insert_desc row rows).
Proof.
  induction 1 as [|r rows Hs IH Hhd]; simpl; [auto|].
  destruct (Z.ltb_spec row.2 r.2) as [Hlt|Hge].
  - constructor; [exact IH|]. apply insert_desc_hd; [|exact Hhd].
    unfold Orm.count_ge. lia.
  - constructor; [auto|]. constructor. unfold Orm.count_ge. lia.
Qed.

Lemma insertion_sort_ok rows :
  Permutation (foldr Orm.insert_desc [] rows) rows /\
  Sorted Orm.count_ge (foldr Orm.insert_desc [] rows).
Proof.
  induction rows as [|r rows [IHp IHs]]; simpl; [auto|].
  split.
  - rewrite insert_desc_perm. by constructor.
  - by apply insert_desc_sorted.
Qed.

Lemma stable_order_ok : Orm.is_order_by_count_desc Orm.stable_order.
Proof. intros rows. apply insertion_sort_ok. Qed.

Lemma reversing_order_ok : Orm.is_order_by_count_desc Orm.reversing_order.
Proof.
  intros rows. unfold Orm.reversing_order.
  destruct (insertion_sort_ok (reverse rows)) as [Hp Hs].
  split; [|exact Hs]. rewrite Hp. apply reverse_Permutation.
Qed.

End ordering.

(** The rows of a grouping: one row per value, with its number of
    occurrences. *)
Lemma annotate_count_spec values c k :
  (c, k) ∈ Orm.annotate_count values <-> c ∈ values /\ k = Orm.occurrences c values.
Proof.
  unfold Orm.annotate_count, Orm.distinct. rewrite list_elem_of_fmap. split.
  - intros [key [Heq Hin]]. inversion Heq; subst.
    rewrite elem_of_remove_dups in Hin. by split.
  - intros [Hin ->]. exists c. split; [reflexivity|]. by apply elem_of_remove_dups.
Qed.

Lemma annotate_count_keys values :
  (Orm.annotate_count values).*1 = Orm.distinct values.
Proof.
  unfold Orm.annotate_count.
  induction (Orm.distinct values) as [|v l IH]; simpl; [reflexivity|].
  f_equal. exact IH.
Qed.

Lemma occurrences_nonempty c values :
  c <> EmptyString ->
  Orm.occurrences c (filter (fun v => v <> EmptyString) values) = Orm.occurrences c values.
Proof.
  intros Hc. unfold Orm.occurrences. f_equal.
  induction values as [|v values IH]; [reflexivity|].
  rewrite !filter_cons. destruct (decide (v = c)) as [->|Hne].
  - rewrite decide_True by done. rewrite filter_cons, decide_True by done.
    by rewrite IH.
  - destruct (decide (v <> EmptyString)); [|done].
    by rewrite filter_cons, decide_False.
Qed.

(** ** The countries with the most views *)

Lemma api_stats_top_countries order_by w db :
  Views.top_countries (Views.api_stats order_by w db)
  = Orm.top_values order_by 5 (map PageView.country (page_views db)).
Proof. reflexivity. Qed.

Lemma analytics_top_countries order_by db start_date end_date context :
  Dashboard.analytics order_by db start_date end_date = Ok context ->
  Dashboard.top_countries context
  = Orm.top_values order_by 10
      (map PageView.country
         (filter (fun pv => start_date <= Dates.date_of (PageView.timestamp pv) /\
                            Dates.date_of (PageView.timestamp pv) <= end_date)
                 (page_views db))).
Proof.
  unfold Dashboard.analytics.
  destruct (Dashboard.daily_stats_loop _ _ _ _ _); simpl; [|discriminate].
  intros [= <-]. reflexivity.
Qed.

Lemma sorted_pair_unique (a b : string * Z) rows :
  b.2 < a.2 -> Permutation rows [a; b] -> Sorted Orm.count_ge rows -> rows = [a; b].
Proof.
  intros Hlt Hperm Hsorted. symmetry in Hperm.
  apply Permutation_length_2_inv in Hperm as [->| ->]; [reflexivity|].
  exfalso. inversion Hsorted as [|? ? _ Hhd]; subst.
  inversion Hhd as [|? ? Hge]; subst. unfold Orm.count_ge in Hge. lia.
Qed.

(** Claim C8 as the specification states it does not hold: an ordering
    that meets what [order_by('-count')] promises may return two countries
    of equal count in the reverse of the order in which they were first
    seen, which is not the stable order. *)
Lemma C8_tie_order_is_not_fixed :
  exists order_by,
    Orm.is_order_by_count_desc order_by /\
    Orm.top_values order_by 5 ["US"; "BR"] <> Spec.top_countries_stable 5 ["US"; "BR"].
Proof.
  exists Orm.reversing_order. split; [apply reversing_order_ok|].
  vm_compute. discriminate.
Qed.

(** Claim C8, amended: whatever the order the database gives to rows of
    equal count, the top countries are the first [n] rows of a list that
    holds one row per non-empty country, each with the number of views of
    that country, in descending order of that number; over the views
    BR, BR, US, BR, US the answer is (BR, 3), (US, 2). *)
Theorem C8_top_countries_by_count order_by (n : nat) (countries : list string) :
  Orm.is_order_by_count_desc order_by ->
  (exists rows,
      Orm.top_values order_by n countries = take n rows /\
      Sorted Orm.count_ge rows /\
      NoDup rows.*1 /\
      forall c k, (c, k) ∈ rows <->
                  c <> EmptyString /\ c ∈ countries /\ k = Orm.occurrences c countries) /\
  ((2 <= n)%nat ->
   Orm.top_values order_by n ["BR"; "BR"; "US"; "BR"; "US"] = [("BR", 3); ("US", 2)]).
Proof.
  intros Hok. split.
  - set (kept := filter (fun v => v <> EmptyString) countries).
    exists (order_by (Orm.annotate_count kept)).
    destruct (Hok (Orm.annotate_count kept)) as [Hperm Hsorted].
    split; [reflexivity|]. split; [exact Hsorted|]. split.
    + rewrite Hperm, annotate_count_keys. apply NoDup_remove_dups.
    + intros c k. rewrite Hperm, annotate_count_spec. unfold kept.
      rewrite list_elem_of_filter. split.
      * intros [[Hc Hin] ->]. by rewrite occurrences_nonempty.
      * intros (Hc & Hin & ->). by rewrite occurrences_nonempty.
  - intros Hn. unfold Orm.top_values.
    change (Orm.annotate_count _) with [("BR", 3); ("US", 2)].
    destruct (Hok [("BR", 3); ("US", 2)]) as [Hperm Hsorted].
    rewrite (sorted_pair_unique ("BR", 3) ("US", 2) _ ltac:(simpl; lia) Hperm Hsorted).
    apply take_ge. simpl. lia.
Qed.

Lemma C8_top_countries_by_count_witness :
  Orm.top_values Orm.stable_order 5 ["BR"; "BR"; "US"; "BR"; "US"]
  = [("BR", 3); ("US", 2)].
Proof.
  apply (C8_top_countries_by_count Orm.stable_order 5 [] stable_order_ok). lia.
Defined.

(** ** The daily statistics *)

Lemma set_top_countries_counts i country_stats stats :
  let stats' := SiteStatistics.set_top_countries i country_stats stats in
  SiteStatistics.date stats' = SiteStatistics.date stats /\
  SiteStatistics.total_views stats' = SiteStatistics.total_views stats /\
  SiteStatistics.unique_visitors stats' = SiteStatistics.unique_visitors stats /\
  SiteStatistics.contact_submissions stats' = SiteStatistics.contact_submissions stats /\
  SiteStatistics.desktop_views stats' = SiteStatistics.desktop_views stats /\
  SiteStatistics.mobile_views stats' = SiteStatistics.mobile_views stats /\
  SiteStatistics.tablet_views stats' = SiteStatistics.tablet_views stats.
Proof.
  revert i stats. induction country_stats as [|row rest IH]; intros i stats; simpl.
  - repeat split.
  - specialize (IH (S i) (SiteStatistics.set_top_country i row stats)).
    simpl in IH. exact IH.
Qed.

Lemma update_daily_stats_unique_visitors order_by now date page_views contacts objects :
  SiteStatistics.unique_visitors
    (SiteStatistics.update_daily_stats order_by now (Some date) page_views contacts objects).1
  = Orm.count (Orm.distinct (map PageView.ip_address (PageView.on_date date page_views))).
Proof.
  unfold SiteStatistics.update_daily_stats.
  destruct (objects !! date); simpl;
    match goal with
    | |- context [SiteStatistics.set_top_countries ?i ?cs ?st] =>
        destruct (set_top_countries_counts i cs st) as (_ & _ & -> & _)
    end; reflexivity.
Qed.

Lemma distinct_filter_le (P : PageView.t -> Prop) `{!forall pv, Decision (P pv)}
    (rows : list PageView.t) :
  Orm.count (Orm.distinct (map PageView.ip_address (filter P rows)))
  <= Orm.count (Orm.distinct (map PageView.ip_address rows)).
Proof.
  unfold Orm.count, Orm.distinct. apply inj_le, submseteq_length.
  apply NoDup_submseteq; [apply NoDup_remove_dups|].
  intros ip. rewrite !elem_of_remove_dups, !list_elem_of_fmap.
  intros (pv & -> & Hin). apply list_elem_of_filter in Hin as [_ Hin]. eauto.
Qed.

(** Claim C1 as the specification states it does not hold: an address seen
    on two consecutive days is counted on the second day, although its
    first recorded view is of the day before. *)
Lemma C1_returning_visitor_is_counted :
  let stats :=
    (SiteStatistics.update_daily_stats Orm.stable_order (Sample.noon Sample.a_day)
       (Some Sample.a_day) Sample.returning_visitor [] ∅).1 in
  SiteStatistics.unique_visitors stats = 1 /\
  Spec.first_seen_visitors Sample.a_day Sample.returning_visitor = 0 /\
  SiteStatistics.unique_visitors stats
  <> Spec.first_seen_visitors Sample.a_day Sample.returning_visitor.
Proof. vm_compute. repeat split; discriminate. Qed.

(** Claim C1, amended: [update_daily_stats] stores as [unique_visitors]
    the number of distinct addresses among the views of that day, whether
    or not an address was seen before; that number is at least the number
    the first-ever-seen rule gives. *)
Theorem C1_unique_visitors_are_distinct_addresses
    order_by now date page_views contacts objects :
  let stats :=
    (SiteStatistics.update_daily_stats order_by now (Some date)
       page_views contacts objects).1 in
  (exists ips : list string,
      NoDup ips /\
      (forall ip, ip ∈ ips <->
                  exists pv, pv ∈ page_views /\
                             Dates.date_of (PageView.timestamp pv) = date /\
                             PageView.ip_address pv = ip) /\
      SiteStatistics.unique_visitors stats = Z.of_nat (length ips)) /\
  Spec.first_seen_visitors date page_views <= SiteStatistics.unique_visitors stats.
Proof.
  intros stats. unfold stats. rewrite update_daily_stats_unique_visitors. split.
  - exists (Orm.distinct (map PageView.ip_address (PageView.on_date date page_views))).
    split; [apply NoDup_remove_dups|]. split; [|reflexivity].
    intros ip. unfold Orm.distinct, PageView.on_date.
    rewrite elem_of_remove_dups, list_elem_of_fmap. split.
    + intros (pv & -> & Hin). apply list_elem_of_filter in Hin as [Hd Hin]. eauto.
    + intros (pv & Hin & Hd & <-). exists pv. split; [reflexivity|].
      by apply list_elem_of_filter.
  - unfold Spec.first_seen_visitors. apply distinct_filter_le; apply _.
Qed.

(** Recomputing a row that was just recomputed from the same counts and
    the same top countries changes none of its derived fields, also when
    fewer than three countries leave some of the columns as they were. *)
Lemma recompute_twice now1 now2 views visitors contacts d m tb country_stats stats :
  (length country_stats <= 3)%nat ->
  let recompute now stats :=
    SiteStatistics.touch now
      (SiteStatistics.set_top_countries 1 country_stats
         (SiteStatistics.set_counts views visitors contacts d m tb stats)) in
  SiteStatistics.derived_fields (recompute now2 (recompute now1 stats))
  = SiteStatistics.derived_fields (recompute now1 stats).
Proof.
  intros Hlen.
  destruct country_stats as [|r1 [|r2 [|r3 [|r4 rest]]]]; simpl in Hlen;
    [reflexivity|reflexivity|reflexivity|reflexivity|lia].
Qed.

Lemma top_values_length order_by n values :
  (length (Orm.top_values order_by n values) <= n)%nat.
Proof. unfold Orm.top_values. rewrite length_take. lia. Qed.

(** Claim C6: run twice for the same date over the same views and
    contacts, [update_daily_stats] returns and stores rows with the same
    derived fields (the second run only moves [updated_at]), and leaves
    the rows of the other dates alone. *)
Theorem C6_update_daily_stats_idempotent
    order_by now1 now2 date page_views contacts objects :
  let run1 :=
    SiteStatistics.update_daily_stats order_by now1 (Some date)
      page_views contacts objects in
  let run2 :=
    SiteStatistics.update_daily_stats order_by now2 (Some date)
      page_views contacts run1.2 in
  SiteStatistics.derived_fields run2.1 = SiteStatistics.derived_fields run1.1 /\
  run1.2 !! date = Some run1.1 /\
  run2.2 !! date = Some run2.1 /\
  (forall d, d <> date -> run2.2 !! d = run1.2 !! d).
Proof.
  intros run1 run2.
  assert (H1 : run1.2 !! date = Some run1.1).
  { unfold run1, SiteStatistics.update_daily_stats.
    destruct (objects !! date); simpl; apply lookup_insert_eq. }
  assert (H2 : run2 =
    let stats :=
      SiteStatistics.touch now2
        (SiteStatistics.set_top_countries 1
           (Orm.top_values order_by 3
              (map PageView.country (PageView.on_date date page_views)))
           (SiteStatistics.set_counts
              (Orm.count (PageView.on_date date page_views))
              (Orm.count (Orm.distinct
                 (map PageView.ip_address (PageView.on_date date page_views))))
              (Orm.count (filter
                 (fun c => Dates.date_of (Contact.created_at c) = date) contacts))
              (Orm.count (filter (fun pv => PageView.device_type pv = desktop)
                                 (PageView.on_date date page_views)))
              (Orm.count (filter (fun pv => PageView.device_type pv = mobile)
                                 (PageView.on_date date page_views)))
              (Orm.count (filter (fun pv => PageView.device_type pv = tablet)
                                 (PageView.on_date date page_views)))
              run1.1)) in
    (stats, <[date := stats]> run1.2)).
  { unfold run2, SiteStatistics.update_daily_stats at 1. rewrite H1. reflexivity. }
  rewrite H2. simpl. split; [|split; [exact H1|split]].
  - unfold run1, SiteStatistics.update_daily_stats.
    destruct (objects !! date); simpl;
      apply recompute_twice, top_values_length.
  - apply lookup_insert_eq.
  - intros d Hd. by apply lookup_insert_ne.
Qed.

(** ** The daily breakdown of the analytics page *)

(** One turn of the loop. *)
Lemma daily_stats_loop_unfold page_views contacts end_date current_date daily_stats :
  Dashboard.daily_stats_loop page_views contacts end_date current_date daily_stats
  = if decide (current_date <= end_date) then
      match Dates.add_days current_date 1 with
      | Ok next =>
          Dashboard.daily_stats_loop page_views contacts end_date next
            (daily_stats ++ [Dashboard.daily_entry page_views contacts current_date])
      | Raise e => Raise e
      end
    else Ok daily_stats.
Proof.
  funelim (Dashboard.daily_stats_loop page_views contacts end_date current_date
             daily_stats).
  - rewrite decide_False by assumption. reflexivity.
  - rewrite decide_True by assumption. rewrite Hnext. reflexivity.
  - rewrite decide_True by assumption.
    match goal with H : Dates.add_days _ _ = Raise _ |- _ => rewrite H end.
    reflexivity.
Qed.

Lemma add_days_next d :
  0 <= d -> d < Dates.MAXORDINAL -> Dates.add_days d 1 = Ok (d + 1).
Proof.
  intros H0 Hmax. unfold Dates.add_days, Dates.MINORDINAL, Dates.MAXORDINAL in *.
  destruct (Z.leb_spec 1 (d + 1)); [|lia].
  destruct (Z.leb_spec (d + 1) 3652059); [reflexivity|lia].
Qed.

Lemma add_days_last : Dates.add_days Dates.MAXORDINAL 1 = Raise OverflowError.
Proof. reflexivity. Qed.

(** Before the last date of the calendar the loop appends one entry per
    date, from [current_date] to [end_date], oldest first. *)
Lemma daily_stats_loop_entries page_views contacts end_date :
  end_date < Dates.MAXORDINAL ->
  forall (n : nat) current_date daily_stats,
    0 <= current_date ->
    Z.of_nat n = end_date - current_date + 1 ->
    Dashboard.daily_stats_loop page_views contacts end_date current_date daily_stats
    = Ok (daily_stats ++
          map (Dashboard.daily_entry page_views contacts)
              (seqZ current_date (end_date - current_date + 1))).
Proof.
  intros Hend. induction n as [|n IH]; intros current_date daily_stats H0 Hn;
    rewrite daily_stats_loop_unfold.
  - rewrite decide_False by lia. rewrite <- Hn. simpl.
    by rewrite app_nil_r.
  - rewrite decide_True by lia. rewrite add_days_next by lia.
    rewrite IH by lia. rewrite <- app_assoc. simpl.
    rewrite (seqZ_cons current_date) by lia. simpl.
    replace (Z.succ current_date) with (current_date + 1) by lia.
    replace (Z.pred (end_date - current_date + 1))
      with (end_date - (current_date + 1) + 1) by lia.
    reflexivity.
Qed.

(** When the range ends on the last date of the calendar, the increment
    that follows the last entry raises. *)
Lemma daily_stats_loop_overflow page_views contacts :
  forall (n : nat) current_date daily_stats,
    0 <= current_date ->
    Z.of_nat n = Dates.MAXORDINAL - current_date ->
    Dashboard.daily_stats_loop page_views contacts Dates.MAXORDINAL
      current_date daily_stats
    = Raise OverflowError.
Proof.
  induction n as [|n IH]; intros current_date daily_stats H0 Hn;
    rewrite daily_stats_loop_unfold.
  - assert (current_date = Dates.MAXORDINAL) as -> by lia.
    rewrite decide_True by lia. reflexivity.
  - rewrite decide_True by lia. rewrite add_days_next by lia.
    apply IH; lia.
Qed.

Lemma on_date_in_range (start_date end_date d : Z) (rows : list PageView.t) :
  start_date <= d <= end_date ->
  PageView.on_date d
    (filter (fun pv => start_date <= Dates.date_of (PageView.timestamp pv) /\
                       Dates.date_of (PageView.timestamp pv) <= end_date) rows)
  = PageView.on_date d rows.
Proof.
  intros Hd. unfold PageView.on_date.
  induction rows as [|pv rows IH]; [reflexivity|].
  rewrite !filter_cons.
  destruct (decide (Dates.date_of (PageView.timestamp pv) = d)) as [Heq|Hne].
  - rewrite decide_True by lia. rewrite filter_cons, decide_True by done.
    by rewrite IH.
  - case_decide; [|done]. by rewrite filter_cons, decide_False.
Qed.

Lemma contacts_in_range (start_date end_date d : Z) (rows : list Contact.t) :
  start_date <= d <= end_date ->
  filter (fun c => Dates.date_of (Contact.created_at c) = d)
    (filter (fun c => start_date <= Dates.date_of (Contact.created_at c) /\
                      Dates.date_of (Contact.created_at c) <= end_date) rows)
  = filter (fun c => Dates.date_of (Contact.created_at c) = d) rows.
Proof.
  intros Hd. induction rows as [|c rows IH]; [reflexivity|].
  rewrite !filter_cons.
  destruct (decide (Dates.date_of (Contact.created_at c) = d)) as [Heq|Hne].
  - rewrite decide_True by lia. rewrite filter_cons, decide_True by done.
    by rewrite IH.
  - case_decide; [|done]. by rewrite filter_cons, decide_False.
Qed.

(** A date without views and without contacts has an entry of zeros. *)
Lemma daily_entry_zero page_views contacts d :
  PageView.on_date d page_views = [] ->
  filter (fun c => Dates.date_of (Contact.created_at c) = d) contacts = [] ->
  Dashboard.daily_entry page_views contacts d
  = {| Dashboard.entry_date := Dates.strftime_dm d;
       Dashboard.entry_views := 0;
       Dashboard.entry_visitors := 0;
       Dashboard.entry_contacts := 0 |}.
Proof. intros Hv Hc. unfold Dashboard.daily_entry. rewrite Hv, Hc. reflexivity. Qed.

(** For a range that ends before the last date of the calendar the
    analytics page holds one entry per date of the range, oldest first,
    each with the counts of its own date. *)
Lemma analytics_daily_stats order_by db start_date end_date :
  0 <= start_date -> start_date <= end_date -> end_date < Dates.MAXORDINAL ->
  exists context,
    Dashboard.analytics order_by db start_date end_date = Ok context /\
    Dashboard.daily_stats context
    = map (Dashboard.daily_entry (page_views db) (contacts db))
          (seqZ start_date (end_date - start_date + 1)).
Proof.
  intros H0 Hle Hend. unfold Dashboard.analytics.
  rewrite (daily_stats_loop_entries _ _ _ Hend
             (Z.to_nat (end_date - start_date + 1))) by lia.
  simpl. eexists. split; [reflexivity|]. simpl.
  apply list_eq_Forall2, Forall2_fmap, Forall_Forall2_diag, Forall_forall.
  intros d Hd%elem_of_seqZ. unfold Dashboard.daily_entry.
  rewrite on_date_in_range, contacts_in_range by lia. reflexivity.
Qed.

(** Claim C7 fails at the last date of the calendar: for the range that
    starts and ends on 31/12/9999 the page raises [OverflowError] instead
    of returning the entry of that date. *)
Theorem C7_last_date_raises order_by db :
  Dashboard.analytics order_by db Dates.MAXORDINAL Dates.MAXORDINAL
  = Raise OverflowError.
Proof.
  unfold Dashboard.analytics.
  rewrite (daily_stats_loop_overflow _ _ 0%nat) by (unfold Dates.MAXORDINAL; lia).
  reflexivity.
Qed.

(** ** The settings of the form *)

(** The guard of [save] refuses an instance without a key when the table
    already holds a row, and leaves the table as it is. *)
Lemma save_without_pk_is_refused self objects :
  ContactFormSettings.not_pk self = true ->
  objects <> ∅ ->
  ContactFormSettings.save self objects
  = Raise (ValueError "Apenas uma configuração pode existir").
Proof.
  intros Hpk Hne. unfold ContactFormSettings.save, ContactFormSettings.exists_.
  rewrite Hpk, bool_decide_eq_false_2 by done. reflexivity.
Qed.

(** [get_settings] returns, whatever the table holds. *)
Lemma get_settings_ok objects :
  ContactFormSettings.get_settings objects
  = Ok (match objects !! 1 with
        | Some settings => settings
        | None => ContactFormSettings.new (Some 1)
        end,
        match objects !! 1 with
        | Some _ => objects
        | None => <[1 := ContactFormSettings.new (Some 1)]> objects
        end).
Proof.
  unfold ContactFormSettings.get_settings. destruct (objects !! 1); reflexivity.
Qed.

(** Claim C5 fails for an instance that is given a key: the guard of
    [save] looks at [self.pk] only, so that saving a new instance of key 2
    next to the row of key 1 stores a second row, and so does
    [get_settings] when the only row has another key than 1. *)
Theorem C5_second_row_is_stored :
  let one_row : gmap Z ContactFormSettings.t :=
    {[ 1 := ContactFormSettings.new (Some 1) ]} in
  let other_row : gmap Z ContactFormSettings.t :=
    {[ 2 := ContactFormSettings.new (Some 2) ]} in
  (exists objects,
      ContactFormSettings.save (ContactFormSettings.new (Some 2)) one_row
      = Ok (ContactFormSettings.new (Some 2), objects) /\
      size objects = 2%nat) /\
  (exists objects,
      ContactFormSettings.get_settings other_row
      = Ok (ContactFormSettings.new (Some 1), objects) /\
      size objects = 2%nat).
Proof.
  split; eexists; (split; [reflexivity|]); vm_compute; reflexivity.
Qed.

(** ** The contact form *)

Lemma first_violation_table form_settings request :
  Spec.first_violation form_settings request
  = if negb (Spec.passes form_settings request Spec.MissingField)
    then Some Spec.MissingField
    else if negb (Spec.passes form_settings request Spec.BadEmail)
    then Some Spec.BadEmail
    else if negb (Spec.passes form_settings request Spec.BadWhatsapp)
    then Some Spec.BadWhatsapp
    else if negb (Spec.passes form_settings request Spec.FileTooLarge)
    then Some Spec.FileTooLarge
    else if negb (Spec.passes form_settings request Spec.FileTypeNotAllowed)
    then Some Spec.FileTypeNotAllowed
    else None.
Proof.
  unfold Spec.first_violation, Spec.check_order.
  generalize (Spec.passes form_settings request). intros p. simpl.
  destruct (p Spec.MissingField), (p Spec.BadEmail), (p Spec.BadWhatsapp),
    (p Spec.FileTooLarge), (p Spec.FileTypeNotAllowed); reflexivity.
Qed.

(** A string that does not hold the separator has no character equal to
    it. *)
Lemma contains_char_false sep s :
  Py.contains_char sep s = false -> forall c, In c (Py.to_list s) -> c <> sep.
Proof.
  unfold Py.contains_char. induction s as [|x s IH]; simpl; [by intros _ c []|].
  intros [Hx Hs]%orb_false_elim c [<-|Hc]; [|by apply IH].
  intros ->. by rewrite Ascii.eqb_refl in Hx.
Qed.

(** A string that holds the separator splits into two pieces at least. *)
Lemma split_two sep s :
  Py.contains_char sep s = true ->
  exists piece piece' rest, Py.split sep s = piece :: piece' :: rest.
Proof.
  unfold Py.contains_char. induction s as [|x s IH]; simpl; [discriminate|].
  intros Hs. destruct (Ascii.eqb_spec x sep) as [->|Hne].
  - destruct (split_cons sep s) as (piece & rest & ->). eauto.
  - rewrite (proj2 (Ascii.eqb_neq sep x)) in Hs by congruence.
    destruct (IH Hs) as (piece & piece' & rest & ->). eauto.
Qed.

(** The last piece of a split is the text after the last separator. *)
Lemma last_split sep s :
  List.last (Py.split sep s) EmptyString = Spec.after_last sep s.
Proof.
  induction s as [|x s IH]; [reflexivity|].
  cbn [Spec.after_last Py.split].
  destruct (Py.contains_char sep s) eqn:Hs.
  - rewrite <- IH. destruct (split_two sep s Hs) as (piece & piece' & rest & ->).
    by destruct (Ascii.eqb x sep).
  - rewrite (split_without_sep sep s (contains_char_false sep s Hs)).
    by destruct (Ascii.eqb x sep).
Qed.

(** The extension the code computes, [name.split('.')[-1].lower()], is
    the text after the last dot of the name in lower case. *)
Lemma file_extension_is_extension f : Views.file_extension f = Spec.extension f.
Proof. unfold Views.file_extension, Spec.extension. by rewrite last_split. Qed.

(** The list the code computes from the setting is the allow-list. *)
Lemma allowed_types_is_allow_list form_settings :
  Views.allowed_types form_settings = Spec.allow_list form_settings.
Proof. reflexivity. Qed.

(** The block that validates the upload takes the first of the two
    returns whose check the attachment does not pass. *)
Lemma validate_file_upload_table form_settings request :
  Views.validate_file_upload form_settings (FILES request !! "attachment")
  = if negb (Spec.passes form_settings request Spec.FileTooLarge)
    then Some (Spec.error_message form_settings Spec.FileTooLarge)
    else if negb (Spec.passes form_settings request Spec.FileTypeNotAllowed)
    then Some (Spec.error_message form_settings Spec.FileTypeNotAllowed)
    else None.
Proof.
  unfold Views.validate_file_upload, Spec.passes, Spec.attachment_of, Spec.error_message.
  destruct (FILES request !! "attachment") as [f|]; [|reflexivity].
  destruct (UploadedFile.truthy f); [|reflexivity].
  rewrite file_extension_is_extension, allowed_types_is_allow_list.
  rewrite Z.gtb_ltb, Z.ltb_antisym.
  destruct (_ <=? _); simpl; [|reflexivity].
  destruct (bool_decide _); reflexivity.
Qed.

Lemma whatsapp_length_check (n : Z) :
  (n <? 10) || (n >? 11) = negb ((10 <=? n) && (n <=? 11)).
Proof.
  rewrite Z.gtb_ltb.
  destruct (Z.ltb_spec n 10), (Z.ltb_spec 11 n), (Z.leb_spec 10 n), (Z.leb_spec n 11);
    simpl; try reflexivity; lia.
Qed.

(** The row [Contact.objects.create] stores for a submission, unless the
    storage refuses the upload. *)
Lemma create_contact w request objects :
  Contact.create (now w) (storage_save w)
    (Spec.field request "name") (Spec.field request "whatsapp")
    (Spec.field request "email") (Spec.field request "project_description")
    (FILES request !! "attachment") objects
  = match Spec.storage_failure w request with
    | Some e => Raise e
    | None => Ok (Spec.new_contact w request, objects ++ [Spec.new_contact w request])
    end.
Proof.
  unfold Contact.create, Contact.save_attachment, Spec.storage_failure,
    Spec.new_contact, Spec.stored_attachment, Spec.attachment_of, Spec.upload_path.
  destruct (FILES request !! "attachment") as [f|]; [|reflexivity].
  destruct (UploadedFile.truthy f); [|reflexivity].
  destruct (storage_save w _); reflexivity.
Qed.

(** The block of the admin notification leaves the database alone and
    adds the events of the admin channel to the log, however it ends. *)
Lemma attempt_admin w request form_settings db log :
  Views.attempt AdminNotified
    (Views.notify_admin w request form_settings (Spec.new_contact w request)
       (Spec.field request "name") (Spec.field request "email")
       (Spec.field request "whatsapp") (Spec.field request "project_description"))
    (db, log)
  = (Ok tt, (db, log ++ Spec.admin_events w request form_settings)).
Proof.
  unfold Views.attempt, Views.notify_admin, Spec.admin_events, Spec.attached_file.
  cbn [Contact.attachment Spec.new_contact].
  unfold try_except, bind, Views.email_send, bind, lift, emit. cbn [fst snd].
  destruct (Spec.stored_attachment w request) as [f|].
  - destruct (UploadedFile.truthy f).
    + destruct (attach_file w f) as [[]|e]; [|reflexivity].
      destruct (send w _) as [[]|e]; cbn [fst snd]; by rewrite <- app_assoc.
    + destruct (send w _) as [[]|e]; cbn [fst snd]; by rewrite <- app_assoc.
  - destruct (send w _) as [[]|e]; cbn [fst snd]; by rewrite <- app_assoc.
Qed.

(** The block of the auto-reply does the same with the events of the
    auto-reply channel. *)
Lemma attempt_applicant w request form_settings db log :
  Views.attempt ApplicantNotified
    (Views.notify_applicant w form_settings (Spec.new_contact w request)
       (Spec.field request "name") (Spec.field request "email")
       (Spec.field request "whatsapp"))
    (db, log)
  = (Ok tt, (db, log ++ Spec.applicant_events w request form_settings)).
Proof.
  unfold Views.attempt, Views.notify_applicant, Spec.applicant_events.
  cbn [Contact.created_at Spec.new_contact].
  unfold try_except, bind, lift, emit. cbn [fst snd].
  destruct (format w _ _ _ _ _) as [text|e]; [|reflexivity].
  destruct (send_mail w _) as [[]|e]; cbn [fst snd]; by rewrite <- app_assoc.
Qed.

Lemma contacts_db_with_settings db :
  contacts (Spec.db_with_settings db) = contacts db.
Proof.
  unfold Spec.db_with_settings. destruct (form_settings db !! 1); reflexivity.
Qed.

(** The handler as a table: the first violated check decides the error;
    a submission that passes every check is stored, then notified, unless
    the storage refuses its upload; the reply of these two cases reaches
    a browser through [redirect]. *)
Lemma handle_contact_form_table w request db log :
  method request = "POST" ->
  let form_settings := Spec.settings_in_force db in
  Views.handle_contact_form w request (db, log)
  = match Spec.first_violation form_settings request with
    | Some v =>
        (Ok (JsonError (Spec.error_message form_settings v)),
         (match v with
          | Spec.FileTooLarge | Spec.FileTypeNotAllowed => Spec.db_with_settings db
          | _ => db
          end, log))
    | None =>
        match Spec.storage_failure w request with
        | Some e =>
            (Spec.delivered w request (Spec.failure_response request),
             (Spec.db_with_settings db, log))
        | None =>
            (Spec.delivered w request (Spec.success_response request),
             (set_contacts (contacts db ++ [Spec.new_contact w request])
                           (Spec.db_with_settings db),
              log ++ [ContactCreated (Spec.new_contact w request)]
                  ++ Spec.notification_events w request form_settings))
        end
    end.
Proof.
  intros Hpost fs.
  rewrite first_violation_table.
  unfold Views.handle_contact_form. rewrite Hpost.
  change (negb ("POST" =? "POST")%string) with false. cbv iota.
  unfold try_except.
  change (forallb Py.truthy _) with (Spec.passes fs request Spec.MissingField).
  destruct (Spec.passes fs request Spec.MissingField); cbn [negb]; cbv beta iota;
    [|reflexivity].
  change (Re.match_anchored Views.email_regex _)
    with (Spec.passes fs request Spec.BadEmail).
  destruct (Spec.passes fs request Spec.BadEmail); cbn [negb]; cbv beta iota;
    [|reflexivity].
  rewrite whatsapp_length_check.
  change ((10 <=? _) && _) with (Spec.passes fs request Spec.BadWhatsapp).
  destruct (Spec.passes fs request Spec.BadWhatsapp); cbn [negb]; cbv beta iota;
    [|reflexivity].
  unfold bind at 1. unfold get_db at 1. cbv beta iota. cbn [fst].
  unfold bind at 1. unfold lift at 1. rewrite get_settings_ok.
  cbn [fst snd].
  change (match form_settings db !! 1 with
          | Some settings => settings
          | None => ContactFormSettings.new (Some 1)
          end) with fs.
  rewrite validate_file_upload_table.
  unfold bind at 1. unfold put_db at 1. cbv beta iota. cbn [fst snd].
  assert (Hdb : set_form_settings
                  match form_settings db !! 1 with
                  | Some _ => form_settings db
                  | None => <[1:=ContactFormSettings.new (Some 1)]> (form_settings db)
                  end db = Spec.db_with_settings db).
  { unfold Spec.db_with_settings. destruct (form_settings db !! 1); reflexivity. }
  rewrite Hdb. clear Hdb.
  destruct (Spec.passes fs request Spec.FileTooLarge); cbn [negb]; cbv beta iota;
    [|reflexivity].
  destruct (Spec.passes fs request Spec.FileTypeNotAllowed); cbn [negb]; cbv beta iota;
    [|reflexivity].
  unfold bind at 1. unfold get_db at 1. cbv beta iota. cbn [fst snd].
  unfold bind at 1. unfold lift at 1.
  change (Py.strip (Views.get_default (POST request) ?key EmptyString))
    with (Spec.field request key).
  rewrite (create_contact w request).
  unfold Spec.delivered, Spec.failure_response, Spec.success_response, Views.redirect.
  destruct (Spec.storage_failure w request) as [e|].
  { destruct (Views.is_ajax request); [reflexivity|].
    unfold bind, lift, ret. by destruct (resolve_url w "landing_page"). }
  cbn [fst snd].
  change (ContactFormSettings.email_notifications fs && _)
    with (Spec.admin_channel fs).
  change (ContactFormSettings.auto_reply_enabled fs)
    with (Spec.applicant_channel fs).
  rewrite contacts_db_with_settings.
  unfold Spec.notification_events.
  unfold bind at 1. unfold put_db at 1. cbn [fst snd].
  unfold bind at 1. unfold emit at 1. cbn [fst snd].
  destruct (Spec.admin_channel fs), (Spec.applicant_channel fs);
    unfold bind at 1; rewrite ?attempt_admin; unfold ret at 1;
    unfold bind at 1; rewrite ?attempt_applicant; unfold ret at 1;
    rewrite <- ?app_assoc, ?app_nil_r;
    (destruct (Views.is_ajax request); [reflexivity|]);
    unfold bind, lift, ret; by destruct (resolve_url w "landing_page").
Qed.












Lemma attachment_of_named request f :
  FILES request !! "attachment" = Some f ->
  UploadedFile.name f <> EmptyString ->
  Spec.attachment_of request = Some f.
Proof.
  intros Hf Hname. unfold Spec.attachment_of, UploadedFile.truthy. rewrite Hf.
  destruct (UploadedFile.name f); [done|reflexivity].
Qed.




(** Membership in the allow-list, in terms of the setting. *)
Lemma elem_of_allow_list form_settings ext :
  ext ∈ Spec.allow_list form_settings <->
  exists entry,
    entry ∈ Py.split "," (ContactFormSettings.allowed_file_types form_settings) /\
    Py.lower (Py.strip entry) = ext.
Proof.
  unfold Spec.allow_list.
  change (map ?f ?l) with (f <$> l). rewrite list_elem_of_fmap.
  split; intros (entry & H1 & H2); exists entry; by split.
Qed.





(** ** Geolocation and the tracking of page views *)

(** [get_location_info] returns whatever the lookup does. *)
Lemma get_location_info_returns w ip_address :
  exists info, Views.get_location_info w ip_address = Ok info.
Proof.
  unfold Views.get_location_info.
  destruct (Views.location_lookup w ip_address) as [[info|]|e]; eauto.
Qed.


(** The column of the address refuses exactly the address that is missing
    or empty, and an address whose canonical form is empty; an address
    without colon is stored as it is. *)
Lemma ip_address_field_cases w value :
  match Views.ip_address_field w value with
  | Ok stored =>
      stored <> EmptyString /\
      exists ip, value = Some ip /\ ip <> EmptyString /\
        (Py.contains_char ":" ip = false -> stored = ip) /\
        (Py.contains_char ":" ip = true ->
         stored = default ip (clean_ipv6_address w ip))
  | Raise e =>
      e = IntegrityError /\
      (value = None \/ value = Some EmptyString \/
       exists ip, value = Some ip /\ Py.contains_char ":" ip = true /\
                  clean_ipv6_address w ip = Some EmptyString)
  end.
Proof.
  unfold Views.ip_address_field. destruct value as [ip|]; [|by split; [|left]].
  destruct ip as [|c ip]; [by split; [|right; left]|].
  cbn [Py.truthy andb].
  destruct (Py.contains_char ":" (String c ip)) eqn:Hcolon.
  - destruct (clean_ipv6_address w (String c ip)) as [[|c' cleaned]|] eqn:Hclean;
      cbn [Py.truthy].
    + split; [reflexivity|]. right. right. by exists (String c ip).
    + split; [done|]. exists (String c ip). split; [done|]. split; [done|].
      split; [congruence|]. intros _. by rewrite Hclean.
    + split; [done|]. exists (String c ip). split; [done|]. split; [done|].
      split; [congruence|]. intros _. by rewrite Hclean.
  - cbn [Py.truthy]. split; [done|]. exists (String c ip).
    split; [done|]. split; [done|]. split; [done|congruence].
Qed.



(** * Further properties of the code *)

(** ** Splitting and joining *)

Lemma join_cons sep piece piece' rest :
  Py.join sep (piece :: piece' :: rest) = piece +:+ sep +:+ Py.join sep (piece' :: rest).
Proof. reflexivity. Qed.

Lemma append_String c s t : String c s +:+ t = String c (s +:+ t).
Proof. reflexivity. Qed.

Lemma split_pieces (sep : ascii) (s : string) :
  Py.join (String sep EmptyString) (Py.split sep s) = s /\
  Forall (fun piece => forall c, In c (Py.to_list piece) -> c <> sep) (Py.split sep s).
Proof.
  induction s as [|c s [IHj IHf]]; simpl.
  - split; [reflexivity|]. constructor; [|constructor]. intros c [].
  - destruct (Ascii.eqb_spec c sep) as [->|Hne].
    + destruct (split_cons sep s) as (piece & rest & Hs). rewrite Hs in *.
      split; [|constructor; [intros c []|exact IHf]].
      rewrite join_cons, IHj. reflexivity.
    + destruct (split_cons sep s) as (piece & rest & Hs). rewrite Hs in *.
      apply Forall_cons in IHf as [Hpiece Hrest]. split.
      * rewrite <- IHj. by destruct rest.
      * constructor; [|exact Hrest]. intros c' [<-|Hin]; [exact Hne|by apply Hpiece].
Qed.

(** ** The address of the client and the tracking of page views *)

(** With a non-empty [X-Forwarded-For] header, [get_client_ip] returns
    the text of the header before its first comma, as it is (it is not
    trimmed), whatever [REMOTE_ADDR] holds. *)
Theorem get_client_ip_first_forwarded request x :
  META request !! "HTTP_X_FORWARDED_FOR" = Some x ->
  x <> EmptyString ->
  exists ip,
    Views.get_client_ip request = Some ip /\
    (forall c, In c (Py.to_list ip) -> c <> ","%char) /\
    (x = ip \/ exists rest, x = ip +:+ String "," rest).
Proof.
  intros Hx Hne. unfold Views.get_client_ip. rewrite Hx.
  destruct x as [|c x]; [done|]. cbn [Py.truthy].
  destruct (split_pieces "," (String c x)) as [Hjoin Hpieces].
  destruct (split_cons "," (String c x)) as (ip & rest & Hs). rewrite Hs in *.
  exists ip. split; [reflexivity|].
  apply Forall_cons in Hpieces as [Hip _]. split; [exact Hip|].
  destruct rest as [|piece rest]; [left; by rewrite <- Hjoin|].
  right. rewrite join_cons in Hjoin. eexists. rewrite <- Hjoin. reflexivity.
Qed.

Lemma get_client_ip_first_forwarded_witness :
  exists ip,
    Views.get_client_ip
      {| method := "GET";
         META := {[ "HTTP_X_FORWARDED_FOR" := "198.51.100.4, 10.0.0.1";
                    "REMOTE_ADDR" := "10.0.0.1" ]};
         POST := ∅; FILES := ∅; headers := ∅; session_key := None;
         build_absolute_uri := fun path => path |}
    = Some ip /\
    (forall c, In c (Py.to_list ip) -> c <> ","%char) /\
    ("198.51.100.4, 10.0.0.1" = ip \/
     exists rest, "198.51.100.4, 10.0.0.1" = ip +:+ String "," rest).
Proof.
  apply (get_client_ip_first_forwarded _ "198.51.100.4, 10.0.0.1");
    [reflexivity|discriminate].
Defined.

(** Without that header, or with an empty one, the address is
    [REMOTE_ADDR], which may be missing. *)
Lemma get_client_ip_remote_addr request :
  META request !! "HTTP_X_FORWARDED_FOR" = None \/
  META request !! "HTTP_X_FORWARDED_FOR" = Some EmptyString ->
  Views.get_client_ip request = META request !! "REMOTE_ADDR".
Proof. unfold Views.get_client_ip. intros [-> | ->]; reflexivity. Qed.

(** The column of a text field refuses [None] and nothing else. *)
Lemma char_field_cases v :
  match Views.char_field v with
  | Ok _ => v <> PyNone
  | Raise e => e = IntegrityError /\ v = PyNone
  end.
Proof. by destruct v. Qed.

Lemma track_all_or_nothing w request page_url db log :
  match Views.track_page_view w request page_url (db, log) with
  | (Ok page_view, st') =>
      exists row,
        st' = (set_page_views (page_views db ++ [row]) db,
               log ++ [PageViewCreated row]) /\
        Views.get_client_ip request = Some (PageView.ip_address page_view) /\
        Views.ip_address_field w (Views.get_client_ip request)
        = Ok (PageView.ip_address row) /\
        PageView.timestamp row = now w /\
        PageView.page_url row = page_url /\
        PageView.time_on_page row = 0
  | (Raise e, st') => st' = (db, log) /\ e = IntegrityError
  end.
Proof.
  unfold Views.track_page_view.
  destruct (get_location_info_returns w
              match Views.get_client_ip request with
              | Some ip => ip
              | None => "None"
              end) as [info Hinfo].
  unfold bind at 1, lift at 1. rewrite Hinfo.
  unfold bind at 1, lift at 1.
  pose proof (ip_address_field_cases w (Views.get_client_ip request)) as Hip.
  destruct (Views.ip_address_field w (Views.get_client_ip request)) as [stored|e];
    [|by destruct Hip as [-> _]].
  destruct Hip as (_ & ip & Hsome & _). rewrite Hsome.
  pose proof (char_field_cases (Views.loc_country info)) as Hcountry.
  pose proof (char_field_cases (Views.loc_city info)) as Hcity.
  pose proof (char_field_cases (Views.loc_region info)) as Hregion.
  unfold bind, lift.
  destruct (Views.char_field (Views.loc_country info)) as [country|e];
    [|by destruct Hcountry as [-> _]].
  destruct (Views.char_field (Views.loc_city info)) as [city|e];
    [|by destruct Hcity as [-> _]].
  destruct (Views.char_field (Views.loc_region info)) as [region|e];
    [|by destruct Hregion as [-> _]].
  simpl. eexists. by repeat split.
Qed.

(** [track_page_view] stores all of a view or nothing.  It raises
    [IntegrityError], and leaves the database and the log as they were,
    exactly when the client has no address, when the address is empty
    (also in its canonical form), or when the geolocation reply gives
    [None] for a field; otherwise the table gains exactly one row, taken
    at the time of the request for the given page, whose address is the
    address of the client in the form the column gives it, and the view
    that is returned carries the address as the client sent it. *)
Theorem track_page_view_all_or_nothing w request page_url db log :
  let ip := Views.get_client_ip request in
  exists info,
    Views.get_location_info w
      match ip with Some ip => ip | None => "None" end = Ok info /\
    let refused :=
      ip = None \/ ip = Some EmptyString \/
      (exists v, ip = Some v /\ Py.contains_char ":" v = true /\
                 clean_ipv6_address w v = Some EmptyString) \/
      Views.loc_country info = PyNone \/ Views.loc_city info = PyNone \/
      Views.loc_region info = PyNone in
    (refused ->
     Views.track_page_view w request page_url (db, log)
     = (Raise IntegrityError, (db, log))) /\
    (~ refused ->
     exists page_view row,
       Views.track_page_view w request page_url (db, log)
       = (Ok page_view,
          (set_page_views (page_views db ++ [row]) db,
           log ++ [PageViewCreated row])) /\
       ip = Some (PageView.ip_address page_view) /\
       Views.ip_address_field w ip = Ok (PageView.ip_address row) /\
       PageView.ip_address row <> EmptyString /\
       (Py.contains_char ":" (PageView.ip_address page_view) = false ->
        PageView.ip_address row = PageView.ip_address page_view) /\
       Views.char_field (Views.loc_country info) = Ok (PageView.country row) /\
       Views.char_field (Views.loc_city info) = Ok (PageView.city row) /\
       Views.char_field (Views.loc_region info) = Ok (PageView.region row) /\
       PageView.timestamp row = now w /\
       PageView.page_url row = page_url /\
       PageView.time_on_page row = 0).
Proof.
  intros ip. subst ip.
  destruct (get_location_info_returns w
              match Views.get_client_ip request with
              | Some ip => ip
              | None => "None"
              end) as [info Hinfo].
  exists info. split; [exact Hinfo|]. intros refused.
  pose proof (ip_address_field_cases w (Views.get_client_ip request)) as Hip.
  pose proof (char_field_cases (Views.loc_country info)) as Hcountry.
  pose proof (char_field_cases (Views.loc_city info)) as Hcity.
  pose proof (char_field_cases (Views.loc_region info)) as Hregion.
  unfold Views.track_page_view.
  unfold bind at 1, lift at 1. rewrite Hinfo.
  unfold bind at 1, lift at 1.
  destruct (Views.ip_address_field w (Views.get_client_ip request)) as [stored|e].
  2: { destruct Hip as (-> & Hcases). split; [by intros _|].
       intros Hnot. destruct Hnot. unfold refused. tauto. }
  destruct Hip as (Hne & v & Hv & Hvne & Hplain & Hcolon). rewrite Hv.
  unfold bind, lift.
  destruct (Views.char_field (Views.loc_country info)) as [country|e].
  2: { destruct Hcountry as (-> & Hnone). split; [by intros _|].
       intros Hnot. destruct Hnot. unfold refused. tauto. }
  destruct (Views.char_field (Views.loc_city info)) as [city|e].
  2: { destruct Hcity as (-> & Hnone). split; [by intros _|].
       intros Hnot. destruct Hnot. unfold refused. tauto. }
  destruct (Views.char_field (Views.loc_region info)) as [region|e].
  2: { destruct Hregion as (-> & Hnone). split; [by intros _|].
       intros Hnot. destruct Hnot. unfold refused. tauto. }
  split.
  - intros [H|[H|[(v' & H & Hc & Hclean)|[H|[H|H]]]]]; try done; exfalso.
    + congruence.
    + congruence.
    + rewrite Hv in H. injection H as <-. specialize (Hcolon Hc).
      rewrite Hclean in Hcolon. by apply Hne.
  - intros _. eexists _, _. split; [reflexivity|]. cbn.
    by repeat split.
Qed.

(** ** Saving and reading the settings *)

(** [get_settings] never raises; after it the table holds the returned
    row under key 1, the rows of the other keys are as before, a row that
    was already there is returned unchanged, and a second call returns the
    same row and leaves the table alone. *)
Theorem get_settings_is_idempotent (objects : gmap Z ContactFormSettings.t) :
  exists settings objects',
    ContactFormSettings.get_settings objects = Ok (settings, objects') /\
    objects' !! 1 = Some settings /\
    (forall k, k <> 1 -> objects' !! k = objects !! k) /\
    (forall s, objects !! 1 = Some s -> settings = s /\ objects' = objects) /\
    ContactFormSettings.get_settings objects' = Ok (settings, objects').
Proof.
  rewrite get_settings_ok. destruct (objects !! 1) as [s|] eqn:H1.
  - exists s, objects. split; [reflexivity|]. split; [exact H1|].
    split; [done|]. split; [by intros ? [= ->]|].
    by rewrite get_settings_ok, H1.
  - eexists _, _. split; [reflexivity|]. split; [apply lookup_insert_eq|].
    split; [intros k Hk; by apply lookup_insert_ne|]. split; [done|].
    by rewrite get_settings_ok, lookup_insert_eq.
Qed.

(** ** The columns of the daily statistics *)

Lemma update_daily_stats_counts order_by now date page_views contacts objects :
  let stats :=
    (SiteStatistics.update_daily_stats order_by now (Some date)
       page_views contacts objects).1 in
  let daily_views := PageView.on_date date page_views in
  let with_device d := filter (fun pv => PageView.device_type pv = d) daily_views in
  SiteStatistics.total_views stats = Orm.count daily_views /\
  SiteStatistics.desktop_views stats = Orm.count (with_device desktop) /\
  SiteStatistics.mobile_views stats = Orm.count (with_device mobile) /\
  SiteStatistics.tablet_views stats = Orm.count (with_device tablet).
Proof.
  unfold SiteStatistics.update_daily_stats.
  destruct (objects !! date); simpl;
    match goal with
    | |- context [SiteStatistics.set_top_countries ?i ?cs ?st] =>
        destruct (set_top_countries_counts i cs st)
          as (_ & -> & _ & _ & -> & -> & ->)
    end; repeat split.
Qed.

Lemma device_counts_le (rows : list PageView.t) :
  Orm.count (filter (fun pv => PageView.device_type pv = desktop) rows)
  + Orm.count (filter (fun pv => PageView.device_type pv = mobile) rows)
  + Orm.count (filter (fun pv => PageView.device_type pv = tablet) rows)
  + Orm.count (filter (fun pv => PageView.device_type pv = unknown) rows)
  = Orm.count rows.
Proof.
  unfold Orm.count. induction rows as [|pv rows IH]; [reflexivity|].
  rewrite !filter_cons. destruct (PageView.device_type pv);
    repeat (case_decide; try done); simpl length; lia.
Qed.

(** The counts of a recomputed row fit together: no more unique visitors
    than views, none of them negative, and the views from desktops,
    mobiles and tablets add up to the views of the day less those whose
    device is unknown. *)
Theorem update_daily_stats_counts_fit order_by now date page_views contacts objects :
  let stats :=
    (SiteStatistics.update_daily_stats order_by now (Some date)
       page_views contacts objects).1 in
  0 <= SiteStatistics.unique_visitors stats <= SiteStatistics.total_views stats /\
  0 <= SiteStatistics.contact_submissions stats <= Orm.count contacts /\
  SiteStatistics.desktop_views stats + SiteStatistics.mobile_views stats
  + SiteStatistics.tablet_views stats
  = SiteStatistics.total_views stats
    - Orm.count (filter (fun pv => PageView.device_type pv = unknown)
                        (PageView.on_date date page_views)).
Proof.
  intros stats. unfold stats.
  destruct (update_daily_stats_counts order_by now date page_views contacts objects)
    as (-> & -> & -> & ->).
  rewrite update_daily_stats_unique_visitors.
  split; [|split].
  - unfold Orm.count, Orm.distinct. split; [lia|]. apply inj_le.
    rewrite <- (length_map PageView.ip_address (PageView.on_date date page_views)).
    apply submseteq_length, NoDup_submseteq; [apply NoDup_remove_dups|].
    intros ip. by rewrite elem_of_remove_dups.
  - unfold SiteStatistics.update_daily_stats.
    destruct (objects !! date); simpl;
      match goal with
      | |- context [SiteStatistics.set_top_countries ?i ?cs ?st] =>
          destruct (set_top_countries_counts i cs st) as (_ & _ & _ & -> & _)
      end; simpl; unfold Orm.count; (split; [lia|apply inj_le, length_filter]).
  - rewrite <- (device_counts_le (PageView.on_date date page_views)). lia.
Qed.

Lemma top_country_columns order_by now date page_views contacts objects :
  let old := default (SiteStatistics.new now date) (objects !! date) in
  let country_stats :=
    Orm.top_values order_by 3
      (map PageView.country (PageView.on_date date page_views)) in
  let stats :=
    (SiteStatistics.update_daily_stats order_by now (Some date)
       page_views contacts objects).1 in
  (SiteStatistics.top_country_1 stats, SiteStatistics.top_country_1_count stats)
  = default (SiteStatistics.top_country_1 old, SiteStatistics.top_country_1_count old)
            (country_stats !! 0%nat) /\
  (SiteStatistics.top_country_2 stats, SiteStatistics.top_country_2_count stats)
  = default (SiteStatistics.top_country_2 old, SiteStatistics.top_country_2_count old)
            (country_stats !! 1%nat) /\
  (SiteStatistics.top_country_3 stats, SiteStatistics.top_country_3_count stats)
  = default (SiteStatistics.top_country_3 old, SiteStatistics.top_country_3_count old)
            (country_stats !! 2%nat).
Proof.
  intros old country_stats stats. unfold stats, SiteStatistics.update_daily_stats.
  fold country_stats.
  assert (Hlen : (length country_stats <= 3)%nat) by apply top_values_length.
  unfold old. clear stats old.
  destruct (objects !! date) as [row|];
    destruct country_stats as [|[c1 n1] [|[c2 n2] [|[c3 n3] [|r4 rest]]]];
    simpl in Hlen; try lia; repeat split.
Qed.

Lemma sorted_take {A : Type} (R : A -> A -> Prop) (n : nat) (l : list A) :
  Sorted R l -> Sorted R (take n l).
Proof.
  intros Hs. revert n. induction Hs as [|x l Hs IH Hhd]; intros [|n]; simpl;
    try constructor; [apply IH|].
  destruct Hhd; destruct n; simpl; constructor; assumption.
Qed.

(** The three top-country columns after a recomputation: column [i] holds
    the [i]-th of the day's top countries when the day has that many, and
    otherwise what the row held before (the defaults for a new row); a
    column is never cleared. *)
Theorem update_daily_stats_top_country_columns
    order_by now date page_views contacts objects :
  let old := default (SiteStatistics.new now date) (objects !! date) in
  let country_stats :=
    Orm.top_values order_by 3
      (map PageView.country (PageView.on_date date page_views)) in
  let stats :=
    (SiteStatistics.update_daily_stats order_by now (Some date)
       page_views contacts objects).1 in
  (SiteStatistics.top_country_1 stats, SiteStatistics.top_country_1_count stats)
  = default (SiteStatistics.top_country_1 old, SiteStatistics.top_country_1_count old)
            (country_stats !! 0%nat) /\
  (SiteStatistics.top_country_2 stats, SiteStatistics.top_country_2_count stats)
  = default (SiteStatistics.top_country_2 old, SiteStatistics.top_country_2_count old)
            (country_stats !! 1%nat) /\
  (SiteStatistics.top_country_3 stats, SiteStatistics.top_country_3_count stats)
  = default (SiteStatistics.top_country_3 old, SiteStatistics.top_country_3_count old)
            (country_stats !! 2%nat).
Proof. exact (top_country_columns order_by now date page_views contacts objects). Qed.

(** When the database orders by count, the top countries a recomputation
    reads are real and in order: each is a non-empty country of a view of
    that day with the number of that day's views from it, no country
    comes twice, and the counts do not increase down the list. *)
Lemma top_countries_are_ranked order_by date (page_views : list PageView.t) :
  Orm.is_order_by_count_desc order_by ->
  let countries := map PageView.country (PageView.on_date date page_views) in
  let country_stats := Orm.top_values order_by 3 countries in
  Sorted Orm.count_ge country_stats /\
  NoDup country_stats.*1 /\
  (forall c k, (c, k) ∈ country_stats ->
     c <> EmptyString /\ 0 < k /\ k = Orm.occurrences c countries /\
     exists pv, pv ∈ page_views /\ PageView.country pv = c /\
                Dates.date_of (PageView.timestamp pv) = date).
Proof.
  intros Hok countries country_stats. unfold country_stats, Orm.top_values.
  set (kept := filter (fun v => v <> EmptyString) countries).
  destruct (Hok (Orm.annotate_count kept)) as [Hperm Hsorted].
  split; [by apply sorted_take|]. split.
  - eapply sublist_NoDup; [|apply fmap_sublist, sublist_take].
    rewrite Hperm, annotate_count_keys. apply NoDup_remove_dups.
  - intros c k Hin. apply (subseteq_take 3) in Hin.
    rewrite Hperm, annotate_count_spec in Hin. destruct Hin as [Hc ->].
    unfold kept in *. apply list_elem_of_filter in Hc as [Hne Hc].
    split; [exact Hne|]. rewrite occurrences_nonempty by exact Hne.
    assert (Hpos : 0 < Orm.occurrences c countries).
    { unfold Orm.occurrences, Orm.count.
      assert (c ∈ filter (fun v => v = c) countries) as Hf
        by (by apply list_elem_of_filter).
      destruct (filter (fun v => v = c) countries);
        [by apply elem_of_nil in Hf|simpl; lia]. }
    split; [exact Hpos|]. split; [reflexivity|].
    unfold countries in Hc. apply list_elem_of_fmap in Hc as (pv & -> & Hpv).
    apply list_elem_of_filter in Hpv as [Hd Hpv]. eauto.
Qed.

Lemma occurrences_absent c values : c ∉ values -> Orm.occurrences c values = 0.
Proof.
  intros Hout. unfold Orm.occurrences, Orm.count.
  induction values as [|v values IH]; [reflexivity|].
  apply not_elem_of_cons in Hout as [Hne Hout].
  rewrite filter_cons, decide_False by done. by apply IH.
Qed.

(** When the database orders by count and a view of the day has a
    country, the first column of the recomputed row names a country of
    that day whose number of views no other country of the day exceeds,
    and the count beside it is that number. *)
Theorem update_daily_stats_first_country_is_most_viewed
    order_by now date page_views contacts objects pv :
  Orm.is_order_by_count_desc order_by ->
  pv ∈ page_views ->
  Dates.date_of (PageView.timestamp pv) = date ->
  PageView.country pv <> EmptyString ->
  let stats :=
    (SiteStatistics.update_daily_stats order_by now (Some date)
       page_views contacts objects).1 in
  let countries := map PageView.country (PageView.on_date date page_views) in
  SiteStatistics.top_country_1 stats <> EmptyString /\
  SiteStatistics.top_country_1 stats ∈ countries /\
  SiteStatistics.top_country_1_count stats
  = Orm.occurrences (SiteStatistics.top_country_1 stats) countries /\
  (forall c, c <> EmptyString ->
             Orm.occurrences c countries <= SiteStatistics.top_country_1_count stats).
Proof.
  intros Hok Hpv Hdate Hcountry stats countries.
  destruct (top_country_columns order_by now date page_views contacts objects)
    as (H1 & _ & _). fold stats countries in H1.
  unfold Orm.top_values in H1.
  set (kept := filter (fun v => v <> EmptyString) countries) in *.
  destruct (Hok (Orm.annotate_count kept)) as [Hperm Hsorted].
  assert (Hin : (PageView.country pv, Orm.occurrences (PageView.country pv) kept)
                ∈ order_by (Orm.annotate_count kept)).
  { rewrite Hperm, annotate_count_spec. split; [|reflexivity].
    unfold kept, countries. apply list_elem_of_filter. split; [exact Hcountry|].
    apply list_elem_of_fmap. exists pv. split; [reflexivity|].
    by apply list_elem_of_filter. }
  destruct (order_by (Orm.annotate_count kept)) as [|[c1 n1] rows] eqn:Hrows;
    [by apply elem_of_nil in Hin|].
  simpl in H1. injection H1 as Hc Hn. rewrite Hc, Hn.
  assert (Hfirst : (c1, n1) ∈ Orm.annotate_count kept)
    by (rewrite <- Hperm; apply list_elem_of_here).
  apply annotate_count_spec in Hfirst as [Hc1 Hn1].
  unfold kept in Hc1, Hn1. apply list_elem_of_filter in Hc1 as [Hne1 Hc1].
  rewrite occurrences_nonempty in Hn1 by exact Hne1.
  split; [exact Hne1|]. split; [exact Hc1|]. split; [exact Hn1|].
  intros c Hc'.
  destruct (decide (c ∈ countries)) as [Hcin|Hcout].
  - assert (Hrow : (c, Orm.occurrences c kept) ∈ (c1, n1) :: rows).
    { rewrite Hperm, annotate_count_spec. split; [|reflexivity].
      unfold kept. by apply list_elem_of_filter. }
    unfold kept in Hrow. rewrite occurrences_nonempty in Hrow by exact Hc'.
    apply Sorted_StronglySorted in Hsorted;
      [|intros x y z; unfold Orm.count_ge; lia].
    apply StronglySorted_inv in Hsorted as [_ Hall].
    apply elem_of_cons in Hrow as [[= -> ->]|Hrow]; [lia|].
    rewrite Forall_forall in Hall. specialize (Hall _ Hrow).
    unfold Orm.count_ge in Hall. simpl in Hall. lia.
  - rewrite (occurrences_absent _ _ Hcout), Hn1.
    unfold Orm.occurrences, Orm.count. lia.
Qed.

Lemma update_daily_stats_first_country_is_most_viewed_witness :
  let stats :=
    (SiteStatistics.update_daily_stats Orm.stable_order (Sample.noon Sample.a_day)
       (Some Sample.a_day) Sample.returning_visitor [] ∅).1 in
  let countries :=
    map PageView.country (PageView.on_date Sample.a_day Sample.returning_visitor) in
  SiteStatistics.top_country_1 stats <> EmptyString /\
  SiteStatistics.top_country_1 stats ∈ countries /\
  SiteStatistics.top_country_1_count stats
  = Orm.occurrences (SiteStatistics.top_country_1 stats) countries /\
  (forall c, c <> EmptyString ->
             Orm.occurrences c countries <= SiteStatistics.top_country_1_count stats).
Proof.
  apply (update_daily_stats_first_country_is_most_viewed Orm.stable_order
           (Sample.noon Sample.a_day) Sample.a_day Sample.returning_visitor [] ∅
           (Sample.view "203.0.113.7" "BR" (Sample.noon Sample.a_day))
           stable_order_ok);
    [repeat constructor|reflexivity|discriminate].
Defined.

(** ** What the contact form keeps and what it stores *)

Lemma lstrip_head s :
  Py.lstrip s = EmptyString \/
  exists c t, Py.lstrip s = String c t /\ Py.isspace c = false.
Proof.
  induction s as [|c s IH]; simpl; [by left|].
  destruct (Py.isspace c) eqn:Hc; [exact IH|]. right. eauto.
Qed.

Lemma rstrip_head c t :
  Py.isspace c = false -> exists t', Py.rstrip (String c t) = String c t'.
Proof.
  intros Hc. simpl. destruct (Py.rstrip t); [rewrite Hc|]; eauto.
Qed.

Lemma rstrip_idempotent s : Py.rstrip (Py.rstrip s) = Py.rstrip s.
Proof.
  induction s as [|c s IH]; [reflexivity|]. simpl.
  destruct (Py.rstrip s) as [|c' r] eqn:Hr.
  - destruct (Py.isspace c) eqn:Hc; [reflexivity|]. simpl. by rewrite Hc.
  - change (Py.rstrip (String c (String c' r))) with
      (match Py.rstrip (String c' r) with
       | EmptyString => if Py.isspace c then EmptyString else String c EmptyString
       | r0 => String c r0
       end).
    by rewrite IH.
Qed.

(** Trimming a trimmed string changes nothing. *)
Lemma strip_idempotent s : Py.strip (Py.strip s) = Py.strip s.
Proof.
  unfold Py.strip. destruct (lstrip_head s) as [->|(c & t & -> & Hc)]; [reflexivity|].
  destruct (rstrip_head c t Hc) as [t' Ht]. rewrite Ht at 1.
  simpl Py.lstrip. rewrite Hc, <- Ht. apply rstrip_idempotent.
Qed.

Lemma page_views_db_with_settings db :
  page_views (Spec.db_with_settings db) = page_views db /\
  site_statistics (Spec.db_with_settings db) = site_statistics db.
Proof.
  unfold Spec.db_with_settings. destruct (form_settings db !! 1); split; reflexivity.
Qed.

Lemma form_settings_db_with_settings db :
  form_settings (Spec.db_with_settings db)
  = match form_settings db !! 1 with
    | Some _ => form_settings db
    | None => <[1 := ContactFormSettings.new (Some 1)]> (form_settings db)
    end.
Proof.
  unfold Spec.db_with_settings. destruct (form_settings db !! 1); reflexivity.
Qed.

(** The channels write calls of the transport and ends of blocks to the
    log, nothing else. *)
Lemma notification_events_only w request form_settings ev :
  ev ∈ Spec.notification_events w request form_settings ->
  (exists message, ev = SendCalled message) \/
  (exists outcome, ev = AdminNotified outcome) \/
  (exists message, ev = SendMailCalled message) \/
  (exists outcome, ev = ApplicantNotified outcome).
Proof.
  unfold Spec.notification_events, Spec.admin_events, Spec.applicant_events.
  intros Hin. apply elem_of_app in Hin as [Hin|Hin].
  - destruct (Spec.admin_channel form_settings); [|inversion Hin].
    destruct (Spec.attached_file w request) as [f|];
      [destruct (attach_file w f)|];
      repeat (apply elem_of_cons in Hin as [->|Hin]; [eauto|]);
      inversion Hin.
  - destruct (Spec.applicant_channel form_settings); [|inversion Hin].
    destruct (format w _ _ _ _ _);
      repeat (apply elem_of_cons in Hin as [->|Hin]; [eauto 6|]);
      inversion Hin.
Qed.

Lemma delivered_cases w request response :
  match Spec.delivered w request response with
  | Ok response' =>
      response' = response /\
      (Views.is_ajax request = true \/
       exists url, resolve_url w "landing_page" = Ok url)
  | Raise e =>
      Views.is_ajax request = false /\ resolve_url w "landing_page" = Raise e
  end.
Proof.
  unfold Spec.delivered. destruct (Views.is_ajax request); [by split; [|left]|].
  destruct (resolve_url w "landing_page") as [url|e]; [|done].
  split; [done|]. right. by exists url.
Qed.

Lemma handle_frame w request db log :
  exists outcome db' events,
    Views.handle_contact_form w request (db, log)
    = (outcome, (db', log ++ events)) /\
    page_views db' = page_views db /\
    site_statistics db' = site_statistics db /\
    (form_settings db' = form_settings db \/
     form_settings db !! 1 = None /\
     form_settings db' = <[1 := ContactFormSettings.new (Some 1)]> (form_settings db)) /\
    (contacts db' = contacts db /\
     (forall c, ContactCreated c ∉ events) \/
     exists c rest,
       contacts db' = contacts db ++ [c] /\ events = ContactCreated c :: rest /\
       forall c', ContactCreated c' ∉ rest) /\
    (forall pv, PageViewCreated pv ∉ events) /\
    (method request <> "POST" ->
     outcome = Ok (JsonError "Método não permitido") /\ db' = db /\ events = []) /\
    (Views.is_ajax request = true -> exists response, outcome = Ok response) /\
    (forall url, resolve_url w "landing_page" = Ok url ->
                 exists response, outcome = Ok response) /\
    (forall e, outcome = Raise e ->
       method request = "POST" /\
       Spec.first_violation (Spec.settings_in_force db) request = None /\
       Views.is_ajax request = false /\
       resolve_url w "landing_page" = Raise e).
Proof.
  destruct (String.eqb_spec (method request) "POST") as [Hpost|Hother].
  - rewrite handle_contact_form_table by exact Hpost. cbv zeta.
    destruct (page_views_db_with_settings db) as [Hpv Hst].
    assert (Hfs := form_settings_db_with_settings db).
    assert (Hset :
      form_settings (Spec.db_with_settings db) = form_settings db \/
      form_settings db !! 1 = None /\
      form_settings (Spec.db_with_settings db)
      = <[1 := ContactFormSettings.new (Some 1)]> (form_settings db)).
    { rewrite Hfs. destruct (form_settings db !! 1); [by left|by right]. }
    assert (Hno : forall c, ContactCreated c ∉ []) by (intros c H; inversion H).
    assert (Hnopv : forall pv, PageViewCreated pv ∉ []) by (intros c H; inversion H).
    destruct (Spec.first_violation _ request) as [v|].
    + eexists _, _, []. rewrite app_nil_r. split; [reflexivity|].
      destruct v; (split; [done|]); (split; [done|]);
        (split; [by (left + exact Hset)|]);
        (split; [left; split; [done || apply contacts_db_with_settings|exact Hno]|]);
        (split; [exact Hnopv|]); (split; [done|]);
        (split; [eauto|]); (split; [eauto|]); intros e He; discriminate He.
    + pose proof (delivered_cases w request (Spec.failure_response request)) as Hfail.
      pose proof (delivered_cases w request (Spec.success_response request)) as Hok.
      destruct (Spec.storage_failure w request) as [e|].
      * eexists _, _, []. rewrite app_nil_r. split; [reflexivity|].
        split; [exact Hpv|]. split; [exact Hst|]. split; [exact Hset|].
        split; [left; split; [apply contacts_db_with_settings|exact Hno]|].
        split; [exact Hnopv|]. split; [done|].
        destruct (Spec.delivered w request (Spec.failure_response request))
          as [response|e'].
        -- split; [eauto|]. split; [eauto|]. intros e'' He. discriminate He.
        -- destruct Hfail as [Hajax Hurl].
           split; [intros H; congruence|]. split; [intros url H; congruence|].
           intros e'' [= <-]. done.
      * eexists _, _, _. split; [reflexivity|]. simpl.
        split; [exact Hpv|]. split; [exact Hst|]. split; [exact Hset|].
        split; [|split; [|split; [done|]]].
        -- right. eexists _, _. split; [reflexivity|]. split; [reflexivity|].
           intros c' H. apply notification_events_only in H.
           destruct H as [[? H]|[[? H]|[[? H]|[? H]]]]; discriminate H.
        -- intros pv H. apply elem_of_cons in H as [H|H]; [discriminate H|].
           apply notification_events_only in H.
           destruct H as [[? H]|[[? H]|[[? H]|[? H]]]]; discriminate H.
        -- destruct (Spec.delivered w request (Spec.success_response request))
             as [response|e'].
           ++ split; [eauto|]. split; [eauto|]. intros e'' He. discriminate He.
           ++ destruct Hok as [Hajax Hurl].
              split; [intros H; congruence|]. split; [intros url H; congruence|].
              intros e'' [= <-]. done.
  - exists (Ok (JsonError "Método não permitido")), db, []. rewrite app_nil_r.
    unfold Views.handle_contact_form.
    destruct (String.eqb_spec (method request) "POST") as [|_]; [done|]. simpl.
    split; [reflexivity|]. split; [done|]. split; [done|]. split; [by left|].
    split; [left; split; [reflexivity|]; intros c H; inversion H|].
    split; [intros pv H; inversion H|]. split; [done|].
    split; [eauto|]. split; [eauto|]. intros e He. discriminate He.
Qed.


(** A contact that [handle_contact_form] stores for a submission whose
    text is ASCII meets the conditions of the form: its four text fields
    are trimmed and not empty, its email matches the pattern, its WhatsApp
    number has 10 or 11 digits, the upload, if the submission has one, is
    within the size limit and the text after the last dot of its name is,
    in lower case, an entry of the allowed types of the settings in
    force; the contact holds the upload under the name the storage saved
    it under, and it is stored unread, without notes, at the time of the
    request. *)
Theorem stored_contact_is_valid w request db log outcome db' log' c :
  Views.handle_contact_form w request (db, log) = (outcome, (db', log')) ->
  contacts db' = contacts db ++ [c] ->
  Spec.ascii_submission (Spec.settings_in_force db) request = true ->
  let form_settings := Spec.settings_in_force db in
  Forall (fun text => text <> EmptyString /\ Py.strip text = text)
    [Contact.name c; Contact.whatsapp c; Contact.email c;
     Contact.project_description c] /\
  Re.match_anchored Views.email_regex (Contact.email c) = true /\
  10 <= Py.len (Py.remove_non_digits (Contact.whatsapp c)) <= 11 /\
  (forall f, FILES request !! "attachment" = Some f ->
     UploadedFile.name f <> EmptyString ->
     UploadedFile.size f
     <= ContactFormSettings.max_file_size_mb form_settings * 1024 * 1024 /\
     (exists entry,
        entry ∈ Py.split "," (ContactFormSettings.allowed_file_types form_settings) /\
        Py.lower (Py.strip entry)
        = Py.lower (Spec.after_last "." (UploadedFile.name f))) /\
     exists stored,
       storage_save w (Spec.upload_path w f) = Ok stored /\
       Contact.attachment c
       = Some {| UploadedFile.name := stored;
                 UploadedFile.size := UploadedFile.size f |}) /\
  (FILES request !! "attachment" = None -> Contact.attachment c = None) /\
  Contact.is_read c = false /\ Contact.notes c = EmptyString /\
  Contact.created_at c = now w.
Proof.
  intros Hrun Hstored _ fs.
  assert (Hgrow : contacts db' <> contacts db).
  { rewrite Hstored. intros H. apply (f_equal length) in H.
    rewrite length_app in H. simpl in H. lia. }
  destruct (String.eqb_spec (method request) "POST") as [Hpost|Hother].
  2: { exfalso. apply Hgrow. unfold Views.handle_contact_form in Hrun.
       destruct (String.eqb_spec (method request) "POST") as [|_]; [done|].
       simpl in Hrun. by injection Hrun as _ <- _. }
  rewrite handle_contact_form_table in Hrun by exact Hpost. cbv zeta in Hrun.
  fold fs in Hrun.
  destruct (Spec.first_violation fs request) as [v|] eqn:Hv.
  { exfalso. apply Hgrow. injection Hrun as _ <- _.
    destruct v; try reflexivity; apply contacts_db_with_settings. }
  destruct (Spec.storage_failure w request) as [e|] eqn:Hfail.
  { exfalso. apply Hgrow. injection Hrun as _ <- _.
    apply contacts_db_with_settings. }
  injection Hrun as _ <- _. simpl in Hstored.
  apply app_inj_tail in Hstored as [_ <-].
  rewrite first_violation_table in Hv.
  destruct (Spec.passes fs request Spec.MissingField) eqn:H1; [|discriminate Hv].
  destruct (Spec.passes fs request Spec.BadEmail) eqn:H2; [|discriminate Hv].
  destruct (Spec.passes fs request Spec.BadWhatsapp) eqn:H3; [|discriminate Hv].
  destruct (Spec.passes fs request Spec.FileTooLarge) eqn:H4; [|discriminate Hv].
  destruct (Spec.passes fs request Spec.FileTypeNotAllowed) eqn:H5; [|discriminate Hv].
  clear Hv. simpl in H1, H2, H3.
  split; [|split; [exact H2|split; [|split; [|split; [|repeat split]]]]].
  - apply andb_prop in H1 as [Ha H1]. apply andb_prop in H1 as [Hb H1].
    apply andb_prop in H1 as [Hc H1]. apply andb_prop in H1 as [Hd _].
    assert (Htext : forall key, Py.truthy (Spec.field request key) = true ->
              Spec.field request key <> EmptyString /\
              Py.strip (Spec.field request key) = Spec.field request key).
    { intros key Ht. split; [intros E; by rewrite E in Ht|].
      unfold Spec.field. apply strip_idempotent. }
    simpl. repeat constructor; by apply Htext.
  - apply andb_prop in H3 as [Hlo Hhi]. simpl. lia.
  - intros f Hf Hname.
    pose proof (attachment_of_named request f Hf Hname) as Hatt.
    simpl in H4, H5. rewrite Hatt in H4, H5.
    split; [by apply Z.leb_le|].
    split; [apply bool_decide_eq_true in H5; by apply elem_of_allow_list in H5|].
    unfold Spec.storage_failure in Hfail. rewrite Hatt in Hfail.
    cbn [Contact.attachment Spec.new_contact]. unfold Spec.stored_attachment.
    rewrite Hatt.
    destruct (storage_save w (Spec.upload_path w f)) as [stored|e];
      [|discriminate Hfail].
    by exists stored.
  - intros Hnone. cbn [Contact.attachment Spec.new_contact].
    unfold Spec.stored_attachment, Spec.attachment_of. by rewrite Hnone.
Qed.

Lemma stored_contact_is_valid_witness :
  let request := Sample.submission "ana@example.com" (Some (Sample.file "a.pdf" 10)) in
  exists c,
    contacts (Views.handle_contact_form Sample.online request (Sample.empty_db, [])).2.1
    = [c] /\
    Re.match_anchored Views.email_regex (Contact.email c) = true /\
    10 <= Py.len (Py.remove_non_digits (Contact.whatsapp c)) <= 11 /\
    Contact.attachment c = Some (Sample.file "contact_attachments/2026/11/a_1.pdf" 10).
Proof.
  intros request.
  destruct (Views.handle_contact_form Sample.online request (Sample.empty_db, []))
    as [outcome [db' log']] eqn:Hrun.
  set (c := Spec.new_contact Sample.online request).
  assert (Hstored : contacts db' = contacts Sample.empty_db ++ [c]).
  { vm_compute in Hrun. injection Hrun as _ <- _. reflexivity. }
  destruct (stored_contact_is_valid Sample.online request Sample.empty_db []
              outcome db' log' c Hrun Hstored eq_refl)
    as (_ & Hemail & Hdigits & Hfile & _).
  exists c. split; [exact Hstored|]. split; [exact Hemail|]. split; [exact Hdigits|].
  destruct (Hfile (Sample.file "a.pdf" 10) eq_refl ltac:(discriminate))
    as (_ & _ & stored & Hsave & ->).
  vm_compute in Hsave. by injection Hsave as <-.
Defined.

(** ** The pattern of the email *)

Section regex.

Local Hint Constructors Lang.matches : core.

Lemma append_nil_inv s1 s2 :
  s1 +:+ s2 = EmptyString -> s1 = EmptyString /\ s2 = EmptyString.
Proof.
  destruct s1; intros H; [change (s2 = EmptyString) in H; by subst|discriminate H].
Qed.

Lemma append_cons_inv s1 s2 c s :
  s1 +:+ s2 = String c s ->
  (s1 = EmptyString /\ s2 = String c s) \/
  exists s1', s1 = String c s1' /\ s = s1' +:+ s2.
Proof.
  destruct s1 as [|c' s1']; intros H; [by left|].
  change (String c' (s1' +:+ s2) = String c s) in H.
  injection H as -> <-. right. eauto.
Qed.

Lemma nullable_matches r : Re.nullable r = true <-> Lang.matches r EmptyString.
Proof.
  split.
  - induction r; simpl; intros H; try discriminate; auto.
    + apply andb_prop in H as [H1 H2].
      change EmptyString with (EmptyString +:+ EmptyString). auto.
    + apply orb_prop in H as [H|H]; auto.
  - intros H. remember EmptyString as s eqn:Hs.
    induction H; simpl; try discriminate; auto.
    + apply append_nil_inv in Hs as [-> ->]. by rewrite IHmatches1, IHmatches2.
    + by rewrite IHmatches.
    + rewrite IHmatches by done. apply orb_true_r.
Qed.

Lemma deriv_matches c r s :
  Lang.matches (Re.deriv c r) s <-> Lang.matches r (String c s).
Proof.
  split.
  - revert s. induction r as [| |p|r1 IH1 r2 IH2|r1 IH1 r2 IH2|r IH]; simpl; intros s H.
    + inversion H.
    + inversion H.
    + destruct (p c) eqn:Hp; inversion H; subst. auto.
    + destruct (Re.nullable r1) eqn:Hn.
      * inversion H as [| | |? ? ? H'|? ? ? H'| |]; subst.
        -- inversion H' as [| |? ? s1 s2 Ha Hb| | | |]; subst.
           change (String c (s1 +:+ s2)) with (String c s1 +:+ s2). auto.
        -- apply nullable_matches in Hn.
           change (String c s) with (EmptyString +:+ String c s). auto.
      * inversion H as [| |? ? s1 s2 Ha Hb| | | |]; subst.
        change (String c (s1 +:+ s2)) with (String c s1 +:+ s2). auto.
    + inversion H; subst; auto.
    + inversion H as [| |? ? s1 s2 Ha Hb| | | |]; subst.
      change (String c (s1 +:+ s2)) with (String c s1 +:+ s2). auto.
  - intros H. remember (String c s) as s' eqn:Hs. revert s Hs.
    induction H as [|p c' Hp|r1 r2 s1 s2 H1 IH1 H2 IH2|r1 r2 s0 H IH|r1 r2 s0 H IH
                   |r|r s1 s2 H1 IH1 H2 IH2]; intros s Hs; simpl.
    + discriminate.
    + injection Hs as -> <-. rewrite Hp. auto.
    + apply append_cons_inv in Hs as [[-> ->]|(s1' & -> & ->)].
      * apply nullable_matches in H1. rewrite H1. auto.
      * destruct (Re.nullable r1); auto.
    + auto.
    + auto.
    + discriminate.
    + apply append_cons_inv in Hs as [[-> ->]|(s1' & -> & ->)]; auto.
Qed.

(** The matcher decides the words of the pattern. *)
Lemma fullmatch_matches r s : Re.fullmatch r s = true <-> Lang.matches r s.
Proof.
  revert r. induction s as [|c s IH]; intros r; simpl.
  - apply nullable_matches.
  - rewrite IH. apply deriv_matches.
Qed.

End regex.

Lemma matches_class p s :
  Lang.matches (Re.Class p) s <-> exists c, s = String c EmptyString /\ p c = true.
Proof.
  split.
  - intros H. inversion H; subst. eauto.
  - intros (c & -> & Hp). by constructor.
Qed.

Lemma matches_star_class p s :
  Lang.matches (Re.Star (Re.Class p)) s <-> forall c, In c (Py.to_list s) -> p c = true.
Proof.
  split.
  - intros H. remember (Re.Star (Re.Class p)) as r eqn:Hr.
    induction H as [| | | | | |r' s1 s2 H1 _ H2 IH2]; try discriminate.
    + intros c [].
    + injection Hr as ->. apply matches_class in H1 as (c & -> & Hp).
      intros c' [<-|Hin]; [exact Hp|]. by apply IH2.
  - induction s as [|c s IH]; intros Hall; [constructor|].
    change (String c s) with (String c EmptyString +:+ s).
    constructor; [constructor; apply Hall; by left|].
    apply IH. intros c' Hin. apply Hall. by right.
Qed.

Lemma matches_plus_class p s :
  Lang.matches (Re.Plus (Re.Class p)) s <->
  s <> EmptyString /\ forall c, In c (Py.to_list s) -> p c = true.
Proof.
  unfold Re.Plus. split.
  - intros H. inversion H as [| |? ? s1 s2 H1 H2| | | |]; subst.
    apply matches_class in H1 as (c & -> & Hp).
    rewrite matches_star_class in H2. split; [discriminate|].
    intros c' [<-|Hin]; [exact Hp|by apply H2].
  - intros [Hne Hall]. destruct s as [|c s]; [done|].
    change (String c s) with (String c EmptyString +:+ s).
    constructor; [constructor; apply Hall; by left|].
    apply matches_star_class. intros c' Hin. apply Hall. by right.
Qed.

Lemma matches_chr c s :
  Lang.matches (Re.Chr c) s <-> s = String c EmptyString.
Proof.
  unfold Re.Chr. rewrite matches_class. split.
  - intros (c' & -> & Heq). by apply Ascii.eqb_eq in Heq as ->.
  - intros ->. exists c. split; [reflexivity|apply Ascii.eqb_refl].
Qed.

Lemma matches_seq r1 r2 s :
  Lang.matches (Re.Seq r1 r2) s <->
  exists s1 s2, s = s1 +:+ s2 /\ Lang.matches r1 s1 /\ Lang.matches r2 s2.
Proof.
  split.
  - intros H. inversion H; subst. eauto.
  - intros (s1 & s2 & -> & H1 & H2). by constructor.
Qed.

Lemma email_word_matches s :
  Lang.matches
    (Re.Plus (Re.Class (fun c => negb (Py.isspace c || Ascii.eqb c "@")))) s
  <-> Lang.email_word s.
Proof.
  rewrite matches_plus_class. unfold Lang.email_word, Lang.email_char.
  assert (Hchar : forall c,
            negb (Py.isspace c || Ascii.eqb c "@") = true <->
            Py.isspace c = false /\ c <> "@"%char).
  { intros c. destruct (Py.isspace c); simpl; [split; [discriminate|by intros [? _]]|].
    destruct (Ascii.eqb_spec c "@"); simpl; split; try done; by intros [_ ?]. }
  split; intros [Hne Hall]; (split; [exact Hne|]); intros c Hin; apply Hchar; by apply Hall.
Qed.

Lemma email_regex_matches s :
  Re.fullmatch Views.email_regex s = true <-> Lang.email_shape s.
Proof.
  rewrite fullmatch_matches. unfold Views.email_regex, Lang.email_shape.
  rewrite matches_seq. split.
  - intros (local & s2 & -> & Hl & H2).
    apply matches_seq in H2 as (at_ & s3 & -> & Hat & H3).
    apply matches_chr in Hat as ->.
    apply matches_seq in H3 as (domain & s4 & -> & Hd & H4).
    apply matches_seq in H4 as (dot & tld & -> & Hdot & Ht).
    apply matches_chr in Hdot as ->.
    exists local, domain, tld. split; [reflexivity|].
    apply (proj1 (email_word_matches _)) in Hl.
    apply (proj1 (email_word_matches _)) in Hd.
    apply (proj1 (email_word_matches _)) in Ht. tauto.
  - intros (local & domain & tld & -> & Hl & Hd & Ht).
    exists local, (String "@" (domain +:+ String "." tld)).
    split; [reflexivity|]. split; [by apply email_word_matches|].
    apply matches_seq. exists (String "@" EmptyString), (domain +:+ String "." tld).
    split; [reflexivity|]. split; [by apply matches_chr|].
    apply matches_seq. exists domain, (String "." tld).
    split; [reflexivity|]. split; [by apply email_word_matches|].
    apply matches_seq. exists (String "." EmptyString), tld.
    split; [reflexivity|]. split; [by apply matches_chr|by apply email_word_matches].
Qed.

Lemma chomp_spec s s' :
  Re.chomp s = Some s' <-> s = s' +:+ String "010" EmptyString.
Proof.
  revert s'. induction s as [|c s IH]; intros s'.
  - simpl. split; [discriminate|]. destruct s'; discriminate.
  - destruct s as [|c' s].
    + simpl. destruct (Ascii.eqb_spec c "010") as [->|Hne].
      * split; [by intros [= <-]|]. destruct s' as [|? [|]]; by intros [=].
      * split; [discriminate|]. destruct s' as [|? [|]]; intros [=]; by subst.
    + change (Re.chomp (String c (String c' s)))
        with (option_map (String c) (Re.chomp (String c' s))).
      destruct (Re.chomp (String c' s)) as [t|]; simpl.
      * split.
        -- intros [= <-]. rewrite (proj1 (IH t) eq_refl). reflexivity.
        -- destruct s' as [|c0 s0]; intros H.
           ++ change (String c (String c' s) = String "010" EmptyString) in H.
              discriminate H.
           ++ change (String c (String c' s)
                      = String c0 (s0 +:+ String "010" EmptyString)) in H.
              injection H as -> H. apply IH in H. by injection H as ->.
      * split; [discriminate|]. intros H. exfalso.
        destruct s' as [|c0 s0].
        -- change (String c (String c' s) = String "010" EmptyString) in H.
           discriminate H.
        -- change (String c (String c' s)
                   = String c0 (s0 +:+ String "010" EmptyString)) in H.
           injection H as _ H. apply IH in H. discriminate H.
Qed.

Lemma append_last_not_nil t c : t +:+ String c EmptyString <> EmptyString.
Proof. destruct t; discriminate. Qed.

(** A string trimmed on the right does not end with white space. *)
Lemma rstrip_last s t c :
  Py.rstrip s = t +:+ String c EmptyString -> Py.isspace c = false.
Proof.
  revert t. induction s as [|a s IH]; intros t H.
  - simpl in H. symmetry in H. by apply append_last_not_nil in H.
  - simpl in H. destruct (Py.rstrip s) as [|b r] eqn:Hr.
    + destruct (Py.isspace a) eqn:Ha.
      * symmetry in H. by apply append_last_not_nil in H.
      * destruct t as [|a' t].
        -- change (String a EmptyString = String c EmptyString) in H. congruence.
        -- change (String a EmptyString = String a' (t +:+ String c EmptyString)) in H.
           injection H as _ H. symmetry in H. by apply append_last_not_nil in H.
    + destruct t as [|a' t].
      * change (String a (String b r) = String c EmptyString) in H. discriminate H.
      * change (String a (String b r) = String a' (t +:+ String c EmptyString)) in H.
        injection H as _ H. by apply (IH t).
Qed.

Lemma email_regex_language (s : string) :
  (Re.match_anchored Views.email_regex s = true <->
   Lang.email_shape s \/
   exists s', s = s' +:+ String "010" EmptyString /\ Lang.email_shape s') /\
  (Re.match_anchored Views.email_regex (Py.strip s) = true <->
   Lang.email_shape (Py.strip s)).
Proof.
  assert (Hgeneral : forall s0,
    Re.match_anchored Views.email_regex s0 = true <->
    Lang.email_shape s0 \/
    exists s', s0 = s' +:+ String "010" EmptyString /\ Lang.email_shape s').
  { intros s0. unfold Re.match_anchored. rewrite orb_true_iff, email_regex_matches.
    split; (intros [H|H]; [by left|right]).
    - destruct (Re.chomp s0) as [s'|] eqn:Hc; [|discriminate H].
      apply chomp_spec in Hc. apply email_regex_matches in H. eauto.
    - destruct H as (s' & Hs & Hshape). apply chomp_spec in Hs. rewrite Hs.
      by apply email_regex_matches. }
  split; [apply Hgeneral|]. rewrite Hgeneral. split; [|by left].
  intros [H|(s' & Hs & _)]; [exact H|]. exfalso.
  unfold Py.strip in Hs. by apply rstrip_last in Hs.
Qed.

(** Of a text that is ASCII, the email check accepts the strings of the
    shape local@domain.tld, where each of the three parts is one or more
    characters other than white space and [@], and these strings followed
    by one line feed; of the trimmed text the form passes to it, it
    accepts exactly those of that shape. *)
Theorem email_check_accepts_local_at_domain_tld (s : string) :
  Py.isascii s = true ->
  (Re.match_anchored Views.email_regex s = true <->
   Lang.email_shape s \/
   exists s', s = s' +:+ String "010" EmptyString /\ Lang.email_shape s') /\
  (Re.match_anchored Views.email_regex (Py.strip s) = true <->
   Lang.email_shape (Py.strip s)).
Proof. intros _. exact (email_regex_language s). Qed.

Lemma email_check_accepts_local_at_domain_tld_witness :
  Lang.email_shape (Py.strip " ana@example.com ") /\
  ~ Lang.email_shape (Py.strip "ana@example").
Proof.
  split.
  - exact (proj1 (proj2 (email_check_accepts_local_at_domain_tld
                           " ana@example.com " eq_refl)) eq_refl).
  - intros Hshape.
    apply (proj2 (proj2 (email_check_accepts_local_at_domain_tld
                           "ana@example" eq_refl))) in Hshape.
    discriminate Hshape.
Defined.

(** ** Totals and daily entries of the analytics page *)

Lemma count_filter_split {A : Type} (P Q R : A -> Prop)
    `{!forall x, Decision (P x), !forall x, Decision (Q x), !forall x, Decision (R x)}
    (l : list A) :
  (forall x, R x <-> P x \/ Q x) -> (forall x, P x -> Q x -> False) ->
  Orm.count (filter R l) = Orm.count (filter P l) + Orm.count (filter Q l).
Proof.
  intros Hor Hdisj. unfold Orm.count.
  induction l as [|x l IH]; [reflexivity|]. rewrite !filter_cons.
  destruct (decide (P x)) as [HP|HP], (decide (Q x)) as [HQ|HQ].
  - by destruct (Hdisj x).
  - rewrite decide_True by (apply Hor; by left). simpl length. lia.
  - rewrite decide_True by (apply Hor; by right). simpl length. lia.
  - rewrite decide_False by (rewrite Hor; tauto). lia.
Qed.

(** The rows of a range of days are the rows of its days. *)
Lemma count_days {A : Type} (day : A -> Z) (l : list A) (n : nat) (start : Z) :
  Orm.count (filter (fun x => start <= day x /\ day x <= start + Z.of_nat n - 1) l)
  = Tally.sum (map (fun d => Orm.count (filter (fun x => day x = d) l))
                   (seqZ start (Z.of_nat n))).
Proof.
  revert start. induction n as [|n IH]; intros start.
  - simpl. unfold Orm.count. replace (filter _ l) with (@nil A); [reflexivity|].
    symmetry. induction l as [|x l IHl]; [reflexivity|].
    rewrite filter_cons, decide_False by lia. exact IHl.
  - rewrite seqZ_cons by lia. simpl.
    replace (Z.pred (Z.of_nat (S n))) with (Z.of_nat n) by lia.
    rewrite <- (IH (Z.succ start)).
    apply (count_filter_split (fun x => day x = start)
             (fun x => Z.succ start <= day x /\ day x <= Z.succ start + Z.of_nat n - 1));
      intros x; lia.
Qed.

Lemma distinct_days (l : list PageView.t) (n : nat) (start : Z) :
  Orm.count (Orm.distinct (map PageView.ip_address
    (filter (fun pv => start <= Dates.date_of (PageView.timestamp pv) /\
                       Dates.date_of (PageView.timestamp pv) <= start + Z.of_nat n - 1) l)))
  <= Tally.sum (map (fun d => Orm.count (Orm.distinct
                       (map PageView.ip_address (PageView.on_date d l))))
                    (seqZ start (Z.of_nat n))).
Proof.
  revert start. induction n as [|n IH]; intros start.
  - simpl. unfold Orm.count. replace (filter _ l) with (@nil PageView.t); [reflexivity|].
    symmetry. induction l as [|x l IHl]; [reflexivity|].
    rewrite filter_cons, decide_False by lia. exact IHl.
  - rewrite seqZ_cons by lia. simpl.
    replace (Z.pred (Z.of_nat (S n))) with (Z.of_nat n) by lia.
    etransitivity; [|apply Z.add_le_mono_l, (IH (Z.succ start))].
    unfold Orm.count, Orm.distinct. rewrite <- Nat2Z.inj_add, <- length_app.
    apply inj_le, submseteq_length, NoDup_submseteq; [apply NoDup_remove_dups|].
    intros ip. rewrite elem_of_app, !elem_of_remove_dups, !list_elem_of_fmap.
    intros (pv & -> & Hin). apply list_elem_of_filter in Hin as [Hd Hin].
    destruct (decide (Dates.date_of (PageView.timestamp pv) = start)) as [Heq|Hne].
    + left. exists pv. split; [reflexivity|]. by apply list_elem_of_filter.
    + right. exists pv. split; [reflexivity|]. apply list_elem_of_filter.
      split; [lia|exact Hin].
Qed.

Lemma analytics_context order_by db start_date end_date :
  0 <= start_date -> start_date <= end_date -> end_date < Dates.MAXORDINAL ->
  let in_range t := start_date <= Dates.date_of t /\ Dates.date_of t <= end_date in
  let views := filter (fun pv => in_range (PageView.timestamp pv)) (page_views db) in
  let subs := filter (fun c => in_range (Contact.created_at c)) (contacts db) in
  Dashboard.analytics order_by db start_date end_date
  = Ok {| Dashboard.total_views := Orm.count views;
          Dashboard.unique_visitors :=
            Orm.count (Orm.distinct (map PageView.ip_address views));
          Dashboard.total_contacts := Orm.count subs;
          Dashboard.top_countries :=
            Orm.top_values order_by 10 (map PageView.country views);
          Dashboard.browser_stats :=
            Orm.top_values order_by 10 (map PageView.browser views);
          Dashboard.daily_stats :=
            map (Dashboard.daily_entry (page_views db) (contacts db))
                (seqZ start_date (end_date - start_date + 1)) |}.
Proof.
  intros H0 Hle Hend in_range views subs. unfold Dashboard.analytics.
  rewrite (daily_stats_loop_entries _ _ _ Hend
             (Z.to_nat (end_date - start_date + 1))) by lia.
  simpl. do 2 f_equal.
  apply list_eq_Forall2, Forall2_fmap, Forall_Forall2_diag, Forall_forall.
  intros d Hd%elem_of_seqZ. unfold Dashboard.daily_entry.
  rewrite on_date_in_range, contacts_in_range by lia. reflexivity.
Qed.

(** For a range that ends before the last date of the calendar, the
    totals of the analytics page agree with its daily entries: the views
    and the contacts of the range are the sums of the daily ones, the
    unique visitors are at most the sum of the daily visitors (an address
    seen on two days counts once in the total), and there are as many
    entries as days. *)
Theorem analytics_totals_are_sums order_by db start_date end_date context :
  0 <= start_date -> start_date <= end_date -> end_date < Dates.MAXORDINAL ->
  Dashboard.analytics order_by db start_date end_date = Ok context ->
  Dashboard.total_views context
  = Tally.sum (map Dashboard.entry_views (Dashboard.daily_stats context)) /\
  Dashboard.total_contacts context
  = Tally.sum (map Dashboard.entry_contacts (Dashboard.daily_stats context)) /\
  Dashboard.unique_visitors context
  <= Tally.sum (map Dashboard.entry_visitors (Dashboard.daily_stats context)) /\
  Z.of_nat (length (Dashboard.daily_stats context)) = end_date - start_date + 1.
Proof.
  intros H0 Hle Hend Hrun.
  rewrite analytics_context in Hrun by assumption. injection Hrun as <-. simpl.
  rewrite <- !list_fmap_compose.
  remember (Z.to_nat (end_date - start_date + 1)) as n eqn:Hn.
  assert (He : end_date = start_date + Z.of_nat n - 1) by lia.
  clear Hn. subst end_date.
  replace (start_date + Z.of_nat n - 1 - start_date + 1) with (Z.of_nat n) by lia.
  split; [|split; [|split]].
  - apply (count_days (fun pv => Dates.date_of (PageView.timestamp pv))).
  - apply (count_days (fun c => Dates.date_of (Contact.created_at c))).
  - apply distinct_days.
  - rewrite length_map, length_seqZ. lia.
Qed.

Lemma analytics_totals_are_sums_witness :
  exists context,
    Dashboard.analytics Orm.stable_order Sample2.two_days
      (Sample.a_day - 1) Sample.a_day = Ok context /\
    Dashboard.total_views context = 2 /\
    Dashboard.total_views context
    = Tally.sum (map Dashboard.entry_views (Dashboard.daily_stats context)) /\
    Dashboard.unique_visitors context = 1 /\
    Tally.sum (map Dashboard.entry_visitors (Dashboard.daily_stats context)) = 2.
Proof.
  assert (H0 : 0 <= Sample.a_day - 1) by (vm_compute; discriminate).
  assert (Hle : Sample.a_day - 1 <= Sample.a_day) by (vm_compute; discriminate).
  assert (Hend : Sample.a_day < Dates.MAXORDINAL) by reflexivity.
  eexists. split; [exact (analytics_context Orm.stable_order Sample2.two_days
                            (Sample.a_day - 1) Sample.a_day H0 Hle Hend)|].
  split; [reflexivity|].
  split; [|split; reflexivity].
  exact (proj1 (analytics_totals_are_sums Orm.stable_order Sample2.two_days
                  (Sample.a_day - 1) Sample.a_day _ H0 Hle Hend
                  (analytics_context Orm.stable_order Sample2.two_days
                     (Sample.a_day - 1) Sample.a_day H0 Hle Hend))).
Defined.

(** ** The breakdowns of the statistics endpoint *)

Lemma sum_indicator (keys : list string) (v : string) :
  NoDup keys ->
  Tally.sum (map (fun k => if decide (v = k) then 1 else 0) keys)
  = if decide (v ∈ keys) then 1 else 0.
Proof.
  induction 1 as [|k keys Hk Hnd IH]; [reflexivity|]. simpl. rewrite IH.
  destruct (decide (v = k)) as [->|Hne].
  - rewrite (decide_True (P := k ∈ k :: keys)) by apply list_elem_of_here.
    by rewrite decide_False.
  - destruct (decide (v ∈ keys)) as [Hin|Hout].
    + by rewrite decide_True by (by apply list_elem_of_further).
    + rewrite decide_False; [reflexivity|].
      intros [?|?]%elem_of_cons; done.
Qed.

Lemma sum_add {A : Type} (f g : A -> Z) (l : list A) :
  Tally.sum (map (fun x => f x + g x) l) = Tally.sum (map f l) + Tally.sum (map g l).
Proof. induction l as [|x l IH]; simpl; lia. Qed.

(** Grouping loses no row: the counts of the groups add up to the number
    of rows grouped. *)
Lemma annotate_count_sum_keys (keys values : list string) :
  NoDup keys -> (forall v, v ∈ values -> v ∈ keys) ->
  Tally.sum (map (fun k => Orm.occurrences k values) keys) = Orm.count values.
Proof.
  intros Hnd. induction values as [|v values IH]; intros Hin.
  - unfold Orm.occurrences, Orm.count. simpl. clear Hnd Hin.
    induction keys as [|k keys IHkeys]; simpl in *; lia.
  - transitivity (Tally.sum (map (fun k => (if decide (v = k) then 1 else 0)
                                           + Orm.occurrences k values) keys)).
    + f_equal. apply map_ext. intros k. unfold Orm.occurrences, Orm.count.
      rewrite filter_cons. destruct (decide (v = k)); simpl length; lia.
    + rewrite sum_add, sum_indicator by exact Hnd.
      rewrite decide_True by (apply Hin, list_elem_of_here).
      rewrite IH by (intros v' Hv'; by apply Hin, list_elem_of_further).
      unfold Orm.count. simpl length. lia.
Qed.

Lemma annotate_count_sum values :
  Tally.sum (map snd (Orm.annotate_count values)) = Orm.count values.
Proof.
  unfold Orm.annotate_count. rewrite map_map. simpl.
  apply annotate_count_sum_keys; [apply NoDup_remove_dups|].
  intros v. unfold Orm.distinct. by rewrite elem_of_remove_dups.
Qed.

Lemma sum_permutation (l1 l2 : list (string * Z)) :
  Permutation l1 l2 -> Tally.sum (map snd l1) = Tally.sum (map snd l2).
Proof. induction 1; simpl; lia. Qed.

Lemma sum_take_le (n : nat) (rows : list (string * Z)) :
  Forall (fun row => 0 <= row.2) rows ->
  0 <= Tally.sum (map snd (take n rows)) <= Tally.sum (map snd rows).
Proof.
  intros Hpos. revert n. induction Hpos as [|row rows Hrow Hpos IH]; intros [|n]; simpl.
  - lia.
  - lia.
  - specialize (IH 0%nat). simpl in IH. lia.
  - specialize (IH n). lia.
Qed.

Lemma distinct_le (values : list string) :
  Orm.count (Orm.distinct values) <= Orm.count values.
Proof.
  unfold Orm.count, Orm.distinct.
  apply inj_le, submseteq_length, NoDup_submseteq; [apply NoDup_remove_dups|].
  intros v. by rewrite elem_of_remove_dups.
Qed.

(** When the database orders by count, the figures of [api_stats] fit
    together: the device breakdown accounts for every view exactly once,
    the top countries are at most five and account for no more than the
    views, and today's figures and the unique visitors do not exceed the
    totals. *)
Theorem api_stats_figures_fit order_by w db :
  Orm.is_order_by_count_desc order_by ->
  let stats := Views.api_stats order_by w db in
  Tally.sum (map snd (Views.device_stats stats)) = (Views.total stats).1.1 /\
  0 <= Tally.sum (map snd (Views.top_countries stats)) <= (Views.total stats).1.1 /\
  (length (Views.top_countries stats) <= 5)%nat /\
  (Views.today stats).1.1 <= (Views.total stats).1.1 /\
  (Views.today stats).1.2 <= (Views.total stats).1.2 /\
  (Views.today stats).2 <= (Views.total stats).2 /\
  (Views.total stats).1.2 <= (Views.total stats).1.1.
Proof.
  intros Hok stats. unfold stats, Views.api_stats. simpl.
  split; [|split; [|split; [|split; [|split; [|split]]]]].
  - destruct (Hok (Orm.annotate_count
      (map (fun pv => Views.device_label (PageView.device_type pv)) (page_views db))))
      as [Hperm _].
    rewrite (sum_permutation _ _ Hperm), annotate_count_sum.
    unfold Orm.count. by rewrite length_map.
  - unfold Orm.top_values.
    set (kept := filter (fun v => v <> EmptyString) (map PageView.country (page_views db))).
    destruct (Hok (Orm.annotate_count kept)) as [Hperm _].
    assert (Hpos : Forall (fun row => 0 <= row.2) (order_by (Orm.annotate_count kept))).
    { apply Forall_forall. intros [c k] Hin. rewrite Hperm in Hin.
      apply annotate_count_spec in Hin as [_ ->].
      unfold Orm.occurrences, Orm.count. simpl. lia. }
    pose proof (sum_take_le 5 _ Hpos) as Htake.
    rewrite (sum_permutation _ _ Hperm), annotate_count_sum in Htake.
    assert (Orm.count kept <= Orm.count (page_views db)).
    { unfold kept, Orm.count. apply inj_le.
      etransitivity; [apply length_filter|]. by rewrite length_map. }
    lia.
  - apply top_values_length.
  - unfold Orm.count, PageView.on_date. apply inj_le, length_filter.
  - apply distinct_filter_le; apply _.
  - unfold Orm.count. apply inj_le, length_filter.
  - etransitivity; [apply distinct_le|]. unfold Orm.count. by rewrite length_map.
Qed.

Lemma api_stats_figures_fit_witness :
  let stats := Views.api_stats Orm.stable_order Sample.offline Sample2.two_days in
  Tally.sum (map snd (Views.device_stats stats)) = (Views.total stats).1.1 /\
  0 <= Tally.sum (map snd (Views.top_countries stats)) <= (Views.total stats).1.1.
Proof.
  intros stats.
  destruct (api_stats_figures_fit Orm.stable_order Sample.offline Sample2.two_days
              stable_order_ok) as (H1 & H2 & _).
  split; [exact H1|exact H2].
Defined.

(** ** The landing page *)

Lemma landing_page_after_tracking w request db log pv row :
  Views.track_page_view w request "/" (db, log)
  = (Ok pv, (set_page_views (page_views db ++ [row]) db,
             log ++ [PageViewCreated row])) ->
  Site.landing_page w request (db, log)
  = if String.eqb (method request) "POST" then
      match Views.handle_contact_form w request
              (set_page_views (page_views db ++ [row]) db,
               log ++ [PageViewCreated row])
      with
      | (Ok reply, st) => (Ok (Site.FormReply reply), st)
      | (Raise e, st) => (Raise e, st)
      end
    else
      (Ok (Site.Rendered "landing.html" (Orm.count (page_views db ++ [row]))
             (Orm.count (contacts db))),
       (set_page_views (page_views db ++ [row]) db, log ++ [PageViewCreated row])).
Proof.
  intros Htrack. unfold Site.landing_page, bind at 1. rewrite Htrack.
  destruct (String.eqb (method request) "POST"); [|reflexivity].
  unfold bind. destruct (Views.handle_contact_form w request _) as [[reply|e] st];
    reflexivity.
Qed.

(** A request to the landing page that is answered has first been
    recorded: the table of page views has gained one row, for the page
    [/] and the address of the client in the form the column gives it;
    the log starts with that row and names no other page view, and, for a
    request that is not a POST, the page shows the number of views with
    this one counted and changes nothing else. *)
Theorem landing_page_records_the_visit_first w request db log page db' log' :
  Site.landing_page w request (db, log) = (Ok page, (db', log')) ->
  exists row rest,
    page_views db' = page_views db ++ [row] /\
    log' = log ++ PageViewCreated row :: rest /\
    (forall pv', PageViewCreated pv' ∉ rest) /\
    Views.ip_address_field w (Views.get_client_ip request)
    = Ok (PageView.ip_address row) /\
    PageView.page_url row = "/" /\
    (method request <> "POST" ->
     page = Site.Rendered "landing.html" (Orm.count (page_views db) + 1)
              (Orm.count (contacts db)) /\
     rest = [] /\ contacts db' = contacts db).
Proof.
  intros Hrun.
  pose proof (track_all_or_nothing w request "/" db log) as Htrack.
  destruct (Views.track_page_view w request "/" (db, log)) as [[pv|e] st] eqn:Ht.
  2: { unfold Site.landing_page, bind at 1 in Hrun. rewrite Ht in Hrun.
       discriminate Hrun. }
  destruct Htrack as (row & -> & _ & Hip & _ & Hurl & _).
  rewrite (landing_page_after_tracking _ _ _ _ _ _ Ht) in Hrun.
  exists row. destruct (String.eqb_spec (method request) "POST") as [Hpost|Hother].
  - destruct (handle_frame w request (set_page_views (page_views db ++ [row]) db)
                (log ++ [PageViewCreated row]))
      as (outcome & db1 & events & Hh & Hpv & _ & _ & _ & Hnone & _).
    rewrite Hh in Hrun. destruct outcome as [reply|e]; [|discriminate Hrun].
    injection Hrun as <- <- <-.
    exists events. rewrite Hpv. simpl.
    split; [reflexivity|]. split; [by rewrite <- app_assoc|].
    split; [exact Hnone|]. split; [exact Hip|]. split; [exact Hurl|done].
  - injection Hrun as <- <- <-. exists []. simpl.
    split; [reflexivity|]. split; [reflexivity|].
    split; [intros pv' H; inversion H|]. split; [exact Hip|]. split; [exact Hurl|].
    intros _. split; [|done]. f_equal. unfold Orm.count.
    rewrite length_app. simpl. lia.
Qed.

(** When the visit cannot be recorded, the landing page raises before it
    looks at the form: a submission sent with the request is neither
    validated nor stored, and nothing is written. *)
Theorem landing_page_fails_with_the_tracking w request db log e st :
  Views.track_page_view w request "/" (db, log) = (Raise e, st) ->
  Site.landing_page w request (db, log) = (Raise IntegrityError, (db, log)).
Proof.
  intros Ht. pose proof (track_all_or_nothing w request "/" db log) as Htrack.
  rewrite Ht in Htrack. destruct Htrack as (-> & ->).
  unfold Site.landing_page, bind at 1. by rewrite Ht.
Qed.

(** A POST whose text is ASCII, whose visit is recorded, whose form
    passes every check and whose upload the storage accepts stores the
    page view, then the contact, then runs the notifications; the script
    of the page receives the reply of success, a browser the redirect to
    [landing_page] or the exception of resolving that name. *)
Theorem landing_page_post_stores_view_then_contact w request db log pv st :
  method request = "POST" ->
  Spec.ascii_submission (Spec.settings_in_force db) request = true ->
  Views.track_page_view w request "/" (db, log) = (Ok pv, st) ->
  Spec.first_violation (Spec.settings_in_force db) request = None ->
  Spec.storage_failure w request = None ->
  exists db' row notifications,
    Site.landing_page w request (db, log)
    = (match Spec.delivered w request (Spec.success_response request) with
       | Ok reply => Ok (Site.FormReply reply)
       | Raise e => Raise e
       end,
       (db', log ++ [PageViewCreated row; ContactCreated (Spec.new_contact w request)]
                 ++ notifications)) /\
    page_views db' = page_views db ++ [row] /\
    Views.ip_address_field w (Views.get_client_ip request)
    = Ok (PageView.ip_address row) /\
    contacts db' = contacts db ++ [Spec.new_contact w request] /\
    notifications = Spec.notification_events w request (Spec.settings_in_force db) /\
    (Views.is_ajax request = true ->
     (Site.landing_page w request (db, log)).1
     = Ok (Site.FormReply
             (JsonSuccess "Mensagem enviada com sucesso! Entraremos em contato em breve."))).
Proof.
  intros Hpost _ Ht Hvalid Hstore.
  pose proof (track_all_or_nothing w request "/" db log) as Htrack.
  rewrite Ht in Htrack. destruct Htrack as (row & -> & _ & Hip & _).
  rewrite (landing_page_after_tracking _ _ _ _ _ _ Ht), Hpost.
  change ("POST" =? "POST")%string with true. cbv iota.
  rewrite handle_contact_form_table by exact Hpost. cbv zeta.
  change (Spec.settings_in_force (set_page_views (page_views db ++ [row]) db))
    with (Spec.settings_in_force db).
  rewrite Hvalid, Hstore.
  exists (set_contacts
            (contacts (set_page_views (page_views db ++ [row]) db)
             ++ [Spec.new_contact w request])
            (Spec.db_with_settings (set_page_views (page_views db ++ [row]) db))),
    row, (Spec.notification_events w request (Spec.settings_in_force db)).
  split.
  - rewrite <- app_assoc.
    by destruct (Spec.delivered w request (Spec.success_response request)).
  - split; [apply page_views_db_with_settings|]. split; [exact Hip|].
    split; [reflexivity|]. split; [reflexivity|].
    intros Hajax. unfold Spec.delivered, Spec.success_response. by rewrite Hajax.
Qed.

Lemma landing_page_records_the_visit_first_witness :
  let outcome := Site.landing_page Sample.offline Sample2.visit (Sample.empty_db, []) in
  exists row,
    outcome.1 = Ok (Site.Rendered "landing.html" 1 0) /\
    page_views outcome.2.1 = [row] /\ outcome.2.2 = [PageViewCreated row] /\
    PageView.ip_address row = "203.0.113.7".
Proof.
  intros outcome.
  destruct (Site.landing_page Sample.offline Sample2.visit (Sample.empty_db, []))
    as [[page|e] [db' log']] eqn:Hrun; [|vm_compute in Hrun; discriminate Hrun].
  destruct (landing_page_records_the_visit_first _ _ _ _ _ _ _ Hrun)
    as (row & rest & Hpv & Hlog & _ & Hip & _ & Hget).
  destruct Hget as (-> & -> & _); [discriminate|].
  exists row. subst outcome. simpl.
  split; [reflexivity|]. split; [exact Hpv|]. split; [exact Hlog|].
  vm_compute in Hip. injection Hip as Hip. symmetry. exact Hip.
Defined.

Lemma landing_page_fails_with_the_tracking_witness :
  Spec.first_violation (Spec.settings_in_force Sample.empty_db) Sample2.no_address = None /\
  Site.landing_page Sample.offline Sample2.no_address (Sample.empty_db, [])
  = (Raise IntegrityError, (Sample.empty_db, [])).
Proof.
  split; [reflexivity|].
  exact (landing_page_fails_with_the_tracking Sample.offline Sample2.no_address
           Sample.empty_db [] IntegrityError (Sample.empty_db, []) eq_refl).
Defined.

Lemma landing_page_post_stores_view_then_contact_witness :
  let request := Sample.submission "ana@example.com" None in
  exists db' row,
    (Site.landing_page Sample.offline request (Sample.empty_db, [])).1
    = Ok (Site.FormReply (Spec.success_response request)) /\
    (Site.landing_page Sample.offline request (Sample.empty_db, [])).2.1 = db' /\
    page_views db' = [row] /\
    contacts db' = [Spec.new_contact Sample.offline request].
Proof.
  intros request.
  destruct (Views.track_page_view Sample.offline request "/" (Sample.empty_db, []))
    as [[pv|e] st] eqn:Ht; [|vm_compute in Ht; discriminate Ht].
  destruct (landing_page_post_stores_view_then_contact Sample.offline request
              Sample.empty_db [] pv st eq_refl eq_refl Ht eq_refl eq_refl)
    as (db' & row & notifications & Hrun & Hpv & _ & Hc & _).
  exists db', row. rewrite Hrun. simpl. by repeat split.
Defined.

(** ** The seven days of the endpoint and of the dashboard *)

Lemma add_days_in_range d n :
  1 <= d + n <= Dates.MAXORDINAL -> Dates.add_days d n = Ok (d + n).
Proof.
  intros [Hlo Hhi]. unfold Dates.add_days, Dates.MINORDINAL.
  apply Z.leb_le in Hlo, Hhi. by rewrite Hlo, Hhi.
Qed.

Lemma seven_days w db :
  let today := Dates.date_of (now w) in
  8 <= today <= Dates.MAXORDINAL ->
  Site.recent_activity w db = Ok (map (Site.day_counts db) (seqZ (today - 7) 7)) /\
  Staff.daily_stats w db = Ok (map (Site.day_counts db) (seqZ (today - 6) 7)).
Proof.
  intros today [Hlo Hhi]. unfold Site.recent_activity, Staff.daily_stats.
  fold today. split.
  - rewrite add_days_in_range by lia. simpl.
    rewrite !add_days_in_range by lia. simpl.
    f_equal. repeat (apply f_equal2; [f_equal; lia|]). reflexivity.
  - simpl. rewrite !add_days_in_range by lia. simpl. unfold reverse. simpl.
    f_equal. repeat (apply f_equal2; [f_equal; lia|]). reflexivity.
Qed.

(** On any day from the eighth of the calendar on, [api_stats] reports
    the seven days before today, today left out, and the loop of
    [dashboard_home] the seven days that end today; both series are oldest
    first and give each day the counts of that day. *)
Theorem seven_day_series w db :
  let today := Dates.date_of (now w) in
  8 <= today <= Dates.MAXORDINAL ->
  Site.recent_activity w db = Ok (map (Site.day_counts db) (seqZ (today - 7) 7)) /\
  Staff.daily_stats w db = Ok (map (Site.day_counts db) (seqZ (today - 6) 7)).
Proof. exact (seven_days w db). Qed.

Lemma seven_day_series_witness :
  Site.recent_activity Sample.offline Sample2.two_days
  = Ok (map (Site.day_counts Sample2.two_days) (seqZ (Sample.a_day - 7) 7)).
Proof.
  refine (proj1 (seven_day_series Sample.offline Sample2.two_days _)).
  vm_compute. split; discriminate.
Defined.

(** ** The page of one contact *)

Lemma set_is_read_read c : Contact.is_read c = true -> Staff.set_is_read c = c.
Proof. destruct c. simpl. by intros ->. Qed.

Lemma set_contacts_same db : set_contacts (contacts db) db = db.
Proof. by destruct db. Qed.

Lemma contact_detail_found request i c db log :
  contacts db !! i = Some c ->
  let posted := String.eqb (method request) "POST" in
  let notes := if posted then Views.get_default (POST request) "notes" EmptyString
               else Contact.notes c in
  let c' := Staff.set_notes notes (Staff.set_is_read c) in
  Staff.contact_detail request (Z.of_nat i + 1) (db, log)
  = (Ok (if posted
         then Staff.NotesSaved (RedirectSuccess "dashboard:contact_detail"
                                  "Observações atualizadas com sucesso.")
         else Staff.ShowContact c'),
     (set_contacts (<[i := c']> (contacts db)) db, log)).
Proof.
  intros Hc posted notes c'. unfold Staff.contact_detail, Staff.get_object_or_404,
    Staff.row_of.
  destruct (Z.leb_spec 1 (Z.of_nat i + 1)) as [_|]; [|lia].
  replace (Z.to_nat (Z.of_nat i + 1 - 1)) with i by lia.
  unfold bind at 1, get_db at 1. cbn [fst snd]. unfold bind at 1, lift at 1.
  rewrite Hc. cbn [fst snd]. fold posted.
  assert (Hlen : (i < length (contacts db))%nat) by (by eapply lookup_lt_Some).
  destruct (Contact.is_read c) eqn:Hread; cbn [negb].
  - subst c'. rewrite (set_is_read_read c Hread).
    unfold bind at 1, ret at 1. destruct posted.
    + unfold bind, Staff.save_contact, bind, get_db, put_db, ret. reflexivity.
    + unfold ret. subst notes. cbv iota. f_equal.
      * do 2 f_equal. by destruct c.
      * f_equal. rewrite <- (set_contacts_same db) at 1. f_equal.
        symmetry. apply list_insert_id. rewrite Hc. f_equal. by destruct c.
  - unfold bind at 1. unfold bind at 1, Staff.save_contact at 1, bind at 1,
      get_db at 1, put_db at 1, ret at 1. cbn [fst snd].
    destruct posted.
    + unfold bind, Staff.save_contact, bind, get_db, put_db, ret. cbn [fst snd].
      simpl contacts. rewrite list_insert_insert_eq. reflexivity.
    + unfold ret. subst notes c'. cbv iota.
      assert (E : Staff.set_notes (Contact.notes c) (Staff.set_is_read c)
                  = Staff.set_is_read c) by (by destruct c).
      rewrite E. reflexivity.
Qed.

(** [contact_detail] answers 404 exactly for a key that no contact has,
    and then changes nothing. *)
Theorem contact_detail_unknown_key request contact_id db log :
  (contact_id < 1 \/ Orm.count (contacts db) < contact_id) <->
  Staff.contact_detail request contact_id (db, log)
  = (Raise (OtherException "Http404"), (db, log)).
Proof.
  split.
  - intros Hout. unfold Staff.contact_detail, Staff.get_object_or_404, Staff.row_of.
    unfold bind at 1, get_db at 1. cbn [fst snd]. unfold bind at 1, lift at 1.
    destruct (Z.leb_spec 1 contact_id) as [Hle|]; [|reflexivity].
    rewrite lookup_ge_None_2; [reflexivity|]. unfold Orm.count in Hout. lia.
  - intros Hrun.
    destruct (decide (contact_id < 1 \/ Orm.count (contacts db) < contact_id))
      as [|Hin]; [done|]. exfalso.
    unfold Orm.count in Hin.
    destruct (lookup_lt_is_Some_2 (contacts db) (Z.to_nat (contact_id - 1)))
      as [c Hc]; [lia|].
    pose proof (contact_detail_found request _ c db log Hc) as Hfound.
    replace (Z.of_nat (Z.to_nat (contact_id - 1)) + 1) with contact_id in Hfound by lia.
    cbv zeta in Hfound. rewrite Hfound in Hrun. discriminate Hrun.
Qed.

(** For the key of a contact, [contact_detail] leaves the contact read
    and with its name, email, WhatsApp number, description, attachment
    and date as they were; a POST replaces its notes by the posted ones
    (by nothing when the request carries none) and anything else keeps
    them; the other contacts and the other tables do not change. *)
Theorem contact_detail_marks_read_and_saves_notes request i c db log :
  contacts db !! i = Some c ->
  let posted := String.eqb (method request) "POST" in
  let c' :=
    {| Contact.name := Contact.name c; Contact.whatsapp := Contact.whatsapp c;
       Contact.email := Contact.email c;
       Contact.project_description := Contact.project_description c;
       Contact.attachment := Contact.attachment c;
       Contact.created_at := Contact.created_at c;
       Contact.is_read := true;
       Contact.notes :=
         if posted then Views.get_default (POST request) "notes" EmptyString
         else Contact.notes c |} in
  exists db',
    Staff.contact_detail request (Z.of_nat i + 1) (db, log)
    = (Ok (if posted
           then Staff.NotesSaved (RedirectSuccess "dashboard:contact_detail"
                                    "Observações atualizadas com sucesso.")
           else Staff.ShowContact c'),
       (db', log)) /\
    contacts db' !! i = Some c' /\
    length (contacts db') = length (contacts db) /\
    (forall j, j <> i -> contacts db' !! j = contacts db !! j) /\
    page_views db' = page_views db /\
    form_settings db' = form_settings db /\
    site_statistics db' = site_statistics db.
Proof.
  intros Hc posted c'. eexists. split; [exact (contact_detail_found request i c db log Hc)|].
  simpl. assert (Hlen : (i < length (contacts db))%nat) by (by eapply lookup_lt_Some).
  split; [by apply list_lookup_insert_eq|]. split; [apply length_insert|].
  split; [intros j Hj; by apply list_lookup_insert_ne|]. done.
Qed.

Lemma contact_detail_marks_read_and_saves_notes_witness :
  let c := Spec.new_contact Sample.offline (Sample.submission "ana@example.com" None) in
  let db := set_contacts [c] Sample.empty_db in
  exists db',
    (Staff.contact_detail Sample2.visit 1 (db, [])).2.1 = db' /\
    Contact.is_read <$> contacts db' !! 0%nat = Some true /\
    Contact.notes <$> contacts db' !! 0%nat = Some EmptyString.
Proof.
  intros c db.
  destruct (contact_detail_marks_read_and_saves_notes Sample2.visit 0 c db []
              eq_refl) as (db' & Hrun & Hrow & _).
  exists db'. change (Z.of_nat 0 + 1) with 1 in Hrun. rewrite Hrun, Hrow.
  by repeat split.
Defined.

(** ** The list of contacts *)

Lemma truthy_spec s : Py.truthy s = true <-> s <> EmptyString.
Proof. destruct s; simpl; split; try done. Qed.

(** The contacts [contacts_list] shows, over all its pages: a contact of
    the table is among them exactly when it passes each filter in force
    (a search text found in one of its four text fields without regard to
    case, the status [read] or [unread], a first and a last day that
    [strptime] accepts; an empty or unknown parameter and a date that
    [strptime] refuses filter nothing); no contact is shown twice, and
    they come newest first. *)
Theorem contacts_list_shows_the_selected_contacts lib order_by GET db :
  Staff.is_newest_first order_by ->
  let shown := Staff.contacts_list_queryset lib order_by GET db in
  let search := Views.get_default GET "search" EmptyString in
  let status := Views.get_default GET "status" EmptyString in
  let date_from := Views.get_default GET "date_from" EmptyString in
  let date_to := Views.get_default GET "date_to" EmptyString in
  (forall c,
     c ∈ shown <->
     c ∈ contacts db /\
     (search <> EmptyString ->
      Text.icontains search (Contact.name c) = true \/
      Text.icontains search (Contact.email c) = true \/
      Text.icontains search (Contact.whatsapp c) = true \/
      Text.icontains search (Contact.project_description c) = true) /\
     (status = "unread" -> Contact.is_read c = false) /\
     (status = "read" -> Contact.is_read c = true) /\
     (forall d, date_from <> EmptyString -> strptime lib date_from = Some d ->
                d <= Dates.date_of (Contact.created_at c)) /\
     (forall d, date_to <> EmptyString -> strptime lib date_to = Some d ->
                Dates.date_of (Contact.created_at c) <= d)) /\
  shown ⊆+ contacts db /\
  Sorted Staff.created_ge shown.
Proof.
  intros Hok shown search status date_from date_to.
  unfold shown, Staff.contacts_list_queryset.
  fold search status date_from date_to.
  set (l1 := if Py.truthy search then filter _ (contacts db) else contacts db).
  set (l2 := if String.eqb status "unread" then filter _ l1
             else if String.eqb status "read" then filter _ l1 else l1).
  set (l3 := if Py.truthy date_from then
               match strptime lib date_from with
               | Some d => filter _ l2 | None => l2 end else l2).
  set (l4 := if Py.truthy date_to then
               match strptime lib date_to with
               | Some d => filter _ l3 | None => l3 end else l3).
  destruct (Hok l4) as [Hperm Hsorted].
  assert (H1 : forall c, c ∈ l1 <-> c ∈ contacts db /\
            (search <> EmptyString ->
             Text.icontains search (Contact.name c) = true \/
             Text.icontains search (Contact.email c) = true \/
             Text.icontains search (Contact.whatsapp c) = true \/
             Text.icontains search (Contact.project_description c) = true)).
  { intros c. unfold l1. destruct (Py.truthy search) eqn:Hs.
    - rewrite list_elem_of_filter, !orb_true_iff. apply truthy_spec in Hs. tauto.
    - assert (search = EmptyString) by (destruct search; [done|discriminate]). tauto. }
  assert (H2 : forall c, c ∈ l2 <-> c ∈ l1 /\
            (status = "unread" -> Contact.is_read c = false) /\
            (status = "read" -> Contact.is_read c = true)).
  { intros c. unfold l2. destruct (String.eqb_spec status "unread") as [->|Hu].
    - rewrite list_elem_of_filter. split; [intros [? ?]; by repeat split|tauto].
    - destruct (String.eqb_spec status "read") as [->|Hr].
      + rewrite list_elem_of_filter. split; [intros [? ?]; by repeat split|tauto].
      + tauto. }
  assert (H3 : forall c, c ∈ l3 <-> c ∈ l2 /\
            (forall d, date_from <> EmptyString -> strptime lib date_from = Some d ->
                       d <= Dates.date_of (Contact.created_at c))).
  { intros c. unfold l3. destruct (Py.truthy date_from) eqn:Hs.
    - apply truthy_spec in Hs. destruct (strptime lib date_from) as [d|].
      + rewrite list_elem_of_filter. split.
        * intros [Hd Hin]. split; [exact Hin|]. by intros d' _ [= <-].
        * intros [Hin Hd]. split; [by apply Hd|exact Hin].
      + split; [intros Hin; split; [exact Hin|discriminate]|tauto].
    - assert (date_from = EmptyString) by (destruct date_from; [done|discriminate]).
      split; [intros Hin; split; [exact Hin|done]|tauto]. }
  assert (H4 : forall c, c ∈ l4 <-> c ∈ l3 /\
            (forall d, date_to <> EmptyString -> strptime lib date_to = Some d ->
                       Dates.date_of (Contact.created_at c) <= d)).
  { intros c. unfold l4. destruct (Py.truthy date_to) eqn:Hs.
    - apply truthy_spec in Hs. destruct (strptime lib date_to) as [d|].
      + rewrite list_elem_of_filter. split.
        * intros [Hd Hin]. split; [exact Hin|]. by intros d' _ [= <-].
        * intros [Hin Hd]. split; [by apply Hd|exact Hin].
      + split; [intros Hin; split; [exact Hin|discriminate]|tauto].
    - assert (date_to = EmptyString) by (destruct date_to; [done|discriminate]).
      split; [intros Hin; split; [exact Hin|done]|tauto]. }
  split; [|split; [|exact Hsorted]].
  - intros c. rewrite Hperm, H4, H3, H2, H1. tauto.
  - rewrite Hperm.
    assert (S1 : l1 ⊆+ contacts db).
    { unfold l1. destruct (Py.truthy search); [apply sublist_submseteq, sublist_filter|done]. }
    assert (S2 : l2 ⊆+ l1).
    { unfold l2. destruct (String.eqb status "unread");
        [apply sublist_submseteq, sublist_filter|].
      destruct (String.eqb status "read"); [apply sublist_submseteq, sublist_filter|done]. }
    assert (S3 : l3 ⊆+ l2).
    { unfold l3. destruct (Py.truthy date_from); [|done].
      destruct (strptime lib date_from);
        [apply sublist_submseteq, sublist_filter|done]. }
    assert (S4 : l4 ⊆+ l3).
    { unfold l4. destruct (Py.truthy date_to); [|done].
      destruct (strptime lib date_to);
        [apply sublist_submseteq, sublist_filter|done]. }
    by rewrite S4, S3, S2.
Qed.

Lemma insert_newest_perm c rows :
  Permutation (StaffSample.insert_newest c rows) (c :: rows).
Proof.
  induction rows as [|r rows IH]; simpl; [done|].
  destruct (Contact.created_at c <? Contact.created_at r); [|done].
  rewrite IH. apply perm_swap.
Qed.

Lemma insert_newest_hd c r rows :
  Staff.created_ge r c -> HdRel Staff.created_ge r rows ->
  HdRel Staff.created_ge r (StaffSample.insert_newest c rows).
Proof.
  intros Hr Hhd. destruct rows as [|r' rows]; simpl; [auto|].
  inversion Hhd; subst. destruct (Contact.created_at c <? Contact.created_at r'); auto.
Qed.

Lemma insert_newest_sorted c rows :
  Sorted Staff.created_ge rows -> Sorted Staff.created_ge (StaffSample.insert_newest c rows).
Proof.
  induction 1 as [|r rows Hs IH Hhd]; simpl; [auto|].
  destruct (Z.ltb_spec (Contact.created_at c) (Contact.created_at r)) as [Hlt|Hge].
  - constructor; [exact IH|]. apply insert_newest_hd; [|exact Hhd].
    unfold Staff.created_ge. lia.
  - constructor; [auto|]. constructor. unfold Staff.created_ge. lia.
Qed.

Lemma newest_first_ok : Staff.is_newest_first StaffSample.newest_first.
Proof.
  intros rows. unfold StaffSample.newest_first.
  induction rows as [|r rows [IHp IHs]]; simpl; [auto|]. split.
  - rewrite insert_newest_perm. by constructor.
  - by apply insert_newest_sorted.
Qed.

Lemma contacts_list_shows_the_selected_contacts_witness :
  Sorted Staff.created_ge
    (Staff.contacts_list_queryset StaffSample.library StaffSample.newest_first
       {[ "status" := "unread"; "date_from" := "2026-11-03" ]}
       StaffSample.two_contacts).
Proof.
  destruct (contacts_list_shows_the_selected_contacts StaffSample.library
              StaffSample.newest_first
              {[ "status" := "unread"; "date_from" := "2026-11-03" ]}
              StaffSample.two_contacts newest_first_ok) as (_ & _ & Hsorted).
  exact Hsorted.
Defined.

(** ** Pages *)

Lemma num_pages_bounds per_page count :
  0 < per_page -> 0 <= count ->
  1 <= Paginator.num_pages per_page count /\
  (Paginator.num_pages per_page count - 1) * per_page < Z.max 1 count /\
  count <= Paginator.num_pages per_page count * per_page.
Proof.
  intros Hpp Hc. unfold Paginator.num_pages.
  pose proof (Z.div_mod (Z.max 1 count + per_page - 1) per_page ltac:(lia)) as Hdm.
  pose proof (Z.mod_pos_bound (Z.max 1 count + per_page - 1) per_page Hpp) as Hmod.
  set (q := (Z.max 1 count + per_page - 1) / per_page) in *.
  split; [|split]; nia.
Qed.

Lemma page_slice {A : Type} per_page (objects : list A) n :
  0 < per_page -> 1 <= n -> (n - 1) * per_page <= Orm.count objects ->
  Paginator.object_list (Paginator.page per_page objects n)
  = take (Z.to_nat per_page) (drop (Z.to_nat ((n - 1) * per_page)) objects).
Proof.
  intros Hpp Hn Hb. unfold Paginator.page, Orm.count in *. simpl.
  set (bottom := (n - 1) * per_page) in *.
  destruct (Z.min_spec (bottom + per_page) (Z.of_nat (length objects)))
    as [[Hlt ->]|[Hge ->]].
  - f_equal. lia.
  - rewrite !take_ge; [reflexivity| |]; rewrite length_drop; lia.
Qed.

Lemma take_add_drop {A : Type} (a b : nat) (l : list A) :
  take (a + b) l = take a l ++ take b (drop a l).
Proof.
  revert l. induction a as [|a IH]; intros l; [reflexivity|].
  destruct l as [|x l]; [by rewrite drop_nil, !take_nil|]. simpl. by rewrite IH.
Qed.

Lemma pages_concat {A : Type} per_page (objects : list A) (m : nat) :
  0 < per_page -> Z.of_nat m <= Paginator.num_pages per_page (Orm.count objects) ->
  concat (map (fun n => Paginator.object_list (Paginator.page per_page objects n))
              (seqZ 1 (Z.of_nat m)))
  = take (m * Z.to_nat per_page) objects.
Proof.
  intros Hpp. induction m as [|m IH]; intros Hm; [reflexivity|].
  replace (Z.of_nat (S m)) with (Z.of_nat m + 1) by lia.
  rewrite seqZ_app by lia. rewrite map_app, concat_app, IH by lia.
  assert (Hone : seqZ (1 + Z.of_nat m) 1 = [Z.of_nat m + 1])
    by (unfold seqZ; simpl; f_equal; lia).
  rewrite Hone. cbn [map concat]. rewrite app_nil_r.
  pose proof (num_pages_bounds per_page (Orm.count objects) Hpp
                ltac:(unfold Orm.count; lia)) as (_ & Hlast & _).
  destruct (decide (objects = [])) as [->|Hne].
  - unfold Paginator.page. cbn [Paginator.object_list].
    by rewrite drop_nil, !take_nil.
  - assert (0 < Orm.count objects)
      by (unfold Orm.count; destruct objects; [done|simpl; lia]).
    rewrite page_slice by nia.
    replace (S m * Z.to_nat per_page)%nat
      with (m * Z.to_nat per_page + Z.to_nat per_page)%nat by lia.
    rewrite take_add_drop. do 3 f_equal. nia.
Qed.

(** The page [contacts_list] shows: whatever the [page] parameter, its
    number is one of the pages there are (the first without parameter or
    when the parameter is no integer, the last when the number is out of
    range); it holds the contacts of that rank, at most 20, and exactly 20
    on every page but the last; the pages together hold each shown contact
    once, and [total_contacts] is their number. *)
Theorem contacts_list_pages lib order_by GET db :
  let shown := Staff.contacts_list_queryset lib order_by GET db in
  let context := Staff.contacts_list lib order_by GET db in
  let page := Staff.page_obj context in
  let pages := Paginator.num_pages 20 (Orm.count shown) in
  Staff.total_contacts context = Orm.count shown /\
  1 <= Paginator.number page <= pages /\
  Paginator.object_list page
  = take 20 (drop (Z.to_nat ((Paginator.number page - 1) * 20)) shown) /\
  (length (Paginator.object_list page) <= 20)%nat /\
  (Paginator.number page < pages -> length (Paginator.object_list page) = 20%nat) /\
  (shown <> [] -> Paginator.object_list page <> []) /\
  (GET !! "page" = None \/
   (exists text msg, GET !! "page" = Some text /\ int lib text = inr msg) ->
   Paginator.number page = 1) /\
  concat (map (fun n => Paginator.object_list (Paginator.page 20 shown n))
              (seqZ 1 pages)) = shown.
Proof.
  intros shown context page pages.
  pose proof (num_pages_bounds 20 (Orm.count shown) ltac:(lia)
                ltac:(unfold Orm.count; lia)) as (Hone & Hlast & Hall).
  fold pages in Hone, Hlast, Hall.
  set (number := match GET !! "page" with
                 | Some text =>
                     match int lib text with
                     | inl n => Some n
                     | inr _ => None
                     end
                 | None => None
                 end).
  assert (Hpage : page = Paginator.get_page 20 shown number) by reflexivity.
  assert (Hnum : 1 <= Paginator.number page <= pages).
  { rewrite Hpage. unfold Paginator.get_page. fold pages.
    destruct number as [n|]; [|simpl; lia].
    destruct (Z.ltb_spec n 1); simpl; [lia|].
    rewrite Z.gtb_ltb. destruct (Z.ltb_spec pages n); simpl; lia. }
  assert (Hslice : Paginator.object_list page
            = take 20 (drop (Z.to_nat ((Paginator.number page - 1) * 20)) shown)).
  { assert (Hany : forall n, 1 <= n <= pages ->
              Paginator.object_list (Paginator.page 20 shown n)
              = take 20 (drop (Z.to_nat ((n - 1) * 20)) shown)).
    { intros n Hn. destruct (decide (shown = [])) as [Hs|Hs].
      - rewrite Hs. unfold Paginator.page. simpl. by rewrite drop_nil, !take_nil.
      - apply (page_slice 20 shown n); [lia|lia|].
        assert (0 < Orm.count shown)
          by (unfold Orm.count; destruct shown; [done|simpl; lia]). nia. }
    rewrite Hpage in Hnum |- *. unfold Paginator.get_page in Hnum |- *.
    fold pages in Hnum |- *.
    destruct number as [n|]; [|apply Hany; lia].
    destruct ((n <? 1) || (n >? pages)); simpl in Hnum |- *; apply Hany; lia. }
  split; [reflexivity|]. split; [exact Hnum|]. split; [exact Hslice|].
  split; [rewrite Hslice, length_take; lia|].
  split; [|split; [|split]].
  - intros Hlt. rewrite Hslice, length_take, length_drop.
    unfold Orm.count in *.
    assert (Paginator.number page * 20 <= Z.of_nat (length shown)) by lia.
    lia.
  - intros Hne. rewrite Hslice.
    assert (0 < Orm.count shown)
      by (unfold Orm.count; destruct shown; [done|simpl; lia]).
    intros Hnil. apply (f_equal length) in Hnil.
    rewrite length_take, length_drop in Hnil. unfold Orm.count in *.
    change (length (@nil Contact.t)) with 0%nat in Hnil.
    assert ((Paginator.number page - 1) * 20 < Z.of_nat (length shown)) by lia.
    lia.
  - intros Hnone. rewrite Hpage. unfold number.
    destruct Hnone as [->|(text & msg & -> & ->)]; reflexivity.
  - replace pages with (Z.of_nat (Z.to_nat pages)) by lia.
    rewrite pages_concat by lia. apply take_ge. unfold Orm.count in *. nia.
Qed.

(** ** The export of the contacts *)

(** The rows of [export_contacts_csv] follow the list of [contacts_list]:
    after the header there is one row for each contact the list shows
    over all its pages, in the same order, with the fields of that
    contact; every row has eight cells, and the parameter [page], which
    the export does not read, changes nothing. *)
Theorem export_contacts_csv_follows_the_list lib order_by GET db :
  let rows := Staff.export_contacts_csv lib order_by GET db in
  let shown := Staff.contacts_list_queryset lib order_by GET db in
  Orm.count rows = Staff.total_contacts (Staff.contacts_list lib order_by GET db) + 1 /\
  Forall (fun row => length row = 8%nat) rows /\
  (forall i c, shown !! i = Some c ->
     exists row,
       rows !! S i = Some row /\
       row !! 0%nat = Some (Contact.name c) /\
       row !! 1%nat = Some (Contact.email c) /\
       row !! 2%nat = Some (Contact.whatsapp c) /\
       row !! 3%nat = Some (Contact.project_description c) /\
       row !! 5%nat = Some (if Contact.is_read c then "Lida" else "Não lida") /\
       row !! 7%nat = Some (Contact.notes c)) /\
  (forall page,
     Staff.export_contacts_csv lib order_by (<["page" := page]> GET) db = rows).
Proof.
  intros rows shown.
  set (row_of := fun contact : Contact.t =>
         [Contact.name contact; Contact.email contact; Contact.whatsapp contact;
          Contact.project_description contact;
          Staff.strftime_dmY_HM (Contact.created_at contact);
          if Contact.is_read contact then "Lida" else "Não lida";
          match Staff.attachment_filename contact with
          | Some filename => filename
          | None => "Nenhum"
          end;
          Contact.notes contact]).
  assert (Hrows : exists header, length header = 8%nat /\
                    rows = header :: map row_of shown)
    by (eexists; split; [|reflexivity]; reflexivity).
  destruct Hrows as (header & Hheader & Hrows).
  split; [|split; [|split]].
  - rewrite Hrows. unfold Orm.count. cbn [Staff.total_contacts Staff.contacts_list].
    unfold Orm.count. fold shown. rewrite length_cons, length_map. lia.
  - rewrite Hrows. constructor; [exact Hheader|].
    apply Forall_forall. intros row Hrow. apply list_elem_of_fmap in Hrow as (c & -> & _).
    reflexivity.
  - intros i c Hc. exists (row_of c). rewrite Hrows.
    change ((header :: map row_of shown) !! S i) with ((row_of <$> shown) !! i).
    rewrite list_lookup_fmap, Hc. split; [reflexivity|by repeat split].
  - intros page. unfold rows, Staff.export_contacts_csv, Views.get_default.
    by rewrite !lookup_insert_ne by done.
Qed.

(** ** The name of an attachment *)

Lemma string_app_assoc a b c : (a +:+ b) +:+ c = a +:+ b +:+ c.
Proof.
  induction a as [|x a IH]; [reflexivity|]. by rewrite !append_String, IH.
Qed.

Lemma join_last sep piece rest :
  Py.join sep (piece :: rest) = List.last (piece :: rest) EmptyString \/
  exists dir,
    Py.join sep (piece :: rest) = dir +:+ sep +:+ List.last (piece :: rest) EmptyString.
Proof.
  revert piece. induction rest as [|piece' rest IH]; intros piece; [by left|].
  right. rewrite join_cons.
  change (List.last (piece :: piece' :: rest) EmptyString)
    with (List.last (piece' :: rest) EmptyString).
  destruct (IH piece') as [->|(dir & ->)].
  - by exists piece.
  - exists (piece +:+ sep +:+ dir). by rewrite !string_app_assoc.
Qed.

Lemma last_in {A : Type} (x : A) (l : list A) (d : A) : In (List.last (x :: l) d) (x :: l).
Proof.
  revert x. induction l as [|y l IH]; intros x; [by left|].
  right. apply (IH y).
Qed.

(** [attachment_filename] is [None] exactly for a contact without
    attachment (or with one that has no name); otherwise it is the part
    of the stored name after its last [/]: it holds no [/], and the stored
    name is the filename itself or a directory, a [/] and the filename. *)
Theorem attachment_filename_is_the_last_component (contact : Contact.t) :
  match Staff.attachment_filename contact with
  | Some filename =>
      exists f,
        Contact.attachment contact = Some f /\
        UploadedFile.name f <> EmptyString /\
        (forall c, In c (Py.to_list filename) -> c <> "/"%char) /\
        (UploadedFile.name f = filename \/
         exists dir, UploadedFile.name f = dir +:+ "/" +:+ filename)
  | None =>
      forall f, Contact.attachment contact = Some f -> UploadedFile.name f = EmptyString
  end.
Proof.
  unfold Staff.attachment_filename, UploadedFile.truthy.
  destruct (Contact.attachment contact) as [f|]; [|by intros f].
  destruct (Py.truthy (UploadedFile.name f)) eqn:Hname.
  - exists f. split; [reflexivity|]. split; [by apply truthy_spec|].
    unfold Py.basename.
    destruct (split_pieces "/" (UploadedFile.name f)) as [Hjoin Hpieces].
    destruct (split_cons "/" (UploadedFile.name f)) as (piece & rest & Hs).
    rewrite Hs in *. split.
    + rewrite List.Forall_forall in Hpieces. apply Hpieces, last_in.
    + rewrite <- Hjoin. destruct (join_last "/" piece rest) as [->|(dir & ->)];
        [by left|right; by exists dir].
  - intros f' [= <-]. by destruct (UploadedFile.name f).
Qed.

(** ** The page of a project *)

Lemma string_length_app a b :
  String.length (a +:+ b) = (String.length a + String.length b)%nat.
Proof.
  induction a as [|x a IH]; [reflexivity|]. rewrite append_String. simpl. by rewrite IH.
Qed.

Lemma string_app_inj_r s a b : a +:+ s = b +:+ s -> a = b.
Proof.
  revert b. induction a as [|x a IH]; intros [|y b] Heq.
  - reflexivity.
  - apply (f_equal String.length) in Heq.
    rewrite !string_length_app in Heq. simpl in Heq. lia.
  - apply (f_equal String.length) in Heq.
    rewrite !string_length_app in Heq. simpl in Heq. lia.
  - rewrite !append_String in Heq. injection Heq as -> Heq. f_equal. by apply IH.
Qed.

(** [portfolio_detail] answers a request that is not a GET without
    recording it; a GET is recorded as one view of [/portfolio/<id>/], for
    the address of the client in the form the column gives it, before the
    page is rendered, or fails as the tracking does and stores nothing;
    two projects are never recorded under the same address of page. *)
Theorem portfolio_detail_tracks_get_only w request project_id db log :
  let page_url := "/portfolio/" +:+ pretty project_id +:+ "/" in
  (method request <> "GET" ->
   Site.portfolio_detail w request project_id (db, log)
   = (Ok (Site.NotAllowed ["GET"]), (db, log))) /\
  (method request = "GET" ->
   (exists row,
      Site.portfolio_detail w request project_id (db, log)
      = (Ok (Site.Project "portfolio_detail.html" project_id),
         (set_page_views (page_views db ++ [row]) db, log ++ [PageViewCreated row])) /\
      PageView.page_url row = page_url /\
      Views.ip_address_field w (Views.get_client_ip request)
      = Ok (PageView.ip_address row) /\
      PageView.timestamp row = now w) \/
   Site.portfolio_detail w request project_id (db, log)
   = (Raise IntegrityError, (db, log))) /\
  (forall other, "/portfolio/" +:+ pretty other +:+ "/" = page_url -> other = project_id).
Proof.
  intros page_url. split; [|split].
  - intros Hother. unfold Site.portfolio_detail.
    rewrite bool_decide_eq_false_2; [reflexivity|].
    by intros Hin%list_elem_of_singleton.
  - intros Hget. unfold Site.portfolio_detail. rewrite Hget.
    rewrite bool_decide_eq_true_2 by apply list_elem_of_here.
    cbn [negb]. fold page_url. unfold bind.
    pose proof (track_all_or_nothing w request page_url db log) as Htrack.
    destruct (Views.track_page_view w request page_url (db, log)) as [[pv|e] st].
    + destruct Htrack as (row & -> & _ & Hip & Htime & Hurl & _). left. by exists row.
    + destruct Htrack as (-> & ->). by right.
  - intros other Heq. unfold page_url in Heq.
    apply (inj (String.append "/portfolio/")) in Heq.
    apply string_app_inj_r in Heq. by apply (inj pretty) in Heq.
Qed.

(** ** The first view of an address *)

Lemma earliest_view (l : list PageView.t) :
  l <> [] ->
  exists first,
    first ∈ l /\ forall pv, pv ∈ l -> PageView.timestamp first <= PageView.timestamp pv.
Proof.
  induction l as [|x l IH]; [done|]. intros _.
  destruct l as [|y l].
  - exists x. split; [apply list_elem_of_here|]. by intros pv ->%list_elem_of_singleton.
  - destruct IH as (m & Hm & Hmin); [done|].
    destruct (Z.le_gt_cases (PageView.timestamp x) (PageView.timestamp m)) as [Hle|Hgt].
    + exists x. split; [apply list_elem_of_here|].
      intros pv [->|Hpv]%elem_of_cons; [lia|]. specialize (Hmin pv Hpv). lia.
    + exists m. split; [by apply list_elem_of_further|].
      intros pv [->|Hpv]%elem_of_cons; [lia|]. by apply Hmin.
Qed.

(** Every address that has a recorded view has a first one:
    [is_unique_visitor] holds of a view of that address, which is not
    later than any other view of it, and it holds of a view of the
    address exactly when that view was taken at the time of the first. *)
Theorem is_unique_visitor_marks_the_first_view objects pv :
  pv ∈ objects ->
  exists first,
    first ∈ objects /\
    PageView.ip_address first = PageView.ip_address pv /\
    PageView.is_unique_visitor objects first = true /\
    PageView.timestamp first <= PageView.timestamp pv /\
    forall other,
      other ∈ objects -> PageView.ip_address other = PageView.ip_address pv ->
      (PageView.is_unique_visitor objects other = true
       <-> PageView.timestamp other = PageView.timestamp first).
Proof.
  intros Hpv.
  set (same := filter (fun x => PageView.ip_address x = PageView.ip_address pv) objects).
  assert (Hin : pv ∈ same) by (by apply list_elem_of_filter).
  destruct (earliest_view same) as (first & Hfirst & Hmin);
    [intros Hnil; rewrite Hnil in Hin; inversion Hin|].
  apply list_elem_of_filter in Hfirst as [Hip Hfirst].
  assert (Hunique : forall other,
            other ∈ objects -> PageView.ip_address other = PageView.ip_address pv ->
            (PageView.is_unique_visitor objects other = true
             <-> PageView.timestamp other <= PageView.timestamp first)).
  { intros other Hother Hip'. unfold PageView.is_unique_visitor.
    rewrite negb_true_iff, bool_decide_eq_false, Exists_exists. split.
    - intros Hnone. destruct (Z.le_gt_cases (PageView.timestamp other)
                                (PageView.timestamp first)) as [|Hgt]; [done|].
      destruct Hnone. exists first. split; [exact Hfirst|]. split; [congruence|lia].
    - intros Hle (x & Hx & Hipx & Hlt).
      assert (PageView.timestamp first <= PageView.timestamp x); [|lia].
      apply Hmin, list_elem_of_filter. split; [congruence|exact Hx]. }
  exists first. split; [exact Hfirst|]. split; [exact Hip|].
  split; [apply Hunique; [exact Hfirst|exact Hip|lia]|].
  split; [by apply Hmin|].
  intros other Hother Hip'. rewrite (Hunique other Hother Hip').
  assert (PageView.timestamp first <= PageView.timestamp other); [|lia].
  apply Hmin, list_elem_of_filter. by split.
Qed.

Lemma is_unique_visitor_marks_the_first_view_witness :
  exists first,
    first ∈ Sample.returning_visitor /\
    PageView.ip_address first = "203.0.113.7" /\
    PageView.is_unique_visitor Sample.returning_visitor first = true /\
    PageView.timestamp first <= Sample.noon Sample.a_day.
Proof.
  destruct (is_unique_visitor_marks_the_first_view Sample.returning_visitor
              (Sample.view "203.0.113.7" "BR" (Sample.noon Sample.a_day)))
    as (first & Hin & Hip & Hunique & Hle & _).
  - apply list_elem_of_further, list_elem_of_here.
  - exists first. by repeat split.
Defined.

(** ** The page of the settings *)

Lemma sample_column_ok : Staff.is_positive_integer_column StaffSample.column.
Proof.
  split; intros n Hn; unfold StaffSample.column.
  - destruct (Z.ltb_spec n 0); [lia|]. destruct (Z.ltb_spec 9223372036854775807 n); [lia|done].
  - destruct (Z.ltb_spec n 0); [done|lia].
Qed.

Lemma settings_view_post lib column request db log :
  method request = "POST" ->
  let settings_obj :=
    match form_settings db !! 1 with
    | Some settings => settings
    | None => ContactFormSettings.new (Some 1)
    end in
  let table :=
    match form_settings db !! 1 with
    | Some _ => form_settings db
    | None => <[1 := ContactFormSettings.new (Some 1)]> (form_settings db)
    end in
  Staff.settings_view lib column request (db, log)
  = match match POST request !! "max_file_size_mb" with
          | Some text => int_or_raise lib text
          | None => Ok 10
          end with
    | Raise e => (Raise e, (set_form_settings table db, log))
    | Ok n =>
        match Staff.save_settings column
                {| ContactFormSettings.pk := ContactFormSettings.pk settings_obj;
                   ContactFormSettings.email_notifications :=
                     Staff.checked request "email_notifications";
                   ContactFormSettings.notification_email :=
                     Views.get_default (POST request) "notification_email" EmptyString;
                   ContactFormSettings.auto_reply_enabled :=
                     Staff.checked request "auto_reply_enabled";
                   ContactFormSettings.auto_reply_subject :=
                     Views.get_default (POST request) "auto_reply_subject" EmptyString;
                   ContactFormSettings.auto_reply_message :=
                     Views.get_default (POST request) "auto_reply_message" EmptyString;
                   ContactFormSettings.max_file_size_mb := n;
                   ContactFormSettings.allowed_file_types :=
                     Views.get_default (POST request) "allowed_file_types" EmptyString |}
                table with
        | Ok saved =>
            (Ok (Staff.SettingsSaved
                   (RedirectSuccess "dashboard:settings"
                      "Configurações atualizadas com sucesso.")),
             (set_form_settings saved.2 (set_form_settings table db), log))
        | Raise e => (Raise e, (set_form_settings table db, log))
        end
    end.
Proof.
  intros Hpost settings_obj table. unfold Staff.settings_view.
  unfold bind at 1, get_db at 1. cbn [fst snd].
  unfold bind at 1, lift at 1. rewrite get_settings_ok. fold settings_obj table.
  unfold bind at 1, put_db at 1. cbn [fst snd]. rewrite Hpost.
  change ("POST" =? "POST")%string with true. cbv iota.
  unfold bind at 1, lift at 1.
  destruct (match POST request !! "max_file_size_mb" with
            | Some text => int_or_raise lib text
            | None => Ok 10
            end) as [n|e]; [|reflexivity].
  unfold bind at 1, get_db at 1. cbn [fst snd].
  unfold bind at 1, lift at 1. cbn [form_settings set_form_settings].
  destruct (Staff.save_settings column _ table) as [saved|e]; reflexivity.
Qed.

(** A POST to [settings_view] whose size is a number from 0 to
    2147483647 (10 when the form carries none) replaces the row of key 1
    by the posted settings: a box that is not checked becomes [False], a
    text that is missing becomes empty; the rows of other keys, the other
    tables and the log are untouched, and from then on [get_settings], and
    with it the contact form, reads the posted settings. *)
Theorem settings_view_stores_the_posted_settings lib column request db log n :
  Staff.is_positive_integer_column column ->
  (forall s, form_settings db !! 1 = Some s -> ContactFormSettings.pk s = Some 1) ->
  method request = "POST" ->
  match POST request !! "max_file_size_mb" with
  | Some text => int lib text = inl n
  | None => n = 10
  end ->
  0 <= n <= 2147483647 ->
  let posted :=
    {| ContactFormSettings.pk := Some 1;
       ContactFormSettings.email_notifications :=
         bool_decide (POST request !! "email_notifications" = Some "on");
       ContactFormSettings.notification_email :=
         default EmptyString (POST request !! "notification_email");
       ContactFormSettings.auto_reply_enabled :=
         bool_decide (POST request !! "auto_reply_enabled" = Some "on");
       ContactFormSettings.auto_reply_subject :=
         default EmptyString (POST request !! "auto_reply_subject");
       ContactFormSettings.auto_reply_message :=
         default EmptyString (POST request !! "auto_reply_message");
       ContactFormSettings.max_file_size_mb := n;
       ContactFormSettings.allowed_file_types :=
         default EmptyString (POST request !! "allowed_file_types") |} in
  exists db',
    Staff.settings_view lib column request (db, log)
    = (Ok (Staff.SettingsSaved
             (RedirectSuccess "dashboard:settings"
                "Configurações atualizadas com sucesso.")),
       (db', log)) /\
    form_settings db' !! 1 = Some posted /\
    (forall k, k <> 1 -> form_settings db' !! k = form_settings db !! k) /\
    contacts db' = contacts db /\
    page_views db' = page_views db /\
    site_statistics db' = site_statistics db /\
    ContactFormSettings.get_settings (form_settings db') = Ok (posted, form_settings db') /\
    Spec.settings_in_force db' = posted.
Proof.
  intros [Hstores _] Hkey Hpost Hsize Hn posted.
  rewrite settings_view_post by exact Hpost. cbv zeta.
  assert (Hint : match POST request !! "max_file_size_mb" with
                 | Some text => int_or_raise lib text
                 | None => Ok 10
                 end = Ok n).
  { destruct (POST request !! "max_file_size_mb") as [text|]; [|by rewrite Hsize].
    unfold int_or_raise. by rewrite Hsize. }
  rewrite Hint.
  assert (Hpk : ContactFormSettings.pk
                  match form_settings db !! 1 with
                  | Some settings => settings
                  | None => ContactFormSettings.new (Some 1)
                  end = Some 1).
  { destruct (form_settings db !! 1) as [s|] eqn:Hrow; [by apply Hkey|reflexivity]. }
  rewrite Hpk. fold posted.
  unfold Staff.save_settings, ContactFormSettings.save, ContactFormSettings.not_pk,
    ContactFormSettings.super_save.
  cbn [ContactFormSettings.pk ContactFormSettings.max_file_size_mb posted].
  change (1 =? 0) with false. cbn [andb Views.rbind].
  rewrite (Hstores n Hn). eexists. split; [reflexivity|].
  cbn [form_settings set_form_settings contacts page_views site_statistics snd].
  split; [apply lookup_insert_eq|]. split.
  { intros k Hk. rewrite lookup_insert_ne by done.
    destruct (form_settings db !! 1); [reflexivity|by rewrite lookup_insert_ne]. }
  split; [reflexivity|]. split; [reflexivity|]. split; [reflexivity|].
  split.
  - by rewrite get_settings_ok, lookup_insert_eq.
  - unfold Spec.settings_in_force, set_form_settings. cbn [form_settings].
    by rewrite lookup_insert_eq.
Qed.

Lemma settings_view_stores_the_posted_settings_witness :
  exists db',
    (Staff.settings_view StaffSample.library StaffSample.column
       (StaffSample.settings_form "5") (Sample.empty_db, [])).2.1 = db' /\
    ContactFormSettings.max_file_size_mb <$> form_settings db' !! 1 = Some 5 /\
    ContactFormSettings.email_notifications <$> form_settings db' !! 1 = Some false.
Proof.
  destruct (settings_view_stores_the_posted_settings StaffSample.library
              StaffSample.column (StaffSample.settings_form "5") Sample.empty_db [] 5
              sample_column_ok)
    as (db' & Hrun & Hrow & _).
  - intros s Hs. vm_compute in Hs. discriminate Hs.
  - reflexivity.
  - reflexivity.
  - lia.
  - exists db'. rewrite Hrun, Hrow. by repeat split.
Defined.

(** A POST to [settings_view] whose size is no number, or a negative
    one, raises and stores none of the posted settings: the row of key 1
    is the one [get_settings] found, or the row of the defaults, which
    stays in the table when there was none; with a text that is no number
    the exception is the [ValueError] of [int]. *)
Theorem settings_view_refuses_a_bad_size lib column request db log text :
  Staff.is_positive_integer_column column ->
  method request = "POST" ->
  POST request !! "max_file_size_mb" = Some text ->
  (forall n, int lib text = inl n -> n < 0) ->
  exists e db',
    Staff.settings_view lib column request (db, log) = (Raise e, (db', log)) /\
    (forall msg, int lib text = inr msg -> e = ValueError msg) /\
    form_settings db' !! 1
    = Some match form_settings db !! 1 with
           | Some settings => settings
           | None => ContactFormSettings.new (Some 1)
           end /\
    (forall k, k <> 1 -> form_settings db' !! k = form_settings db !! k) /\
    contacts db' = contacts db /\
    page_views db' = page_views db /\
    site_statistics db' = site_statistics db.
Proof.
  intros [_ Hrefuses] Hpost Htext Hbad.
  rewrite settings_view_post by exact Hpost. cbv zeta. rewrite Htext.
  set (table := match form_settings db !! 1 with
                | Some _ => form_settings db
                | None => <[1 := ContactFormSettings.new (Some 1)]> (form_settings db)
                end).
  assert (Hrow : table !! 1
                 = Some match form_settings db !! 1 with
                        | Some settings => settings
                        | None => ContactFormSettings.new (Some 1)
                        end).
  { unfold table. destruct (form_settings db !! 1) eqn:H1; [exact H1|apply lookup_insert_eq]. }
  assert (Hothers : forall k, k <> 1 -> table !! k = form_settings db !! k).
  { intros k Hk. unfold table.
    destruct (form_settings db !! 1); [reflexivity|by apply lookup_insert_ne]. }
  unfold int_or_raise. destruct (int lib text) as [n|msg] eqn:Hint.
  - specialize (Hbad n eq_refl).
    unfold Staff.save_settings.
    cbn [ContactFormSettings.max_file_size_mb].
    destruct (ContactFormSettings.save _ table) as [saved|e]; cbn [Views.rbind].
    + destruct (column n) as [e|] eqn:Hcol; [|by destruct (Hrefuses n Hbad)].
      exists e. eexists. split; [reflexivity|]. split; [discriminate|].
      cbn [form_settings set_form_settings contacts page_views site_statistics].
      by repeat split.
    + exists e. eexists. split; [reflexivity|]. split; [discriminate|].
      cbn [form_settings set_form_settings contacts page_views site_statistics].
      by repeat split.
  - exists (ValueError msg). eexists. split; [reflexivity|].
    split; [by intros msg' [= ->]|].
    cbn [form_settings set_form_settings contacts page_views site_statistics].
    by repeat split.
Qed.

Lemma settings_view_refuses_a_bad_size_witness :
  exists e db',
    Staff.settings_view StaffSample.library StaffSample.column
      (StaffSample.settings_form "dez") (Sample.empty_db, []) = (Raise e, (db', [])) /\
    form_settings db' !! 1 = Some (ContactFormSettings.new (Some 1)).
Proof.
  destruct (settings_view_refuses_a_bad_size StaffSample.library StaffSample.column
              (StaffSample.settings_form "dez") Sample.empty_db [] "dez"
              sample_column_ok eq_refl eq_refl)
    as (e & db' & Hrun & _ & Hrow & _).
  - intros n Hn. vm_compute in Hn. discriminate Hn.
  - exists e, db'. split; [exact Hrun|exact Hrow].
Defined.

(** ** The home of the dashboard *)

Lemma strongly_sorted_take_drop {A : Type} (R : A -> A -> Prop) (n : nat) (l : list A) x y :
  StronglySorted R l -> x ∈ take n l -> y ∈ drop n l -> R x y.
Proof.
  intros Hs. revert n. induction Hs as [|z l Hs IH Hall]; intros n Hx Hy.
  - rewrite take_nil in Hx. inversion Hx.
  - destruct n as [|n]; [inversion Hx|]. simpl in Hx, Hy.
    apply elem_of_cons in Hx as [->|Hx]; [|by apply (IH n)].
    rewrite List.Forall_forall in Hall. apply Hall, list_elem_of_In.
    by eapply subseteq_drop.
Qed.

Lemma newest_are_first order_by (rows : list Contact.t) (n : nat) c c' :
  Staff.is_newest_first order_by ->
  c ∈ take n (order_by rows) -> c' ∈ rows ->
  Contact.created_at c < Contact.created_at c' ->
  c' ∈ take n (order_by rows).
Proof.
  intros Hok Hc Hc' Hnewer. destruct (Hok rows) as [Hperm Hsorted].
  rewrite <- Hperm, <- (take_drop n (order_by rows)) in Hc'.
  apply elem_of_app in Hc' as [Hc'|Hc']; [exact Hc'|].
  apply Sorted_StronglySorted in Hsorted;
    [|intros x y z; unfold Staff.created_ge; lia].
  pose proof (strongly_sorted_take_drop _ n _ c c' Hsorted Hc Hc') as Hge.
  unfold Staff.created_ge in Hge. lia.
Qed.

(** From the thirty-first day of the calendar on, [dashboard_home]
    returns, and its figures fit together: the unread contacts and
    today's contacts, views and visitors do not exceed the totals; the
    recent contacts are five contacts of the table (all of them when
    there are fewer), newest first, and no contact left out is newer than
    one of them; the top countries are at most five; the device
    breakdown counts the views of the last thirty days, each once; and
    the last entry of the daily series is today with today's figures. *)
Theorem dashboard_home_figures_fit order_by order_by_count w db :
  Staff.is_newest_first order_by ->
  Orm.is_order_by_count_desc order_by_count ->
  31 <= Dates.date_of (now w) <= Dates.MAXORDINAL ->
  exists context,
    Staff.dashboard_home order_by order_by_count w db = Ok context /\
    Staff.home_total_contacts context = Orm.count (contacts db) /\
    Staff.total_views context = Orm.count (page_views db) /\
    0 <= Staff.unread_contacts context <= Staff.home_total_contacts context /\
    0 <= Staff.today_contacts context <= Staff.home_total_contacts context /\
    Staff.today_visitors context <= Staff.today_views context <= Staff.total_views context /\
    Staff.today_visitors context <= Staff.unique_visitors context <= Staff.total_views context /\
    length (Staff.recent_contacts context) = Nat.min 5 (length (contacts db)) /\
    Staff.recent_contacts context ⊆+ contacts db /\
    Sorted Staff.created_ge (Staff.recent_contacts context) /\
    (forall c c', c ∈ Staff.recent_contacts context -> c' ∈ contacts db ->
                  Contact.created_at c < Contact.created_at c' ->
                  c' ∈ Staff.recent_contacts context) /\
    (length (Staff.top_countries context) <= 5)%nat /\
    Tally.sum (map snd (Staff.device_stats context))
    = Orm.count (filter (fun pv => Dates.date_of (now w) - 30
                                   <= Dates.date_of (PageView.timestamp pv))
                        (page_views db)) /\
    last (Staff.home_daily_stats context)
    = Some {| Site.day := Dates.date_of (now w);
              Site.day_views := Staff.today_views context;
              Site.day_visitors := Staff.today_visitors context;
              Site.day_contacts := Staff.today_contacts context |}.
Proof.
  intros Hnewest Hcount Htoday. unfold Staff.dashboard_home.
  rewrite add_days_in_range by lia. cbn [Views.rbind].
  rewrite (proj2 (seven_days w db ltac:(lia))). cbn [Views.rbind].
  eexists. split; [reflexivity|].
  cbn [Staff.home_total_contacts Staff.unread_contacts Staff.total_views
       Staff.unique_visitors Staff.today_contacts Staff.today_views
       Staff.today_visitors Staff.recent_contacts Staff.top_countries
       Staff.device_stats Staff.home_daily_stats].
  destruct (Hnewest (contacts db)) as [Hperm Hsorted].
  split; [reflexivity|]. split; [reflexivity|].
  split; [unfold Orm.count; split; [lia|apply inj_le, length_filter]|].
  split; [unfold Orm.count; split; [lia|apply inj_le, length_filter]|].
  split.
  { split.
    - etransitivity; [apply distinct_le|]. unfold Orm.count. by rewrite length_map.
    - unfold Orm.count, PageView.on_date. apply inj_le, length_filter. }
  split.
  { split.
    - apply distinct_filter_le; apply _.
    - etransitivity; [apply distinct_le|]. unfold Orm.count. by rewrite length_map. }
  split; [by rewrite length_take, (Permutation_length Hperm)|].
  split; [rewrite <- Hperm at 2; apply sublist_submseteq, sublist_take|].
  split; [by apply sorted_take|].
  split; [intros c c'; by apply newest_are_first|].
  split; [apply top_values_length|].
  split.
  { match goal with
    | |- Tally.sum (map snd (order_by_count ?rows)) = _ =>
        destruct (Hcount rows) as [Hp _]; rewrite (sum_permutation _ _ Hp)
    end.
    rewrite annotate_count_sum. unfold Orm.count. rewrite length_map.
    do 2 f_equal. }
  assert (Hseq : seqZ (Dates.date_of (now w) - 6) 7
                 = seqZ (Dates.date_of (now w) - 6) 6 ++ [Dates.date_of (now w)]).
  { change 7 with (6 + 1). rewrite seqZ_app by lia. f_equal.
    unfold seqZ. simpl. f_equal. lia. }
  by rewrite Hseq, map_app, last_app.
Qed.

Lemma dashboard_home_figures_fit_witness :
  exists context,
    Staff.dashboard_home StaffSample.newest_first Orm.stable_order Sample.offline
      StaffSample.two_contacts = Ok context /\
    Staff.home_total_contacts context = 2 /\
    Staff.total_views context = 0.
Proof.
  destruct (dashboard_home_figures_fit StaffSample.newest_first Orm.stable_order
              Sample.offline StaffSample.two_contacts newest_first_ok stable_order_ok)
    as (context & Hrun & Hcontacts & Hviews & _).
  - vm_compute. split; discriminate.
  - exists context. split; [exact Hrun|]. split; [exact Hcontacts|exact Hviews].
Defined.

(** On the first thirty days of the calendar [dashboard_home] raises
    [OverflowError]: the date thirty days before today does not exist. *)
Theorem dashboard_home_needs_thirty_days order_by order_by_count w db :
  Dates.date_of (now w) <= 30 ->
  Staff.dashboard_home order_by order_by_count w db = Raise OverflowError.
Proof.
  intros Hearly. unfold Staff.dashboard_home, Dates.add_days, Dates.MINORDINAL.
  destruct (Z.leb_spec 1 (Dates.date_of (now w) + -30)); [lia|reflexivity].
Qed.

Lemma dashboard_home_needs_thirty_days_witness :
  Staff.dashboard_home StaffSample.newest_first Orm.stable_order StaffSample.first_month
    StaffSample.two_contacts = Raise OverflowError.
Proof.
  apply (dashboard_home_needs_thirty_days StaffSample.newest_first Orm.stable_order
           StaffSample.first_month StaffSample.two_contacts).
  vm_compute. discriminate.
Defined.
